(** * Verification of [auxiliary.py], the plotting helpers of the respy tutorial

    The module is glue code over pandas and matplotlib.  The embedding keeps
    the two sides apart:

    - the Python code of [auxiliary.py] is translated statement by statement
      into a state-and-exception monad [M];
    - every call into pandas or matplotlib is a primitive of that monad which
      is logged, together with its outcome, in the [trace] of the [World].

    The data side of pandas (query, groupby, value_counts, unstack,
    read_pickle) is given its documented meaning: a dataframe has named
    index levels beside its columns, and [groupby] and [query] take either;
    a cell may be missing (NaN), in which case [groupby] and [value_counts]
    leave its row out; normalized counts are IEEE 754 doubles.  The rendering side is an oracle
    carried by the world ([Backend]): a call may raise whatever the backend
    decides, and the handles and labels of an axes are whatever the backend
    reports, so every theorem holds for all behaviours of the plotting
    library. *)

From Stdlib Require Import ZArith QArith String Ascii List Lia SpecFloat.
From stdpp Require Import base option list sorting strings gmap.

Local Open Scope Z_scope.
Local Open Scope string_scope.
Local Open Scope list_scope.
Local Open Scope stdpp_scope.

(** ** Data model *)

(** A cell of a table: an integer (a period, an experience level), a label
    (a choice, a covariate value), or a missing value (NaN). *)
Inductive value :=
| VInt (n : Z)
| VStr (s : string)
| VNaN.

#[global] Instance value_eq_dec : EqDecision value.
Proof. solve_decision. Defined.

(** Order used by pandas when it sorts group keys and unstacked labels:
    numbers by magnitude, labels lexicographically, numbers before labels,
    a missing value last. *)
Definition value_leb (a b : value) : bool :=
  match a, b with
  | VInt n, VInt m => (n <=? m)%Z
  | VInt _, VStr _ => true
  | VStr _, VInt _ => false
  | VStr s, VStr t => String.leb s t
  | _, VNaN => true
  | VNaN, _ => false
  end.

Definition value_le (a b : value) : Prop := value_leb a b = true.

#[global] Instance value_le_dec : RelDecision value_le.
Proof. intros a b. unfold value_le. apply _. Defined.

(** A dataframe: the names of its index levels, its column labels, and the
    rows under them.  A row lists the values of the index levels, then the
    cells under the columns; a row that is shorter is read as padded with
    empty labels. *)
Record DataFrame := mkIndexed {
  index_names : list string;
  columns : list string;
  rows : list (list value)
}.

(** A dataframe without a named index level (the default index). *)
Definition mkFrame (cols : list string) (cells : list (list value)) : DataFrame :=
  mkIndexed [] cols cells.

Definition empty_frame : DataFrame := mkFrame [] [].

Fixpoint column_index (name : string) (cols : list string) : option nat :=
  match cols with
  | [] => None
  | c :: cols' =>
      if String.eqb c name then Some O
      else option_map S (column_index name cols')
  end.

Definition has_column (df : DataFrame) (name : string) : bool :=
  match column_index name (columns df) with Some _ => true | None => false end.

Definition has_level (df : DataFrame) (name : string) : bool :=
  match column_index name (index_names df) with Some _ => true | None => false end.

(** The value of a row under [name]: the cell of the column of that name
    or, when there is no such column, the value of the index level of that
    name. *)
Definition cell (df : DataFrame) (name : string) (r : list value) : value :=
  match column_index name (columns df) with
  | Some i => nth (length (index_names df) + i) r (VStr EmptyString)
  | None =>
      match column_index name (index_names df) with
      | Some i => nth i r (VStr EmptyString)
      | None => VStr EmptyString
      end
  end.

(** [df.groupby(key)] takes the label of a column or the name of an index
    level; a name that is both is ambiguous, one that is neither is not
    found. *)
Definition groupable (df : DataFrame) (key : string) : bool :=
  xorb (has_column df key) (has_level df key).

(** [df.query] resolves a name to a column or, failing that, to an index
    level. *)
Definition resolves (df : DataFrame) (name : string) : bool :=
  has_column df name || has_level df name.

(** The values under one name, top to bottom; for a column this is
    [df[name]]. *)
Definition column_values (df : DataFrame) (name : string) : list value :=
  map (cell df name) (rows df).

(** Numbers as pandas computes them: IEEE 754 binary64, with the operations
    of [SpecFloat] (round to nearest, ties to even). *)
Definition float64 := spec_float.

Definition float_of_nat (n : nat) : float64 :=
  binary_normalize 53 1024 (Z.of_nat n) 0 false.

Definition float_div (x y : float64) : float64 := SFdiv 53 1024 x y.
Definition float_add (x y : float64) : float64 := SFadd 53 1024 x y.
Definition float_eqb (x y : float64) : bool := SFeqb x y.

(** The real number a finite double stands for. *)
Definition float_value (x : float64) : Q :=
  match x with
  | S754_finite s m e =>
      (inject_Z (if s then Z.neg m else Z.pos m) * Qpower 2 e)%Q
  | _ => 0%Q
  end.

(** [df.groupby(key).col]: for every row its group key, read from the column
    or the index level [key], and its value; a row whose key is missing
    belongs to no group. *)
Definition SeriesGroupBy := list (value * value).

Record GroupBy := mkGroupBy {
  g_frame : DataFrame;
  g_key : string
}.

Definition select (g : GroupBy) (col : string) : SeriesGroupBy :=
  filter (fun kv => kv.1 <> VNaN)
         (map (fun r => (cell (g_frame g) (g_key g) r, cell (g_frame g) col r))
              (rows (g_frame g))).

(** A series indexed by (group key, value), as [value_counts] returns it. *)
Definition Series := list (value * value * float64).

(** An unstacked series: one line per group key, one labelled cell per
    column; [None] is a missing cell (NaN). *)
Definition Table := list (value * list (value * option float64)).

(** The entries whose value is not missing ([dropna=True], the default of
    [value_counts]). *)
Definition recorded (g : SeriesGroupBy) : SeriesGroupBy :=
  filter (fun kv => kv.2 <> VNaN) g.

Definition group_rows (g : SeriesGroupBy) (p : value) : list value :=
  map snd (filter (fun kv => kv.1 = p) g).

Definition occurrences (c : value) (l : list value) : nat :=
  length (filter (fun x => x = c) l).

Definition count_ge (l : list value) (a b : value) : Prop :=
  (occurrences b l <= occurrences a l)%nat.

#[global] Instance count_ge_dec l : RelDecision (count_ge l).
Proof. intros a b. unfold count_ge. apply _. Defined.

(** [SeriesGroupBy.value_counts(normalize)]: missing values are left out;
    group keys in sorted order, and inside a group the observed values by
    decreasing count; with [normalize] the count is divided, in floating
    point, by the number of recorded values of the group. *)
Definition value_counts (normalize : bool) (g : SeriesGroupBy) : Series :=
  let g := recorded g in
  flat_map
    (fun p =>
       let grp := group_rows g p in
       map (fun c =>
              let n := float_of_nat (occurrences c grp) in
              (p, c, if normalize
                     then float_div n (float_of_nat (length grp))
                     else n))
           (merge_sort (count_ge grp) (remove_dups grp)))
    (merge_sort value_le (remove_dups (map fst g))).

Fixpoint series_get (s : Series) (p c : value) : option float64 :=
  match s with
  | [] => None
  | (p', c', x) :: s' =>
      if bool_decide (p' = p /\ c' = c) then Some x else series_get s' p c
  end.

(** [Series.unstack()]: the inner index level becomes the columns, both
    label sets sorted; a combination that is absent from the series is a
    missing cell. *)
Definition unstack (s : Series) : Table :=
  let idx := merge_sort value_le (remove_dups (map (fun e => e.1.1) s)) in
  let cols := merge_sort value_le (remove_dups (map (fun e => e.1.2) s)) in
  map (fun p => (p, map (fun c => (c, series_get s p c)) cols)) idx.

Fixpoint table_row (t : Table) (p : value)
    : option (list (value * option float64)) :=
  match t with
  | [] => None
  | (p', r) :: t' => if bool_decide (p' = p) then Some r else table_row t' p
  end.

(** Height of a stacked bar: the cells of a line added up from the left, in
    floating point, a missing cell counting for nothing. *)
Definition row_total (r : list (value * option float64)) : float64 :=
  fold_left (fun acc cell => match cell.2 with
                             | Some x => float_add acc x
                             | None => acc
                             end)
            r (float_of_nat 0).

(** The same sum taken exactly, over the real numbers the cells stand
    for. *)
Fixpoint row_total_exact (r : list (value * option float64)) : Q :=
  match r with
  | [] => 0%Q
  | (_, Some x) :: r' => (float_value x + row_total_exact r')%Q
  | (_, None) :: r' => row_total_exact r'
  end.

(** [df.query("col == @v")]: the rows whose value under [col] equals [v],
    with the index and the columns of [df]. *)
Definition query_eq (df : DataFrame) (col : string) (v : value) : DataFrame :=
  mkIndexed (index_names df) (columns df)
            (filter (fun r => cell df col r = v) (rows df)).

(** The whole aggregation chain
    [df.groupby(key).col.value_counts(normalize=True).unstack()]. *)
Definition shares (df : DataFrame) (key col : string) : Table :=
  unstack (value_counts true (select (mkGroupBy df key) col)).

(** ** Python values used by the module *)

Definition loc := nat.
Definition axes := nat.
Definition figure := nat.
Definition handle := nat.

(** Keyword arguments, in the order the source writes them. *)
Inductive arg :=
| AInt (n : Z)
| ANum (q : Q)
| ABool (b : bool)
| AStr (s : string)
| AStrs (l : list string)
| APair (x y : Q).

Definition kwargs := list (string * arg).

Fixpoint kwarg (name : string) (kw : kwargs) : option arg :=
  match kw with
  | [] => None
  | (k, v) :: kw' => if String.eqb k name then Some v else kwarg name kw'
  end.

(** A Python [dict]: keys in insertion order, assignment to a present key
    replaces its value in place. *)
Fixpoint dict_set {V} (k : string) (v : V) (d : list (string * V)) : list (string * V) :=
  match d with
  | [] => [(k, v)]
  | (k', v') :: d' =>
      if String.eqb k' k then (k', v) :: d' else (k', v') :: dict_set k v d'
  end.

Fixpoint dict_get {V} (k : string) (d : list (string * V)) : option V :=
  match d with
  | [] => None
  | (k', v) :: d' => if String.eqb k' k then Some v else dict_get k d'
  end.

(** [dict(pairs)] *)
Definition dict_of {V} (pairs : list (string * V)) : list (string * V) :=
  fold_left (fun d kv => dict_set kv.1 kv.2 d) pairs [].

Definition dict_keys {V} (d : list (string * V)) : list string := map fst d.
Definition dict_values {V} (d : list (string * V)) : list V := map snd d.

Fixpoint enumerate_from {A} (i : nat) (l : list A) : list (nat * A) :=
  match l with
  | [] => []
  | x :: l' => (i, x) :: enumerate_from (S i) l'
  end.

Definition enumerate {A} (l : list A) : list (nat * A) := enumerate_from 0 l.

(** [str.capitalize] and [str.replace("_", " ")] on ASCII text. *)
Definition upper (c : ascii) : ascii :=
  let n := nat_of_ascii c in
  if ((97 <=? n)%nat && (n <=? 122)%nat)%bool then ascii_of_nat (n - 32) else c.

Definition lower (c : ascii) : ascii :=
  let n := nat_of_ascii c in
  if ((65 <=? n)%nat && (n <=? 90)%nat)%bool then ascii_of_nat (n + 32) else c.

Fixpoint string_map (f : ascii -> ascii) (s : string) : string :=
  match s with
  | EmptyString => EmptyString
  | String c s' => String (f c) (string_map f s')
  end.

Definition capitalize (s : string) : string :=
  match s with
  | EmptyString => EmptyString
  | String c s' => String (upper c) (string_map lower s')
  end.

Definition replace_underscores (s : string) : string :=
  string_map (fun c => if Ascii.eqb c "_"%char then " "%char else c) s.

(** ** Exceptions, library calls and the world *)

Inductive exn :=
| UnboundLocalError (name : string)
| IndexError
| DictKeyError (key : string)
| FileNotFoundError (path : string)
| KeyError (key : string)
| ValueError (name : string)
| AttributeError (name : string)
| UndefinedVariableError (name : string)
| BackendError (msg : string).

(** The calls the module makes into pandas and matplotlib.  Data arguments
    that are rendered are recorded by value. *)
Inductive call :=
| ReadPickle (path : string)
| Query (df : loc) (col : string) (v : value)
| GroupByCall (df : loc) (key : string)
| GetAttr (col : string)
| ValueCounts (normalize : bool)
| Unstack
| Columns (df : loc)
| GetItem (df : loc) (col : string)
| Subplots (nrows ncols : nat) (kw : kwargs)
| PlotBar (t : Table) (ax : axes) (kw : kwargs)
| PlotFrame (df : DataFrame) (ax : axes) (kw : kwargs)
| AxPlot (ax : axes) (ys : list value) (kw : kwargs)
| SetTitle (ax : axes) (title : string) (kw : kwargs)
| SetXLabel (ax : axes) (label : string)
| XAxisLabelSetVisible (ax : axes) (b : bool)
| Margins (ax : axes) (kw : kwargs)
| SpineSetVisible (ax : axes) (side : string) (b : bool)
| Gca
| GetLegendHandlesLabels (ax : axes)
| PltLegend (entries : option (list handle * list string)) (kw : kwargs)
| AxLegend (ax : axes) (kw : kwargs)
| Suptitle (title : string) (kw : kwargs)
| Xticks (kw : kwargs)
| Delaxes (fig : figure) (ax : axes)
| Show
| Close.

Inductive outcome :=
| Returned
| Raised (e : exn).

Definition entry := (call * outcome)%type.

(** What the libraries decide on their own: whether a call raises, which
    axes is current, and which artists an axes reports for its legend.  Each
    answer may depend on everything that was called before. *)
Record Backend := mkBackend {
  raises : list entry -> call -> option exn;
  current_axes : list entry -> axes;
  legend_handles_labels : list entry -> axes -> list handle * list string
}.

Record World := mkWorld {
  backend : Backend;
  files : gmap string DataFrame;
  heap : list DataFrame;
  figures : nat;
  axes_made : nat;
  trace : list entry
}.

(** Reading a reference; one that points nowhere reads as the empty frame. *)
Definition deref (h : list DataFrame) (l : loc) : DataFrame :=
  default empty_frame (h !! l).

Definition log (c : call) (o : outcome) (w : World) : World :=
  mkWorld (backend w) (files w) (heap w) (figures w) (axes_made w)
          (trace w ++ [(c, o)]).

Definition alloc (df : DataFrame) (w : World) : loc * World :=
  (length (heap w),
   mkWorld (backend w) (files w) (heap w ++ [df]) (figures w) (axes_made w)
           (trace w)).

Definition new_figure (n : nat) (w : World) : World :=
  mkWorld (backend w) (files w) (heap w) (S (figures w)) (axes_made w + n)
          (trace w).

(** ** The monad *)

Inductive result (A : Type) :=
| Ok (a : A)
| Raise (e : exn).
Arguments Ok {A} a.
Arguments Raise {A} e.

Definition M (A : Type) : Type := World -> result A * World.

Definition ret {A} (a : A) : M A := fun w => (Ok a, w).

Definition bind {A B} (m : M A) (f : A -> M B) : M B :=
  fun w =>
    match m w with
    | (Ok a, w') => f a w'
    | (Raise e, w') => (Raise e, w')
    end.

Definition raise {A} (e : exn) : M A := fun w => (Raise e, w).

#[global] Instance M_ret : MRet M := @ret.
#[global] Instance M_bind : MBind M := fun A B f m => bind m f.

(** A call into a library: the backend may raise; otherwise the call has the
    meaning [sem].  Either way the call is logged with its outcome. *)
Definition lib {A} (c : call) (sem : World -> result A * World) : M A :=
  fun w =>
    match raises (backend w) (trace w) c with
    | Some e => (Raise e, log c (Raised e) w)
    | None =>
        match sem w with
        | (Ok a, w') => (Ok a, log c Returned w')
        | (Raise e, w') => (Raise e, log c (Raised e) w')
        end
    end.

(** Reading a local variable that may not have been assigned. *)
Definition local {A} (name : string) (v : option A) : M A :=
  match v with
  | Some a => ret a
  | None => raise (UnboundLocalError name)
  end.

(** [a[i]] on a list or an array. *)
Definition item {A} (a : list A) (i : nat) : M A :=
  match a !! i with
  | Some x => ret x
  | None => raise IndexError
  end.

(** [d[k]] on a dict. *)
Definition dict_item {V} (d : list (string * V)) (k : string) : M V :=
  match dict_get k d with
  | Some v => ret v
  | None => raise (DictKeyError k)
  end.

(** [for x in l: body x] *)
Fixpoint for_each {A} (l : list A) (body : A -> M unit) : M unit :=
  match l with
  | [] => ret tt
  | x :: l' => body x;; for_each l' body
  end.

(** [for x in l: st = body st x], for loops that assign locals. *)
Fixpoint for_fold {A S} (l : list A) (st : S) (body : S -> A -> M S) : M S :=
  match l with
  | [] => ret st
  | x :: l' => st' ← body st x; for_fold l' st' body
  end.

(** ** The pandas calls *)

(** [pd.read_pickle(path)]: a fresh dataframe holding the file's table. *)
Definition pd_read_pickle (path : string) : M loc :=
  lib (ReadPickle path) (fun w =>
    match files w !! path with
    | Some df => let (l, w') := alloc df w in (Ok l, w')
    | None => (Raise (FileNotFoundError path), w)
    end).

(** [df.query("col == @v")]: a fresh dataframe, [df] itself is not touched. *)
Definition df_query (df : loc) (col : string) (v : value) : M loc :=
  lib (Query df col v) (fun w =>
    if resolves (deref (heap w) df) col
    then let (l, w') := alloc (query_eq (deref (heap w) df) col v) w in (Ok l, w')
    else (Raise (UndefinedVariableError col), w)).

(** The exception of [df.groupby(key)] for a key it cannot take: a value
    error when the key names both a column and an index level, a key error
    when it names neither. *)
Definition groupby_error (df : DataFrame) (key : string) : exn :=
  if has_column df key then ValueError key else KeyError key.

Definition df_groupby (df : loc) (key : string) : M GroupBy :=
  lib (GroupByCall df key) (fun w =>
    if groupable (deref (heap w) df) key
    then (Ok (mkGroupBy (deref (heap w) df) key), w)
    else (Raise (groupby_error (deref (heap w) df) key), w)).

(** [g.col]: attribute access reaches the columns only. *)

Definition groupby_getattr (g : GroupBy) (col : string) : M SeriesGroupBy :=
  lib (GetAttr col) (fun w =>
    if has_column (g_frame g) col
    then (Ok (select g col), w)
    else (Raise (AttributeError col), w)).

Definition sgb_value_counts (g : SeriesGroupBy) (normalize : bool) : M Series :=
  lib (ValueCounts normalize) (fun w => (Ok (value_counts normalize g), w)).

Definition series_unstack (s : Series) : M Table :=
  lib Unstack (fun w => (Ok (unstack s), w)).

Definition df_columns (df : loc) : M (list string) :=
  lib (Columns df) (fun w => (Ok (columns (deref (heap w) df)), w)).

Definition df_getitem (df : loc) (col : string) : M (list value) :=
  lib (GetItem df col) (fun w =>
    if has_column (deref (heap w) df) col
    then (Ok (column_values (deref (heap w) df) col), w)
    else (Raise (KeyError col), w)).

(** ** The matplotlib calls *)

Definition render (c : call) : M unit :=
  lib c (fun w => (Ok tt, w)).

(** [plt.subplots(nrows, ncols, **kw)]: a new figure and its axes, row by
    row. *)
Definition plt_subplots (nrows ncols : nat) (kw : kwargs) : M (figure * list axes) :=
  lib (Subplots nrows ncols kw) (fun w =>
    (Ok (figures w, seq (axes_made w) (nrows * ncols)),
     new_figure (nrows * ncols) w)).

(** [plt.subplots()]: one row, one column, and the axes itself instead of an
    array. *)
Definition plt_subplots0 : M (figure * axes) :=
  lib (Subplots 1 1 []) (fun w => (Ok (figures w, axes_made w), new_figure 1 w)).

(** [ndarray.ravel()]: axes arrays are kept flat, row by row. *)
Definition ravel (a : list axes) : list axes := a.

Definition plot_bar (t : Table) (ax : axes) (kw : kwargs) : M unit :=
  render (PlotBar t ax kw).

Definition df_plot (df : loc) (ax : axes) (kw : kwargs) : M unit :=
  fun w => render (PlotFrame (deref (heap w) df) ax kw) w.

Definition ax_plot (ax : axes) (ys : list value) (kw : kwargs) : M unit :=
  render (AxPlot ax ys kw).

Definition ax_set_title (ax : axes) (title : string) (kw : kwargs) : M unit :=
  render (SetTitle ax title kw).

Definition ax_set_xlabel (ax : axes) (label : string) : M unit :=
  render (SetXLabel ax label).

Definition xaxis_label_set_visible (ax : axes) (b : bool) : M unit :=
  render (XAxisLabelSetVisible ax b).

Definition ax_margins (ax : axes) (kw : kwargs) : M unit :=
  render (Margins ax kw).

Definition spine_set_visible (ax : axes) (side : string) (b : bool) : M unit :=
  render (SpineSetVisible ax side b).

Definition plt_gca : M axes :=
  lib Gca (fun w => (Ok (current_axes (backend w) (trace w)), w)).

Definition ax_get_legend_handles_labels (ax : axes) : M (list handle * list string) :=
  lib (GetLegendHandlesLabels ax) (fun w =>
    (Ok (legend_handles_labels (backend w) (trace w) ax), w)).

Definition plt_legend (entries : option (list handle * list string)) (kw : kwargs) : M unit :=
  render (PltLegend entries kw).

Definition ax_legend (ax : axes) (kw : kwargs) : M unit :=
  render (AxLegend ax kw).

Definition plt_suptitle (title : string) (kw : kwargs) : M unit :=
  render (Suptitle title kw).

Definition plt_xticks (kw : kwargs) : M unit := render (Xticks kw).
Definition fig_delaxes (fig : figure) (ax : axes) : M unit := render (Delaxes fig ax).
Definition plt_show : M unit := render Show.
Definition plt_close : M unit := render Close.

(** ** The functions of [auxiliary.py] *)

(** The chain [df.groupby(key).col.value_counts(normalize=True).unstack()],
    call by call. *)
Definition grouped_shares (df : loc) (key col : string) : M Table :=
  g ← df_groupby df key;
  sg ← groupby_getattr g col;
  vc ← sgb_value_counts sg true;
  series_unstack vc.

Definition plot_fishing_grounds (df : loc) : M unit :=
  '(fig, ax) ← plt_subplots 1 2 [("figsize", APair 10 4)];
  for_each (enumerate ["rich"; "poor"]) (fun '(i, observable) =>
    q ← df_query df "Fishing_Grounds" (VStr observable);
    t ← grouped_shares q "Period" "Choice";
    a ← item ax i;
    plot_bar t a [("width", ANum 0.4); ("stacked", ABool true);
                  ("rot", AInt 0); ("legend", ABool false)];;
    a ← item ax i;
    ax_set_title a ("Fishing grounds: " +:+ observable) [("pad", AInt 10)];;
    a ← item ax i;
    xaxis_label_set_visible a false);;
  plt_legend None [("loc", AStr "lower center");
                   ("bbox_to_anchor", APair (-0.15) (-0.3)); ("ncol", AInt 2)];;
  plt_suptitle "Robinson's choices by period" [("y", ANum 1.05)];;
  plt_show.

Definition plot_choice_shares (df : loc) (friday : bool) : M unit :=
  let '(color, choices) :=
    if friday then (["C0"; "C2"; "C1"], 3) else (["C0"; "C1"], 2) in
  '(fig, ax) ← plt_subplots0;
  t ← grouped_shares df "Period" "Choice";
  plot_bar t ax [("stacked", ABool true); ("color", AStrs color)];;
  plt_xticks [("rotation", AStr "horizontal")];;
  plt_legend None [("loc", AStr "lower center");
                   ("bbox_to_anchor", APair 0.5 (-0.275)); ("ncol", AInt choices)];;
  plt_show;;
  plt_close.

Definition plot_choice_prob_and_exp_level (df : loc) : M unit :=
  '(fig, axs) ← plt_subplots 1 2 [("figsize", APair 10 4)];
  t ← grouped_shares df "Period" "Choice";
  a ← item axs 0;
  plot_bar t a [("stacked", ABool true); ("rot", AInt 0);
                ("title", AStr "Choice Probabilities")];;
  t ← grouped_shares df "Period" "Experience_Fishing";
  a ← item axs 1;
  plot_bar t a [("stacked", ABool true); ("rot", AInt 0);
                ("title", AStr "Share of Experience Level per Period");
                ("cmap", AStr "Blues")];;
  a ← item axs 0;
  ax_legend a [("loc", AStr "lower center");
               ("bbox_to_anchor", APair 0.5 (-0.4)); ("ncol", AInt 2)];;
  a ← item axs 1;
  ax_legend a [("loc", AStr "right"); ("bbox_to_anchor", APair 1.3 0.5);
               ("ncol", AInt 1); ("title", AStr "Experience")];;
  plt_show.

Definition plot_choice_prob (df : loc) : M unit :=
  '(fig, ax) ← plt_subplots0;
  t ← grouped_shares df "Period" "Choice";
  plot_bar t ax [("stacked", ABool true)];;
  plt_xticks [("rotation", AStr "horizontal")];;
  plt_legend None [("loc", AStr "lower center");
                   ("bbox_to_anchor", APair 0.5 (-0.275)); ("ncol", AInt 2)];;
  plt_show;;
  plt_close.

(** [f"data/choices_{model}.pkl"] *)
Definition pickle_path (model : string) : string :=
  "data/choices_" +:+ model +:+ ".pkl".

Definition models_1994 : list string := ["kw_94_one"; "kw_94_two"; "kw_94_three"].
Definition models_1997 : list string := ["kw_97_basic"; "kw_97_extended"].

(** The locals [fig], [ax] and [models] of [plot_choices_kw] are assigned
    only inside the two [if] statements, so each is an optional value. *)
Definition kw_locals := (option figure * option (list axes) * option (list string))%type.

Definition plot_choices_kw (example : string) : M unit :=
  st ← (if String.eqb example "1994"
        then '(fig, ax) ← plt_subplots 1 3 [("figsize", APair 15 5)];
             mret ((Some fig, Some ax, Some models_1994) : kw_locals)
        else mret ((None, None, None) : kw_locals));
  st ← (if String.eqb example "1997"
        then '(fig, ax) ← plt_subplots 1 2 [("figsize", APair 15 5)];
             mret ((Some fig, Some ax, Some models_1997) : kw_locals)
        else mret st);
  let '(fig, ax, models) := st in
  ms ← local "models" models;
  for_each (enumerate ms) (fun '(i, model) =>
    df ← pd_read_pickle (pickle_path model);
    axv ← local "ax" ax;
    a ← item axv i;
    df_plot df a [("alpha", ANum 0.8); ("stacked", ABool true);
                  ("legend", ABool false); ("kind", AStr "area");
                  ("rot", AInt 0); ("title", AStr ("Example model: " +:+ model));
                  ("linewidth", AInt 0)];;
    axv ← local "ax" ax;
    a ← item axv i;
    df_plot df a [("stacked", ABool true); ("legend", ABool false);
                  ("color", AStr "white"); ("linewidth", AInt 1);
                  ("rot", AInt 0)];;
    axv ← local "ax" ax;
    a ← item axv i;
    ax_margins a [("x", AInt 0)];;
    axv ← local "ax" ax;
    a ← item axv i;
    spine_set_visible a "right" false;;
    axv ← local "ax" ax;
    a ← item axv i;
    spine_set_visible a "top" false;;
    cur ← plt_gca;
    '(handles, labels) ← ax_get_legend_handles_labels cur;
    let by_label := dict_of (zip labels handles) in
    axv ← local "ax" ax;
    let move_left := if (length axv mod 2 =? 1)%nat then (-0.7)%Q else (-0.2)%Q in
    cols ← df_columns df;
    plt_legend (Some (dict_values by_label, dict_keys by_label))
               [("loc", AStr "lower center");
                ("ncol", AInt (Z.of_nat (length cols)));
                ("bbox_to_anchor", APair move_left (-0.25));
                ("fontsize", AInt 12)]);;
  plt_show.

Definition models_97_comparison : list string :=
  ["kw_97_obs"; "kw_97_basic"; "kw_97_extended"].

Definition comparison_colors : list string :=
  ["tab:blue"; "tab:orange"; "tab:green"; "tab:red"; "tab:purple"].

Definition plot_kw_97_comparison : M unit :=
  let models := models_97_comparison in
  let colors := comparison_colors in
  '(df, data) ← for_fold models (None, [])
     (fun (st : option loc * list (string * loc)) model =>
        df ← pd_read_pickle (pickle_path model);
        mret (Some df, dict_set model df st.2));
  '(fig, ax) ← plt_subplots 2 3 [("figsize", APair 15 9)];
  let ax := ravel ax in
  dfv ← local "df" df;
  cols ← df_columns dfv;
  for_each (enumerate (zip cols colors)) (fun '(i, (choice, color)) =>
    a ← item ax i;
    d ← dict_item data "kw_97_obs";
    ys ← df_getitem d choice;
    ax_plot a ys [("linestyle", AStr "dashed"); ("color", AStr "k");
                  ("label", AStr "Observed")];;
    a ← item ax i;
    d ← dict_item data "kw_97_basic";
    ys ← df_getitem d choice;
    ax_plot a ys [("linestyle", AStr "dotted"); ("alpha", ANum 0.8);
                  ("color", AStr color); ("label", AStr "kw_97_basic")];;
    a ← item ax i;
    d ← dict_item data "kw_97_extended";
    ys ← df_getitem d choice;
    ax_plot a ys [("color", AStr color); ("alpha", ANum 0.8);
                  ("label", AStr "kw_97_extended")];;
    a ← item ax i;
    ax_set_title a (replace_underscores (capitalize choice)) [];;
    a ← item ax i;
    ax_set_xlabel a "Period");;
  a ← item ax 4;
  ax_legend a [("loc", AStr "lower center"); ("ncol", AInt 5);
               ("bbox_to_anchor", APair (-0.3) (-0.3)); ("fontsize", AInt 12)];;
  a ← item ax 5;
  fig_delaxes fig a;;
  plt_show.


(** ** Counting rows *)

(** Rows of [df] in period [p] whose outcome in [col] is recorded, and those
    among them with outcome [c]. *)
Definition n_rows (df : DataFrame) (key col : string) (p : value) : nat :=
  length (filter (fun r => cell df key r = p /\ cell df col r <> VNaN) (rows df)).

Definition n_cat (df : DataFrame) (key col : string) (p c : value) : nat :=
  length (filter (fun r => cell df key r = p /\ cell df col r = c) (rows df)).

(** The share of outcome [c] in period [p]: the double that the division
    of its count by the count of the period gives; an outcome that does not
    occur has no cell. *)
Definition share (df : DataFrame) (key col : string) (p c : value) : option float64 :=
  if (n_cat df key col p c =? 0)%nat then None
  else Some (float_div (float_of_nat (n_cat df key col p c))
                       (float_of_nat (n_rows df key col p))).

(** The same share as a rational, and the exact shares of the outcomes
    [labels] added up. *)
Definition exact_share (df : DataFrame) (key col : string) (p c : value) : Q :=
  (inject_Z (Z.of_nat (n_cat df key col p c))
   / inject_Z (Z.of_nat (n_rows df key col p)))%Q.

Fixpoint exact_total (df : DataFrame) (key col : string) (p : value)
    (labels : list value) : Q :=
  match labels with
  | [] => 0%Q
  | c :: labels' => (exact_share df key col p c + exact_total df key col p labels')%Q
  end.

Fixpoint total_occurrences (cs l : list value) : nat :=
  match cs with
  | [] => 0
  | c :: cs' => occurrences c l + total_occurrences cs' l
  end.


(** ** Observing a run *)

(** The log entries a run of [m] from [w] adds, and the calls among them. *)
Definition issued {A} (m : M A) (w : World) : list entry :=
  drop (length (trace w)) (trace (m w).2).

(** Running [m] from [w] ends in a result and a world that satisfy [Q]. *)
Definition wp {A} (m : M A) (w : World) (Q : result A -> World -> Prop) : Prop :=
  Q (m w).1 (m w).2.

Definition calls_of (evs : list entry) : list call := map fst evs.

Definition returned (e : entry) : Prop := e.2 = Returned.

(** A run is faithful to the libraries when it fails exactly where a library
    call failed, with that call's exception, and stops there. *)
Definition faithful {A} (r : result A) (evs : list entry) : Prop :=
  match r with
  | Ok _ => Forall returned evs
  | Raise e => exists before c, evs = before ++ [(c, Raised e)] /\ Forall returned before
  end.

(** What a complete run of [plot_choice_shares] asks of the libraries. *)
Definition choice_shares_script (df : loc) (t : Table) (ax : axes)
    (color : list string) (choices : Z) : list call :=
  [Subplots 1 1 []; GroupByCall df "Period"; GetAttr "Choice";
   ValueCounts true; Unstack;
   PlotBar t ax [("stacked", ABool true); ("color", AStrs color)];
   Xticks [("rotation", AStr "horizontal")];
   PltLegend None [("loc", AStr "lower center");
                   ("bbox_to_anchor", APair 0.5 (-0.275)); ("ncol", AInt choices)];
   Show; Close].

(** What a complete run of [plot_choice_prob] asks of the libraries. *)
Definition choice_prob_script (df : loc) (t : Table) (ax : axes) : list call :=
  [Subplots 1 1 []; GroupByCall df "Period"; GetAttr "Choice";
   ValueCounts true; Unstack;
   PlotBar t ax [("stacked", ABool true)];
   Xticks [("rotation", AStr "horizontal")];
   PltLegend None [("loc", AStr "lower center");
                   ("bbox_to_anchor", APair 0.5 (-0.275)); ("ncol", AInt 2)];
   Show; Close].

(** What a complete run of [plot_choice_prob_and_exp_level] asks. *)
Definition choice_prob_exp_script (df : loc) (choice experience : Table)
    (ax : axes) : list call :=
  [Subplots 1 2 [("figsize", APair 10 4)];
   GroupByCall df "Period"; GetAttr "Choice"; ValueCounts true; Unstack;
   PlotBar choice ax [("stacked", ABool true); ("rot", AInt 0);
                      ("title", AStr "Choice Probabilities")];
   GroupByCall df "Period"; GetAttr "Experience_Fishing"; ValueCounts true; Unstack;
   PlotBar experience (S ax)
           [("stacked", ABool true); ("rot", AInt 0);
            ("title", AStr "Share of Experience Level per Period");
            ("cmap", AStr "Blues")];
   AxLegend ax [("loc", AStr "lower center");
                ("bbox_to_anchor", APair 0.5 (-0.4)); ("ncol", AInt 2)];
   AxLegend (S ax) [("loc", AStr "right"); ("bbox_to_anchor", APair 1.3 0.5);
                    ("ncol", AInt 1); ("title", AStr "Experience")];
   Show].

(** One panel of [plot_fishing_grounds]: the rows of [d] on grounds
    [observable], held at [q] once filtered, drawn on [ax]. *)
Definition fishing_panel (df q : loc) (d : DataFrame) (observable : string)
    (ax : axes) : list call :=
  [Query df "Fishing_Grounds" (VStr observable);
   GroupByCall q "Period"; GetAttr "Choice"; ValueCounts true; Unstack;
   PlotBar (shares (query_eq d "Fishing_Grounds" (VStr observable)) "Period" "Choice")
           ax [("width", ANum 0.4); ("stacked", ABool true);
               ("rot", AInt 0); ("legend", ABool false)];
   SetTitle ax ("Fishing grounds: " +:+ observable) [("pad", AInt 10)];
   XAxisLabelSetVisible ax false].

(** What a complete run of [plot_fishing_grounds] asks of the libraries:
    [d] is the caller's table, [q] the first free reference. *)
Definition fishing_grounds_script (df q : loc) (d : DataFrame) (ax : axes) : list call :=
  [Subplots 1 2 [("figsize", APair 10 4)]]
  ++ fishing_panel df q d "rich" ax
  ++ fishing_panel df (S q) d "poor" (S ax)
  ++ [PltLegend None [("loc", AStr "lower center");
                      ("bbox_to_anchor", APair (-0.15) (-0.3)); ("ncol", AInt 2)];
      Suptitle "Robinson's choices by period" [("y", ANum 1.05)];
      Show].

(** ** What a list of calls reads and draws *)

(** The paths handed to [pd.read_pickle], the only call that touches the
    file system. *)
Definition pickles_read (cs : list call) : list string :=
  omap (fun c => match c with ReadPickle p => Some p | _ => None end) cs.

Definition subplot_grids (cs : list call) : list (nat * nat) :=
  omap (fun c => match c with Subplots r k _ => Some (r, k) | _ => None end) cs.

Definition bars_drawn (cs : list call) : list (Table * axes) :=
  omap (fun c => match c with PlotBar t ax _ => Some (t, ax) | _ => None end) cs.

(** Dataframes drawn by [df.plot], each with its axes and its title. *)
Definition frames_plotted (cs : list call) : list (DataFrame * axes * option arg) :=
  omap (fun c => match c with
                 | PlotFrame d ax kw => Some (d, ax, kwarg "title" kw)
                 | _ => None
                 end) cs.

Definition lines_plotted (cs : list call) : list (axes * list value * kwargs) :=
  omap (fun c => match c with AxPlot ax ys kw => Some (ax, ys, kw) | _ => None end) cs.

Definition titles_set (cs : list call) : list (axes * string) :=
  omap (fun c => match c with SetTitle ax t _ => Some (ax, t) | _ => None end) cs.

Definition axes_deleted (cs : list call) : list (figure * axes) :=
  omap (fun c => match c with Delaxes f ax => Some (f, ax) | _ => None end) cs.

Definition is_plt_legend (e : entry) : bool :=
  match e.1 with PltLegend _ _ => true | _ => false end.

(** How many times [plt.legend] was called in [evs]. *)
Definition legends_before (evs : list entry) : nat :=
  length (List.filter is_plt_legend evs).

(** What is asked of one [plt.legend] call that comes after the entries
    [pre]: it comes right after the handles and labels of an axes were asked
    for and the columns of the model's table were read; it passes the dict
    built from the answer, and as many columns as the table of the model of
    that round has. *)
Definition legend_from (w : World) (models : list string) (pre : list entry)
    (entries : option (list handle * list string)) (kw : kwargs) : Prop :=
  exists pre' ax l model d,
    pre = pre' ++ [(GetLegendHandlesLabels ax, Returned); (Columns l, Returned)] /\
    models !! legends_before pre = Some model /\
    files w !! pickle_path model = Some d /\
    let by_label :=
      dict_of (zip (legend_handles_labels (backend w) (trace w ++ pre') ax).2
                   (legend_handles_labels (backend w) (trace w ++ pre') ax).1) in
    entries = Some (dict_values by_label, dict_keys by_label) /\
    kwarg "ncol" kw = Some (AInt (Z.of_nat (length (columns d)))).

(** Every [plt.legend] call among [evs] is built that way. *)
Definition legend_built (w : World) (models : list string) (evs : list entry) : Prop :=
  forall pre entries kw o post,
    evs = pre ++ (PltLegend entries kw, o) :: post ->
    legend_from w models pre entries kw.

(** The same, checked entry by entry; [done] holds the entries already
    passed, latest first. *)
Definition legend_entry_ok (w : World) (models : list string) (done : list entry)
    (e : entry) : Prop :=
  match e.1 with
  | PltLegend entries kw => legend_from w models (rev done) entries kw
  | _ => True
  end.

Fixpoint legend_scan (w : World) (models : list string) (done evs : list entry) : Prop :=
  match evs with
  | [] => True
  | e :: evs' => legend_entry_ok w models done e /\ legend_scan w models (e :: done) evs'
  end.

(** A complete run of [plot_choices_kw] over [models]: one row of
    subplots, one table read per model, and every table drawn twice (area,
    then outline) on the axes of its model. *)
Definition kw_complete (w : World) (models : list string) (cs : list call) : Prop :=
  exists ds,
    Forall2 (fun m d => files w !! pickle_path m = Some d) models ds /\
    subplot_grids cs = [(1, length models)]%nat /\
    pickles_read cs = map pickle_path models /\
    frames_plotted cs =
      flat_map (fun '(i, (m, d)) =>
                  [(d, (i + axes_made w)%nat, Some (AStr ("Example model: " +:+ m)));
                   (d, (i + axes_made w)%nat, None)])
               (enumerate (zip models ds)).

(** ** Postconditions *)

(** The run from [w] issued a prefix of [script], all of it when it
    returned; it failed only where a library call failed; and it left every
    dataframe that was in memory in place. *)
Definition follows_script (w : World) (script : list call)
    (r : result unit) (w' : World) : Prop :=
  exists evs,
    trace w' = trace w ++ evs /\
    heap w `prefix_of` heap w' /\
    faithful r evs /\
    calls_of evs `prefix_of` script /\
    (r = Ok tt -> calls_of evs = script).

(** What a run of [plot_choices_kw] over [models] guarantees. *)
Definition kw_post (w : World) (models : list string)
    (r : result unit) (w' : World) : Prop :=
  exists evs,
    trace w' = trace w ++ evs /\
    faithful r evs /\
    pickles_read (calls_of evs) `prefix_of` map pickle_path models /\
    legend_built w models evs /\
    (r = Ok tt -> kw_complete w models (calls_of evs)).

(** A complete run of [plot_kw_97_comparison]: the three tables are read,
    and the outcomes drawn are the first five columns of the table read
    last, one per axes, each with the observed, the basic and the extended
    series; the sixth axes is deleted. *)
Definition comparison_complete (w : World) (cs : list call) : Prop :=
  exists obs basic ext,
    files w !! pickle_path "kw_97_obs" = Some obs /\
    files w !! pickle_path "kw_97_basic" = Some basic /\
    files w !! pickle_path "kw_97_extended" = Some ext /\
    let cols := take 5 (columns ext) in
    pickles_read cs = map pickle_path models_97_comparison /\
    subplot_grids cs = [(2, 3)]%nat /\
    lines_plotted cs =
      flat_map (fun '(i, (choice, color)) =>
                  [((i + axes_made w)%nat, column_values obs choice,
                    [("linestyle", AStr "dashed"); ("color", AStr "k");
                     ("label", AStr "Observed")]);
                   ((i + axes_made w)%nat, column_values basic choice,
                    [("linestyle", AStr "dotted"); ("alpha", ANum 0.8);
                     ("color", AStr color); ("label", AStr "kw_97_basic")]);
                   ((i + axes_made w)%nat, column_values ext choice,
                    [("color", AStr color); ("alpha", ANum 0.8);
                     ("label", AStr "kw_97_extended")])])
               (enumerate (zip cols comparison_colors)) /\
    titles_set cs =
      map (fun '(i, choice) =>
             ((i + axes_made w)%nat, replace_underscores (capitalize choice)))
          (enumerate cols) /\
    axes_deleted cs = [(figures w, (5 + axes_made w)%nat)].

(** What a run of [plot_kw_97_comparison] guarantees. *)
Definition comparison_post (w : World) (r : result unit) (w' : World) : Prop :=
  exists evs,
    trace w' = trace w ++ evs /\
    faithful r evs /\
    pickles_read (calls_of evs) `prefix_of` map pickle_path models_97_comparison /\
    (r = Ok tt -> comparison_complete w (calls_of evs)).

(** The rows of [d] that lie on grounds "rich" or "poor". *)
Definition only_grounds (d : DataFrame) : DataFrame :=
  mkIndexed (index_names d) (columns d)
          (filter (fun r => cell d "Fishing_Grounds" r = VStr "rich" \/
                            cell d "Fishing_Grounds" r = VStr "poor")
                  (rows d)).

(** The world [w] with the dataframe at [df] replaced by [d]. *)
Definition with_frame (w : World) (df : loc) (d : DataFrame) : World :=
  mkWorld (backend w) (files w) (<[df := d]> (heap w)) (figures w) (axes_made w)
          (trace w).

(** Running [m] from [w2] ends with the result [r1] and the trace of [w1]. *)
Definition same_run {A} (m : M A) (w2 : World) (r1 : result A) (w1 : World) : Prop :=
  wp m w2 (fun r2 w2' => r2 = r1 /\ trace w2' = trace w1).

(** A run raises exactly the exceptions its library calls raised. *)
Definition propagates_only (m : M unit) (w : World) : Prop :=
  forall e, (m w).1 = Raise e <-> exists c, (c, Raised e) ∈ issued m w.

(** [t] holds, for every period of [d] that has a row with a recorded
    outcome in [col], one line with the share of each outcome: the double
    that dividing its count in the period by the count of the period gives.
    No outcome is missing from the line or listed twice, so the counts
    behind the line add up to the count of the period: taken exactly, the
    shares of a period add up to one. *)
Definition normalized_shares (d : DataFrame) (key col : string) (t : Table) : Prop :=
  forall p,
    p <> VNaN ->
    (0 < n_rows d key col p)%nat ->
    exists line,
      table_row t p = Some line /\
      NoDup (map fst line) /\
      (forall c x, (c, x) ∈ line -> c <> VNaN /\ x = share d key col p c) /\
      (forall c, c <> VNaN -> (0 < n_cat d key col p c)%nat ->
                 (c, share d key col p c) ∈ line) /\
      (exact_total d key col p (map fst line) == 1)%Q.

(** ** A sample world *)

(** A backend on which no call fails, and whose axes report every label
    twice, as an area plot under an outline does. *)
Definition quiet_backend : Backend :=
  mkBackend (fun _ _ => None) (fun _ => 0%nat)
            (fun _ _ => ([1; 2; 3; 4]%nat, ["home"; "school"; "home"; "school"])).

Definition robinson : DataFrame :=
  mkFrame ["Period"; "Choice"; "Experience_Fishing"; "Fishing_Grounds"]
    [[VInt 0; VStr "fishing"; VInt 0; VStr "rich"];
     [VInt 0; VStr "hammock"; VInt 0; VStr "rich"];
     [VInt 0; VStr "fishing"; VInt 0; VStr "poor"];
     [VInt 0; VStr "fishing"; VInt 0; VStr "medium"];
     [VInt 1; VStr "fishing"; VInt 1; VStr "rich"];
     [VInt 1; VStr "hammock"; VInt 1; VStr "poor"];
     [VInt 1; VStr "hammock"; VInt 0; VStr "medium"]].

Definition simulated : DataFrame :=
  mkFrame ["blue_collar"; "white_collar"; "military"; "school"; "home"; "idle"]
    [[VInt 3; VInt 1; VInt 0; VInt 5; VInt 1; VInt 0];
     [VInt 4; VInt 2; VInt 1; VInt 2; VInt 1; VInt 0]].

Definition observed : DataFrame :=
  mkFrame ["home"; "school"; "military"; "white_collar"; "blue_collar"; "idle"; "total"]
    [[VInt 1; VInt 5; VInt 0; VInt 1; VInt 3; VInt 0; VInt 10];
     [VInt 1; VInt 2; VInt 1; VInt 2; VInt 4; VInt 0; VInt 10]].

Definition island_files : gmap string DataFrame :=
  list_to_map
    [(pickle_path "kw_94_one", simulated); (pickle_path "kw_94_two", simulated);
     (pickle_path "kw_94_three", simulated); (pickle_path "kw_97_obs", observed);
     (pickle_path "kw_97_basic", simulated);
     (pickle_path "kw_97_extended", simulated)].

Definition island : World := mkWorld quiet_backend island_files [robinson] 0 0 [].

(** ** Exceptions of the libraries *)

(** An exception that a library call raised is the result of the run, and
    that call was the last of the run. *)
Definition propagates (m : M unit) (w : World) : Prop :=
  forall c e,
    (c, Raised e) ∈ issued m w ->
    (m w).1 = Raise e /\ last (issued m w) = Some (c, Raised e).

(** The run raises nothing but what a library call raised. *)
Definition raises_only_from_library (m : M unit) (w : World) : Prop :=
  forall e, (m w).1 = Raise e -> exists c, (c, Raised e) ∈ issued m w.

(** ** More sample tables *)

(** Ten rows of one period, with the outcomes in the proportions 3, 3, 3
    and 1. *)
Definition ten_days : DataFrame :=
  mkFrame ["Period"; "Choice"]
    [[VInt 0; VStr "fishing"]; [VInt 0; VStr "fishing"]; [VInt 0; VStr "fishing"];
     [VInt 0; VStr "friday"]; [VInt 0; VStr "friday"]; [VInt 0; VStr "friday"];
     [VInt 0; VStr "hammock"]; [VInt 0; VStr "hammock"]; [VInt 0; VStr "hammock"];
     [VInt 0; VStr "idle"]].

(** A table as the tutorial simulates it, indexed by identifier and period,
    with gaps: an outcome and a period that were not recorded. *)
Definition logbook : DataFrame :=
  mkIndexed ["Identifier"; "Period"] ["Choice"]
    [[VInt 0; VInt 0; VStr "fishing"]; [VInt 1; VInt 0; VNaN];
     [VInt 2; VInt 0; VStr "hammock"]; [VInt 3; VInt 0; VStr "fishing"];
     [VInt 0; VInt 1; VStr "hammock"]; [VInt 1; VNaN; VStr "fishing"]].

(** The world [island] without the table of [model] on disk. *)
Definition without_file (model : string) : World :=
  mkWorld quiet_backend (delete (pickle_path model) island_files) [robinson] 0 0 [].


(** ** Outcomes on a backend that does not fail *)

(** A backend on which no call fails of its own: what can still go wrong is
    a missing file or a missing column. *)
Definition never_fails (b : Backend) : Prop := forall t c, raises b t c = None.

(** How [df.groupby(key).col] ends: a key that is not the name of a column
    or else of an index level is the error of [groupby], a missing column
    an attribute error. *)
Definition grouped_outcome (d : DataFrame) (key col : string) : result unit :=
  if groupable d key then
    if has_column d col then Ok tt else Raise (AttributeError col)
  else Raise (groupby_error d key).

(** The calls that chain makes before it ends. *)
Definition grouped_calls (d : DataFrame) (key col : string) : nat :=
  if groupable d key then if has_column d col then 4 else 2 else 1.

Definition is_ok (r : result unit) : bool :=
  match r with Ok _ => true | Raise _ => false end.

(** The run ends as [expected], after [calls_made] calls, when the backend
    does not fail, and it returns on no other input. *)
Definition outcome_post (w : World) (expected : result unit) (calls_made : nat)
    (r : result unit) (w' : World) : Prop :=
  (r = Ok tt -> expected = Ok tt) /\
  (never_fails (backend w) ->
   r = expected /\ length (trace w') = (length (trace w) + calls_made)%nat).

(** The outcome and the number of calls of the four functions that take a
    dataframe, on a backend that does not fail. *)
Definition choice_shares_outcome (d : DataFrame) : result unit :=
  grouped_outcome d "Period" "Choice".

Definition choice_shares_calls (d : DataFrame) : nat :=
  1 + grouped_calls d "Period" "Choice" + (if is_ok (choice_shares_outcome d) then 5 else 0).

Definition choice_prob_exp_outcome (d : DataFrame) : result unit :=
  match grouped_outcome d "Period" "Choice" with
  | Ok _ => grouped_outcome d "Period" "Experience_Fishing"
  | Raise e => Raise e
  end.

Definition choice_prob_exp_calls (d : DataFrame) : nat :=
  1 + grouped_calls d "Period" "Choice" +
  (if is_ok (grouped_outcome d "Period" "Choice")
   then 1 + grouped_calls d "Period" "Experience_Fishing" +
        (if is_ok (choice_prob_exp_outcome d) then 4 else 0)
   else 0).

Definition fishing_grounds_outcome (d : DataFrame) : result unit :=
  if resolves d "Fishing_Grounds" then grouped_outcome d "Period" "Choice"
  else Raise (UndefinedVariableError "Fishing_Grounds").

Definition fishing_grounds_calls (d : DataFrame) : nat :=
  if resolves d "Fishing_Grounds"
  then 2 + grouped_calls d "Period" "Choice" +
       (if is_ok (grouped_outcome d "Period" "Choice") then 14 else 0)
  else 2.

(** ** The calls of the two functions that read files *)

(** The table that [pd.read_pickle] gives for [model], when there is one. *)
Definition loaded (w : World) (model : string) : DataFrame :=
  default empty_frame (files w !! pickle_path model).

(** One panel of [plot_kw_97_comparison]: the outcome [choice], drawn on
    axes [ax] from the three tables, which are held at [q], [q + 1] and
    [q + 2]. *)
Definition comparison_panel (w : World) (q : loc) (ax : axes) (choice color : string)
    : list call :=
  [GetItem q choice;
   AxPlot ax (column_values (loaded w "kw_97_obs") choice)
          [("linestyle", AStr "dashed"); ("color", AStr "k"); ("label", AStr "Observed")];
   GetItem (S q) choice;
   AxPlot ax (column_values (loaded w "kw_97_basic") choice)
          [("linestyle", AStr "dotted"); ("alpha", ANum 0.8);
           ("color", AStr color); ("label", AStr "kw_97_basic")];
   GetItem (S (S q)) choice;
   AxPlot ax (column_values (loaded w "kw_97_extended") choice)
          [("color", AStr color); ("alpha", ANum 0.8); ("label", AStr "kw_97_extended")];
   SetTitle ax (replace_underscores (capitalize choice)) [];
   SetXLabel ax "Period"].

(** What a complete run of [plot_kw_97_comparison] asks of the libraries. *)
Definition comparison_script (w : World) : list call :=
  [ReadPickle (pickle_path "kw_97_obs"); ReadPickle (pickle_path "kw_97_basic");
   ReadPickle (pickle_path "kw_97_extended");
   Subplots 2 3 [("figsize", APair 15 9)];
   Columns (S (S (length (heap w))))]
  ++ flat_map (fun '(i, (choice, color)) =>
                 comparison_panel w (length (heap w)) (i + axes_made w)%nat choice color)
              (enumerate (zip (columns (loaded w "kw_97_extended")) comparison_colors))
  ++ [AxLegend (4 + axes_made w)%nat
               [("loc", AStr "lower center"); ("ncol", AInt 5);
                ("bbox_to_anchor", APair (-0.3) (-0.3)); ("fontsize", AInt 12)];
      Delaxes (figures w) (5 + axes_made w)%nat;
      Show].

(** A call without what the backend answered: the axes that [plt.gca]
    gave and the legend entries built from its handles and labels. *)
Definition skeleton (c : call) : call :=
  match c with
  | GetLegendHandlesLabels _ => GetLegendHandlesLabels 0%nat
  | PltLegend _ kw => PltLegend None kw
  | _ => c
  end.

(** One round of [plot_choices_kw], for the model of rank [i] out of [n],
    up to the answers of the backend. *)
Definition kw_round (w : World) (n i : nat) (model : string) : list call :=
  let d := loaded w model in
  let ax := (i + axes_made w)%nat in
  [ReadPickle (pickle_path model);
   PlotFrame d ax [("alpha", ANum 0.8); ("stacked", ABool true);
                   ("legend", ABool false); ("kind", AStr "area");
                   ("rot", AInt 0); ("title", AStr ("Example model: " +:+ model));
                   ("linewidth", AInt 0)];
   PlotFrame d ax [("stacked", ABool true); ("legend", ABool false);
                   ("color", AStr "white"); ("linewidth", AInt 1); ("rot", AInt 0)];
   Margins ax [("x", AInt 0)];
   SpineSetVisible ax "right" false;
   SpineSetVisible ax "top" false;
   Gca;
   GetLegendHandlesLabels 0%nat;
   Columns (i + length (heap w))%nat;
   PltLegend None
     [("loc", AStr "lower center");
      ("ncol", AInt (Z.of_nat (length (columns d))));
      ("bbox_to_anchor",
       APair (if (n mod 2 =? 1)%nat then (-0.7)%Q else (-0.2)%Q) (-0.25));
      ("fontsize", AInt 12)]].

(** What a complete run of [plot_choices_kw] over [models] asks of the
    libraries, up to the answers of the backend. *)
Definition kw_script (w : World) (models : list string) : list call :=
  [Subplots 1 (length models) [("figsize", APair 15 5)]]
  ++ flat_map (fun '(i, model) => kw_round w (length models) i model) (enumerate models)
  ++ [Show].

(** The run from [w] issued, up to the answers of the backend, a prefix of
    [script], all of it when it returned. *)
Definition follows_skeleton (w : World) (script : list call)
    (r : result unit) (w' : World) : Prop :=
  exists evs,
    trace w' = trace w ++ evs /\
    map skeleton (calls_of evs) `prefix_of` script /\
    (r = Ok tt -> map skeleton (calls_of evs) = script).

(** ** Outcomes of the two functions that read files *)

(** Whether the table of [model] is on disk. *)
Definition on_disk (w : World) (model : string) : bool :=
  match files w !! pickle_path model with Some _ => true | None => false end.

(** The first of [models] whose table is not on disk, and how many
    models come before it. *)
Fixpoint first_missing (w : World) (models : list string) : option string :=
  match models with
  | [] => None
  | m :: ms => if on_disk w m then first_missing w ms else Some m
  end.

Fixpoint loaded_before (w : World) (models : list string) : nat :=
  match models with
  | [] => 0
  | m :: ms => if on_disk w m then S (loaded_before w ms) else 0
  end.

(** [plot_choices_kw] over [models], on a backend that does not fail:
    it stops at the first table that is not on disk. *)
Definition kw_outcome (w : World) (models : list string) : result unit :=
  match first_missing w models with
  | Some m => Raise (FileNotFoundError (pickle_path m))
  | None => Ok tt
  end.

(** [plot_kw_97_comparison] on a backend that does not fail: it stops at
    the first table that is not on disk, and else at the first plotted
    outcome that is not a column of the observed or of the basic table. *)
Definition comparison_outcome (w : World) : result unit :=
  match first_missing w models_97_comparison with
  | Some m => Raise (FileNotFoundError (pickle_path m))
  | None =>
      match List.find (fun choice =>
                         negb (has_column (loaded w "kw_97_obs") choice &&
                               has_column (loaded w "kw_97_basic") choice))
                      (map fst (zip (columns (loaded w "kw_97_extended"))
                                    comparison_colors)) with
      | Some choice => Raise (KeyError choice)
      | None => Ok tt
      end
  end.

(** What a run of [plot_kw_97_comparison] guarantees on its outcome: it
    ends as above, and with a table missing it makes no figure. *)
Definition comparison_outcome_post (w : World) (r : result unit) (w' : World) : Prop :=
  exists evs,
    trace w' = trace w ++ evs /\
    (r = Ok tt -> comparison_outcome w = Ok tt) /\
    (never_fails (backend w) -> r = comparison_outcome w) /\
    (first_missing w models_97_comparison <> None -> subplot_grids (calls_of evs) = []).

(** ** More of what a list of calls does *)

Definition is_show (c : call) : bool :=
  match c with Show => true | _ => false end.

Definition is_close (c : call) : bool :=
  match c with Close => true | _ => false end.

(** The axes on which [ax.legend] was called, with the arguments. *)
Definition axes_legends (cs : list call) : list (axes * kwargs) :=
  omap (fun c => match c with AxLegend ax kw => Some (ax, kw) | _ => None end) cs.

Definition xlabels_set (cs : list call) : list (axes * string) :=
  omap (fun c => match c with SetXLabel ax l => Some (ax, l) | _ => None end) cs.

(** The arguments of the calls of [plt.legend]. *)
Definition legend_kwargs (cs : list call) : list kwargs :=
  omap (fun c => match c with PltLegend _ kw => Some kw | _ => None end) cs.

(** A bar plot without its [color] argument; any other call as it is. *)
Definition without_color (c : call) : call :=
  match c with
  | PlotBar t ax kw =>
      PlotBar t ax (List.filter (fun a => negb (String.eqb a.1 "color")) kw)
  | _ => c
  end.

(** ** Runs on a dataframe that lacks a column *)

(** When [d] has no column [col], the run does not return, and its calls
    satisfy [P]. *)
Definition without_column_post (w : World) (d : DataFrame) (col : string)
    (P : list call -> Prop) (r : result unit) (w' : World) : Prop :=
  exists evs,
    trace w' = trace w ++ evs /\
    (has_column d col = false -> r <> Ok tt /\ P (calls_of evs)).

(** No bar chart, title or legend was asked for. *)
Definition nothing_drawn (cs : list call) : Prop :=
  bars_drawn cs = [] /\ titles_set cs = [] /\ axes_legends cs = [] /\
  legend_kwargs cs = [].

(** At most the chart [t] on [ax] was asked for, and no legend. *)
Definition one_chart_at_most (t : Table) (ax : axes) (cs : list call) : Prop :=
  bars_drawn cs `prefix_of` [(t, ax)] /\ axes_legends cs = [].


(** * Properties of the data operations *)


Lemma occurrences_0 c l : c ∉ l -> occurrences c l = 0%nat.
Proof.
  unfold occurrences. induction l as [|x l IH]; intros Hc; [done|].
  rewrite filter_cons. apply not_elem_of_cons in Hc as [Hx Hl].
  destruct (decide (x = c)); [congruence|]. auto.
Qed.

Lemma occurrences_pos c l : c ∈ l -> (0 < occurrences c l)%nat.
Proof.
  unfold occurrences. induction l as [|x l IH]; intros Hc.
  - by apply elem_of_nil in Hc.
  - rewrite filter_cons. destruct (decide (x = c)); simpl; [lia|].
    apply elem_of_cons in Hc as [->|Hc]; [done|auto].
Qed.

Lemma occurrences_filter_ne c c' l :
  c' <> c -> occurrences c' (filter (fun x => x <> c) l) = occurrences c' l.
Proof.
  intros Hne. unfold occurrences. induction l as [|x l IH]; [done|].
  rewrite !filter_cons.
  destruct (decide (x <> c)) as [Hx|Hx].
  - rewrite filter_cons. destruct (decide (x = c')); simpl; auto.
  - destruct (decide (x = c')) as [->|]; [|done].
    exfalso. apply Hx. done.
Qed.

Lemma occurrences_split c l :
  (occurrences c l + length (filter (fun x => x <> c) l))%nat = length l.
Proof.
  unfold occurrences. induction l as [|x l IH]; [done|].
  rewrite !filter_cons.
  destruct (decide (x = c)), (decide (x <> c)); simpl; try lia; tauto.
Qed.

Lemma total_occurrences_filter_ne c cs l :
  c ∉ cs ->
  total_occurrences cs (filter (fun x => x <> c) l) = total_occurrences cs l.
Proof.
  induction cs as [|c' cs IH]; intros Hc; [done|].
  apply not_elem_of_cons in Hc as [Hne Hc]. simpl.
  rewrite occurrences_filter_ne by done. by rewrite IH.
Qed.

(** Counting every label of a duplicate-free list that covers [l] counts
    every element of [l] once. *)
Lemma total_occurrences_length cs l :
  NoDup cs -> (forall x, x ∈ l -> x ∈ cs) -> total_occurrences cs l = length l.
Proof.
  intros Hnd. revert l. induction Hnd as [|c cs Hc Hnd IH]; intros l Hsub.
  - destruct l as [|x l]; [done|]. specialize (Hsub x). rewrite elem_of_cons in Hsub.
    exfalso. eapply not_elem_of_nil. apply Hsub. by left.
  - simpl. rewrite <- (total_occurrences_filter_ne c cs l) by done.
    rewrite IH.
    + apply occurrences_split.
    + intros x Hx. apply list_elem_of_filter in Hx as [Hne Hx].
      specialize (Hsub x Hx). apply elem_of_cons in Hsub as [->|]; done.
Qed.

Lemma elem_of_merge_sort {A} (R : relation A) `{!RelDecision R} (x : A) l :
  x ∈ merge_sort R l <-> x ∈ l.
Proof. by rewrite merge_sort_Permutation. Qed.

Lemma NoDup_merge_sort {A} (R : relation A) `{!RelDecision R} (l : list A) :
  NoDup l -> NoDup (merge_sort R l).
Proof. by rewrite merge_sort_Permutation. Qed.

Lemma series_get_app s1 s2 p c :
  series_get (s1 ++ s2) p c =
  match series_get s1 p c with Some x => Some x | None => series_get s2 p c end.
Proof.
  induction s1 as [|[[p' c'] x] s1 IH]; [done|].
  simpl. by destruct (bool_decide _).
Qed.

Lemma series_get_block (f : value -> float64) p' cs p c :
  series_get (map (fun c' => (p', c', f c')) cs) p c =
  if decide (p' = p /\ c ∈ cs) then Some (f c) else None.
Proof.
  induction cs as [|c' cs IH].
  - destruct (decide (p' = p /\ c ∈ [])) as [[_ H]|]; [|done]. by apply elem_of_nil in H.
  - simpl. rewrite IH. clear IH.
    destruct (bool_decide_reflect (p' = p /\ c' = c)) as [[-> ->]|Hn].
    + rewrite decide_True; [done|]. split; [done|]. by left.
    + destruct (decide (p' = p /\ c ∈ cs)) as [[-> Hin]|Hn'].
      * rewrite decide_True; [done|]. split; [done|]. by right.
      * rewrite decide_False; [done|]. intros [-> Hin].
        apply elem_of_cons in Hin as [->|Hin]; [by apply Hn|by apply Hn'].
Qed.

Lemma series_get_blocks (f : value -> value -> float64) (cs : value -> list value)
    ps p c :
  series_get (flat_map (fun p' => map (fun c' => (p', c', f p' c')) (cs p')) ps) p c =
  if decide (p ∈ ps /\ c ∈ cs p) then Some (f p c) else None.
Proof.
  induction ps as [|p' ps IH].
  - destruct (decide (p ∈ [] /\ c ∈ cs p)) as [[H _]|]; [|done]. by apply elem_of_nil in H.
  - simpl. rewrite series_get_app, series_get_block, IH. clear IH.
    destruct (decide (p' = p /\ c ∈ cs p')) as [[-> Hc]|Hn].
    + rewrite decide_True; [done|]. split; [by left|done].
    + destruct (decide (p ∈ ps /\ c ∈ cs p)) as [[Hp Hc]|Hn'].
      * rewrite decide_True; [done|]. split; [by right|done].
      * rewrite decide_False; [done|]. intros [Hp Hc].
        apply elem_of_cons in Hp as [->|Hp]; [by apply Hn|by apply Hn'].
Qed.

Lemma table_row_map (f : value -> list (value * option float64)) idx p :
  table_row (map (fun p' => (p', f p')) idx) p =
  if decide (p ∈ idx) then Some (f p) else None.
Proof.
  induction idx as [|p' idx IH].
  - destruct (decide (p ∈ [])) as [H|]; [|done]. by apply elem_of_nil in H.
  - simpl. rewrite IH. clear IH.
    destruct (bool_decide_reflect (p' = p)) as [->|Hn].
    + rewrite decide_True; [done|]. by left.
    + destruct (decide (p ∈ idx)) as [Hin|Hn'].
      * rewrite decide_True; [done|]. by right.
      * rewrite decide_False; [done|]. intros Hin.
        apply elem_of_cons in Hin as [->|Hin]; done.
Qed.

Lemma elem_of_group_rows g p c : c ∈ group_rows g p <-> (p, c) ∈ g.
Proof.
  unfold group_rows. rewrite list_elem_of_fmap. split.
  - intros [[p' c'] [-> H]]. apply list_elem_of_filter in H as [Hp H].
    simpl in *. by subst.
  - intros H. exists (p, c). split; [done|]. by apply list_elem_of_filter.
Qed.

Lemma length_filter_map {A B} (f : A -> B) (P : B -> Prop) (P' : A -> Prop)
    `{!forall x, Decision (P x)} `{!forall x, Decision (P' x)} (l : list A) :
  (forall x, P (f x) <-> P' x) ->
  length (filter P (map f l)) = length (filter P' l).
Proof.
  intros HP. induction l as [|x l IH]; [done|].
  simpl. rewrite !filter_cons.
  destruct (decide (P (f x))) as [Hx|Hx], (decide (P' x)) as [Hx'|Hx']; simpl;
    try (by rewrite IH); exfalso; apply HP in Hx || apply HP in Hx'; done.
Qed.

Lemma elem_of_recorded g p c : (p, c) ∈ recorded g <-> c <> VNaN /\ (p, c) ∈ g.
Proof. unfold recorded. by rewrite list_elem_of_filter. Qed.

(** The recorded values of the group of [p] are the outcomes of the rows that
    [n_rows] counts. *)
Lemma group_rows_select_length df key col p :
  p <> VNaN ->
  length (group_rows (recorded (select (mkGroupBy df key) col)) p) = n_rows df key col p.
Proof.
  intros Hp. unfold group_rows, recorded, select, n_rows. cbn [g_frame g_key].
  rewrite length_map.
  rewrite (list_filter_filter (fun kv : value * value => kv.2 <> VNaN)
                              (fun kv : value * value => kv.1 <> VNaN)).
  rewrite (list_filter_filter (fun kv : value * value => kv.1 = p)
             (fun kv : value * value => kv.2 <> VNaN /\ kv.1 <> VNaN)).
  rewrite (length_filter_map
             (fun r => (cell df key r, cell df col r))
             (fun kv : value * value => kv.1 = p /\ kv.2 <> VNaN /\ kv.1 <> VNaN)
             (fun r => cell df key r = p /\ cell df col r <> VNaN)); [done|].
  intros r. simpl. split; [tauto|]. intros [-> Hc]. done.
Qed.

Lemma group_rows_select_occurrences df key col p c :
  p <> VNaN -> c <> VNaN ->
  occurrences c (group_rows (recorded (select (mkGroupBy df key) col)) p) =
  n_cat df key col p c.
Proof.
  intros Hp Hc. unfold occurrences, group_rows, recorded, select, n_cat.
  cbn [g_frame g_key].
  rewrite (length_filter_map snd (fun x => x = c) (fun kv : value * value => kv.2 = c))
    by done.
  rewrite (list_filter_filter (fun kv : value * value => kv.2 <> VNaN)
                              (fun kv : value * value => kv.1 <> VNaN)).
  rewrite (list_filter_filter (fun kv : value * value => kv.1 = p)
             (fun kv : value * value => kv.2 <> VNaN /\ kv.1 <> VNaN)).
  rewrite (list_filter_filter (fun kv : value * value => kv.2 = c)
             (fun kv : value * value => kv.1 = p /\ kv.2 <> VNaN /\ kv.1 <> VNaN)).
  rewrite (length_filter_map
             (fun r => (cell df key r, cell df col r))
             (fun kv : value * value =>
                kv.2 = c /\ kv.1 = p /\ kv.2 <> VNaN /\ kv.1 <> VNaN)
             (fun r => cell df key r = p /\ cell df col r = c)); [done|].
  intros r. simpl. split; [tauto|]. intros [-> ->]. done.
Qed.

(** The cell of [value_counts(normalize=True)] at (period, outcome). *)
Lemma series_get_value_counts g p c :
  series_get (value_counts true g) p c =
  if decide ((p, c) ∈ recorded g)
  then Some (float_div (float_of_nat (occurrences c (group_rows (recorded g) p)))
                       (float_of_nat (length (group_rows (recorded g) p))))
  else None.
Proof.
  unfold value_counts. cbv zeta. generalize (recorded g). clear g. intros g.
  rewrite (series_get_blocks
             (fun p c => float_div (float_of_nat (occurrences c (group_rows g p)))
                                   (float_of_nat (length (group_rows g p))))
             (fun p => merge_sort (count_ge (group_rows g p))
                                  (remove_dups (group_rows g p)))).
  destruct (decide ((p, c) ∈ g)) as [Hin|Hn].
  - rewrite decide_True; [done|]. split.
    + rewrite elem_of_merge_sort, elem_of_remove_dups, list_elem_of_fmap.
      by exists (p, c).
    + by rewrite elem_of_merge_sort, elem_of_remove_dups, elem_of_group_rows.
  - rewrite decide_False; [done|]. intros [_ Hc]. apply Hn.
    by rewrite elem_of_merge_sort, elem_of_remove_dups, elem_of_group_rows in Hc.
Qed.

Lemma value_counts_keys g p c x :
  (p, c, x) ∈ value_counts true g -> (p, c) ∈ recorded g.
Proof.
  unfold value_counts. cbv zeta. generalize (recorded g). clear g. intros g.
  rewrite list_elem_of_In, in_flat_map.
  intros [p' [_ Hin]]. apply list_elem_of_In, list_elem_of_fmap in Hin as [c' [Heq Hc']].
  inversion Heq; subst.
  by rewrite elem_of_merge_sort, elem_of_remove_dups, elem_of_group_rows in Hc'.
Qed.

Lemma value_counts_complete g p c :
  (p, c) ∈ recorded g -> exists x, (p, c, x) ∈ value_counts true g.
Proof.
  unfold value_counts. cbv zeta. generalize (recorded g). clear g. intros g.
  intros Hin. eexists.
  rewrite list_elem_of_In, in_flat_map. exists p. split.
  - rewrite <- list_elem_of_In, elem_of_merge_sort, elem_of_remove_dups, list_elem_of_fmap.
    by exists (p, c).
  - rewrite <- list_elem_of_In, list_elem_of_fmap. exists c. split; [reflexivity|].
    by rewrite elem_of_merge_sort, elem_of_remove_dups, elem_of_group_rows.
Qed.

(** Taken exactly, the shares of the outcomes [cs] add up to the number of
    rows of the period with one of these outcomes, over the count of the
    period. *)
Lemma exact_total_counts df key col p cs :
  p <> VNaN -> VNaN ∉ cs ->
  (exact_total df key col p cs
   == inject_Z (Z.of_nat (total_occurrences cs
                            (group_rows (recorded (select (mkGroupBy df key) col)) p)))
      / inject_Z (Z.of_nat (n_rows df key col p)))%Q.
Proof.
  intros Hp. induction cs as [|c cs IH]; intros Hcs.
  - simpl. unfold Qdiv. by rewrite Qmult_0_l.
  - apply not_elem_of_cons in Hcs as [Hc Hcs]. simpl.
    rewrite (IH Hcs), Nat2Z.inj_add, inject_Z_plus. unfold exact_share, Qdiv.
    rewrite Qmult_plus_distr_l.
    by rewrite group_rows_select_occurrences.
Qed.

Lemma select_group_nonempty df key col p :
  p <> VNaN ->
  (0 < n_rows df key col p)%nat ->
  exists c, (p, c) ∈ recorded (select (mkGroupBy df key) col).
Proof.
  intros Hp. rewrite <- (group_rows_select_length df key col p Hp).
  destruct (group_rows (recorded (select (mkGroupBy df key) col)) p) as [|c l] eqn:E.
  - simpl. lia.
  - intros _. exists c. apply elem_of_group_rows. rewrite E. by left.
Qed.

Lemma n_cat_pos df key col p c :
  p <> VNaN -> c <> VNaN ->
  (0 < n_cat df key col p c)%nat <-> (p, c) ∈ recorded (select (mkGroupBy df key) col).
Proof.
  intros Hp Hc.
  rewrite <- group_rows_select_occurrences, <- elem_of_group_rows by done. split.
  - intros H.
    destruct (decide (c ∈ group_rows (recorded (select (mkGroupBy df key) col)) p));
      [done|].
    rewrite occurrences_0 in H by done. lia.
  - apply occurrences_pos.
Qed.

(** The cell of the aggregation chain at (period, outcome). *)
Lemma series_get_shares df key col p c :
  p <> VNaN -> c <> VNaN ->
  series_get (value_counts true (select (mkGroupBy df key) col)) p c =
  share df key col p c.
Proof.
  intros Hp Hc. rewrite series_get_value_counts. unfold share.
  rewrite group_rows_select_occurrences, group_rows_select_length by done.
  destruct (decide ((p, c) ∈ recorded (select (mkGroupBy df key) col))) as [Hin|Hn].
  - apply n_cat_pos in Hin; [|done..].
    destruct (Nat.eqb_spec (n_cat df key col p c) 0); [lia|done].
  - destruct (Nat.eqb_spec (n_cat df key col p c) 0) as [|Hne]; [done|].
    exfalso. apply Hn, n_cat_pos; [done..|]. lia.
Qed.

Lemma unstack_index s p :
  p ∈ map fst (unstack s) <-> exists c x, (p, c, x) ∈ s.
Proof.
  unfold unstack. rewrite map_map. simpl. rewrite map_id.
  rewrite elem_of_merge_sort, elem_of_remove_dups, list_elem_of_fmap. split.
  - intros [[[p' c] x] [-> H]]. eauto.
  - intros (c & x & H). by exists (p, c, x).
Qed.

(** Every period with a recorded row has a line in the table, with one
    cell per outcome, the cell being the share; and taken exactly the shares
    of the line add up to one. *)
Lemma shares_normalized df key col p :
  p <> VNaN ->
  (0 < n_rows df key col p)%nat ->
  exists line,
    table_row (shares df key col) p = Some line /\
    NoDup (map fst line) /\
    (forall c x, (c, x) ∈ line -> c <> VNaN /\ x = share df key col p c) /\
    (forall c, c <> VNaN -> (0 < n_cat df key col p c)%nat ->
               (c, share df key col p c) ∈ line) /\
    (exact_total df key col p (map fst line) == 1)%Q.
Proof.
  intros Hnan Hp. unfold shares, unstack.
  set (g := recorded (select (mkGroupBy df key) col)).
  set (s := value_counts true (select (mkGroupBy df key) col)).
  set (cols := merge_sort value_le
                 (remove_dups (map (fun e : value * value * float64 => e.1.2) s))).
  set (idx := merge_sort value_le
                (remove_dups (map (fun e : value * value * float64 => e.1.1) s))).
  assert (Hcols : forall c, c ∈ cols <-> exists p', (p', c) ∈ g).
  { intros c. unfold cols.
    rewrite elem_of_merge_sort, elem_of_remove_dups, list_elem_of_fmap. split.
    - intros [[[p' c'] x] [-> H]]. exists p'. by apply value_counts_keys in H.
    - intros [p' H]. apply value_counts_complete in H as [x H]. by exists (p', c, x). }
  assert (Hrec : forall c, c ∈ cols -> c <> VNaN).
  { intros c Hc. apply Hcols in Hc as [p' Hc]. by apply elem_of_recorded in Hc as [? _]. }
  assert (Hidx : p ∈ idx).
  { unfold idx. rewrite elem_of_merge_sort, elem_of_remove_dups, list_elem_of_fmap.
    destruct (select_group_nonempty df key col p Hnan Hp) as [c Hc].
    apply value_counts_complete in Hc as [x Hx]. by exists (p, c, x). }
  exists (map (fun c => (c, series_get s p c)) cols).
  split; [|split; [|split; [|split]]].
  - rewrite (table_row_map (fun p => map (fun c => (c, series_get s p c)) cols)).
    by rewrite decide_True.
  - rewrite map_map. simpl. rewrite map_id.
    apply NoDup_merge_sort, NoDup_remove_dups.
  - intros c x Hin. apply list_elem_of_fmap in Hin as [c' [Heq Hc']].
    inversion Heq; subst. split; [by apply Hrec|].
    apply series_get_shares; [done|by apply Hrec].
  - intros c Hc Hn. apply list_elem_of_fmap. exists c. split.
    + by rewrite <- series_get_shares.
    + apply Hcols. exists p. by apply n_cat_pos.
  - rewrite map_map. simpl. rewrite map_id.
    rewrite exact_total_counts; [|done|by intros H; apply (Hrec VNaN)].
    rewrite total_occurrences_length.
    + rewrite group_rows_select_length by done.
      apply Qmult_inv_r. unfold Qeq. simpl. lia.
    + apply NoDup_merge_sort, NoDup_remove_dups.
    + intros c Hc. apply Hcols. exists p. by apply elem_of_group_rows.
Qed.

(** ** Python dicts *)

Section dict.
Context {V : Type}.
Implicit Types (d : list (string * V)) (k : string) (v : V).

Lemma dict_set_keys k v d k' :
  k' ∈ dict_keys (dict_set k v d) <-> k' = k \/ k' ∈ dict_keys d.
Proof.
  unfold dict_keys. induction d as [|[k0 v0] d IH]; simpl.
  - rewrite list_elem_of_singleton. split; [auto|].
    intros [?|H]; [done|]. by apply elem_of_nil in H.
  - destruct (String.eqb_spec k0 k) as [->|Hne]; simpl.
    + rewrite !elem_of_cons. tauto.
    + rewrite !elem_of_cons, IH. tauto.
Qed.

Lemma dict_set_NoDup k v d :
  NoDup (dict_keys d) -> NoDup (dict_keys (dict_set k v d)).
Proof.
  unfold dict_keys. induction d as [|[k0 v0] d IH]; simpl; intros Hnd.
  - apply NoDup_singleton.
  - apply NoDup_cons in Hnd as [Hk0 Hnd].
    destruct (String.eqb_spec k0 k) as [->|Hne]; simpl.
    + by apply NoDup_cons.
    + apply NoDup_cons. split; [|auto].
      intros Hin. apply (dict_set_keys k v d k0) in Hin as [?|?]; done.
Qed.

Lemma dict_get_set k v d k' :
  dict_get k' (dict_set k v d) = if decide (k' = k) then Some v else dict_get k' d.
Proof.
  induction d as [|[k0 v0] d IH]; simpl.
  - destruct (String.eqb_spec k k'), (decide (k' = k)); congruence.
  - destruct (String.eqb_spec k0 k) as [->|Hne]; simpl.
    + destruct (String.eqb_spec k k'), (decide (k' = k)); congruence.
    + destruct (String.eqb_spec k0 k') as [->|Hne'].
      * by rewrite decide_False.
      * apply IH.
Qed.

Lemma dict_get_elem_of k v d :
  NoDup (dict_keys d) -> (k, v) ∈ d <-> dict_get k d = Some v.
Proof.
  unfold dict_keys. induction d as [|[k0 v0] d IH]; simpl; intros Hnd.
  - split; [|done]. intros H. by apply elem_of_nil in H.
  - apply NoDup_cons in Hnd as [Hk0 Hnd]. rewrite elem_of_cons.
    destruct (String.eqb_spec k0 k) as [->|Hne].
    + split.
      * intros [Heq|Hin]; [congruence|].
        exfalso. apply Hk0. apply list_elem_of_fmap. by exists (k, v).
      * intros [= ->]. by left.
    + rewrite <- IH by done. split; [|auto]. intros [Heq|?]; [congruence|done].
Qed.

Lemma dict_fold_keys pairs d k :
  k ∈ dict_keys (fold_left (fun d kv => dict_set kv.1 kv.2 d) pairs d) <->
  k ∈ map fst pairs \/ k ∈ dict_keys d.
Proof.
  revert d. induction pairs as [|[k0 v0] pairs IH]; intros d; simpl.
  - split; [auto|]. intros [H|?]; [|done]. by apply elem_of_nil in H.
  - rewrite IH, dict_set_keys, elem_of_cons. tauto.
Qed.

Lemma dict_fold_NoDup pairs d :
  NoDup (dict_keys d) ->
  NoDup (dict_keys (fold_left (fun d kv => dict_set kv.1 kv.2 d) pairs d)).
Proof.
  revert d. induction pairs as [|[k0 v0] pairs IH]; intros d Hnd; simpl; [done|].
  by apply IH, dict_set_NoDup.
Qed.

(** A later pair with the same key wins. *)
Lemma dict_fold_get pairs d k v :
  dict_get k (fold_left (fun d kv => dict_set kv.1 kv.2 d) pairs d) = Some v <->
  (exists before after, pairs = before ++ (k, v) :: after /\ k ∉ map fst after) \/
  ((k ∉ map fst pairs) /\ dict_get k d = Some v).
Proof.
  revert d. induction pairs as [|[k0 v0] pairs IH]; intros d; simpl.
  - split.
    + intros H. right. split; [apply not_elem_of_nil|done].
    + intros [(before & after & Heq & _)|[_ H]]; [|done].
      by destruct before.
  - rewrite IH, dict_get_set. clear IH. split.
    + intros [(before & after & -> & Hk)|[Hk Hget]].
      * left. by exists ((k0, v0) :: before), after.
      * destruct (decide (k = k0)) as [->|Hne].
        -- inversion Hget; subst. left. by exists [], pairs.
        -- right. split; [|done]. rewrite not_elem_of_cons. done.
    + intros [(before & after & Heq & Hk)|[Hk Hget]].
      * destruct before as [|b before]; simpl in Heq.
        -- inversion Heq; subst. right. by rewrite decide_True.
        -- inversion Heq; subst. left. by exists before, after.
      * apply not_elem_of_cons in Hk as [Hne Hk]. right.
        by rewrite decide_False.
Qed.

Lemma dict_zip_keys_values d : zip (dict_keys d) (dict_values d) = d.
Proof.
  unfold dict_keys, dict_values. induction d as [|[k v] d IH]; simpl; [done|].
  by rewrite IH.
Qed.

(** [dict(pairs)] lists every key once, in order of first appearance, with
    the value of its last pair. *)
Lemma dict_of_spec (pairs : list (string * V)) :
  NoDup (dict_keys (dict_of pairs)) /\
  length (dict_values (dict_of pairs)) = length (dict_keys (dict_of pairs)) /\
  (forall k, k ∈ dict_keys (dict_of pairs) <-> k ∈ map fst pairs) /\
  (forall k v, (k, v) ∈ zip (dict_keys (dict_of pairs)) (dict_values (dict_of pairs)) <->
     exists before after, pairs = before ++ (k, v) :: after /\ k ∉ map fst after).
Proof.
  assert (Hnd : NoDup (dict_keys (dict_of pairs))).
  { apply dict_fold_NoDup. apply NoDup_nil_2. }
  split; [done|]. split; [|split].
  - unfold dict_values, dict_keys. by rewrite !length_map.
  - intros k. unfold dict_of. rewrite dict_fold_keys. split; [|auto].
    intros [?|H]; [done|]. by apply elem_of_nil in H.
  - intros k v. rewrite dict_zip_keys_values, dict_get_elem_of by done.
    unfold dict_of. rewrite dict_fold_get. split; [|auto].
    intros [?|[_ H]]; done.
Qed.
End dict.

(** ** References *)

Lemma deref_alloc_new h d : deref (h ++ [d]) (length h) = d.
Proof. unfold deref. by rewrite list_lookup_middle. Qed.

Lemma deref_alloc_old h k l : (l < length h)%nat -> deref (h ++ k) l = deref h l.
Proof. intros Hl. unfold deref. by rewrite lookup_app_l. Qed.

Lemma has_column_valid h l c : has_column (deref h l) c = true -> (l < length h)%nat.
Proof.
  unfold deref. destruct (h !! l) eqn:E; simpl.
  - intros _. by eapply lookup_lt_Some.
  - discriminate.
Qed.

Lemma groupable_valid h l c : groupable (deref h l) c = true -> (l < length h)%nat.
Proof.
  unfold deref. destruct (h !! l) eqn:E; simpl.
  - intros _. by eapply lookup_lt_Some.
  - discriminate.
Qed.

Lemma resolves_valid h l c : resolves (deref h l) c = true -> (l < length h)%nat.
Proof.
  unfold deref. destruct (h !! l) eqn:E; simpl.
  - intros _. by eapply lookup_lt_Some.
  - discriminate.
Qed.

Lemma has_column_query_eq d c v k : has_column (query_eq d c v) k = has_column d k.
Proof. reflexivity. Qed.

Lemma groupable_query_eq d c v k : groupable (query_eq d c v) k = groupable d k.
Proof. reflexivity. Qed.

Lemma groupby_error_query_eq d c v k :
  groupby_error (query_eq d c v) k = groupby_error d k.
Proof. reflexivity. Qed.


Arguments shares : simpl never.
Arguments value_counts : simpl never.
Arguments unstack : simpl never.
Arguments select : simpl never.
Arguments query_eq : simpl never.
Arguments deref : simpl never.
Arguments has_column : simpl never.
Arguments groupable : simpl never.
Arguments resolves : simpl never.
Arguments groupby_error : simpl never.
Arguments column_values : simpl never.
Arguments dict_of : simpl never.
Arguments faithful : simpl never.

Lemma issued_app {A} (m : M A) w evs :
  trace (m w).2 = trace w ++ evs -> issued m w = evs.
Proof. unfold issued. intros ->. apply drop_app_length. Qed.

Lemma faithful_nil {A} (a : A) : faithful (Ok a) [].
Proof. constructor. Qed.

Lemma faithful_last {A} c e : faithful (@Raise A e) [(c, Raised e)].
Proof. exists [], c. split; [done|constructor]. Qed.

Lemma faithful_cons {A} (r : result A) c evs :
  faithful r evs -> faithful r ((c, Returned) :: evs).
Proof.
  destruct r as [a|e]; simpl.
  - intros H. by apply List.Forall_cons.
  - intros (before & c' & -> & H). exists ((c, Returned) :: before), c'.
    split; [done|by apply List.Forall_cons].
Qed.


(** * Symbolic execution

    [wp m w Q]: running [m] from [w] ends in a result and a world that
    satisfy [Q].  The rules below run a program one library call at a time;
    the world is kept as a record whose trace is the initial trace followed
    by the entries issued so far, which are held latest first. *)

Lemma wp_bind {A B} (m : M A) (f : A -> M B) w Q :
  wp m w (fun r w' => match r with
                      | Ok a => wp (f a) w' Q
                      | Raise e => Q (Raise e) w'
                      end) ->
  wp (bind m f) w Q.
Proof. unfold wp, bind. destruct (m w) as [[a|e] w']; simpl; auto. Qed.

Lemma wp_ret {A} (a : A) w Q : Q (Ok a) w -> wp (ret a) w Q.
Proof. done. Qed.

Lemma wp_raise {A} e w (Q : result A -> World -> Prop) :
  Q (Raise e) w -> wp (raise e) w Q.
Proof. done. Qed.

Section calls.
Context (b : Backend) (fs : gmap string DataFrame) (h : list DataFrame)
        (n a : nat) (tr acc : list entry).

Let W := mkWorld b fs h n a (tr ++ rev acc).
Let after (c : call) (o : outcome) := mkWorld b fs h n a (tr ++ rev ((c, o) :: acc)).

(** Every call may fail in the backend. *)
Lemma wp_lib {A} c (sem : World -> result A * World) (Q : result A -> World -> Prop) :
  (forall e, raises b (tr ++ rev acc) c = Some e -> Q (Raise e) (after c (Raised e))) ->
  (raises b (tr ++ rev acc) c = None ->
   match sem W with
   | (Ok x, w') => Q (Ok x) (log c Returned w')
   | (Raise e, w') => Q (Raise e) (log c (Raised e) w')
   end) ->
  wp (lib c sem) W Q.
Proof.
  unfold wp, lib, W, after. simpl. intros Hr Hn.
  destruct (raises b (tr ++ rev acc) c) as [e|].
  - unfold log. simpl. rewrite <- List.app_assoc. by apply Hr.
  - specialize (Hn eq_refl). by destruct (sem _) as [[x|e] w'].
Qed.

Lemma wp_render c (Q : result unit -> World -> Prop) :
  (forall e, raises b (tr ++ rev acc) c = Some e -> Q (Raise e) (after c (Raised e))) ->
  (raises b (tr ++ rev acc) c = None -> Q (Ok tt) (after c Returned)) ->
  wp (render c) W Q.
Proof.
  intros Hr Hn. apply wp_lib; [done|]. intros H. simpl. unfold log. simpl.
  rewrite <- List.app_assoc. by apply Hn.
Qed.

Lemma wp_df_plot l ax kw (Q : result unit -> World -> Prop) :
  let c := PlotFrame (deref h l) ax kw in
  (forall e, raises b (tr ++ rev acc) c = Some e -> Q (Raise e) (after c (Raised e))) ->
  (raises b (tr ++ rev acc) c = None -> Q (Ok tt) (after c Returned)) ->
  wp (df_plot l ax kw) W Q.
Proof. intros c. apply wp_render. Qed.

Lemma wp_plt_subplots nrows ncols kw (Q : result (figure * list axes) -> World -> Prop) :
  let c := Subplots nrows ncols kw in
  (forall e, raises b (tr ++ rev acc) c = Some e -> Q (Raise e) (after c (Raised e))) ->
  (raises b (tr ++ rev acc) c = None ->
   Q (Ok (n, seq a (nrows * ncols)))
     (mkWorld b fs h (S n) (a + nrows * ncols) (tr ++ rev ((c, Returned) :: acc)))) ->
  wp (plt_subplots nrows ncols kw) W Q.
Proof.
  intros c Hr Hn. apply wp_lib; [done|]. intros H. simpl. unfold log. simpl.
  rewrite <- List.app_assoc. by apply Hn.
Qed.

Lemma wp_plt_subplots0 (Q : result (figure * axes) -> World -> Prop) :
  let c := Subplots 1 1 [] in
  (forall e, raises b (tr ++ rev acc) c = Some e -> Q (Raise e) (after c (Raised e))) ->
  (raises b (tr ++ rev acc) c = None ->
   Q (Ok (n, a))
     (mkWorld b fs h (S n) (a + 1) (tr ++ rev ((c, Returned) :: acc)))) ->
  wp plt_subplots0 W Q.
Proof.
  intros c Hr Hn. apply wp_lib; [done|]. intros H. simpl. unfold log. simpl.
  rewrite <- List.app_assoc. by apply Hn.
Qed.

Lemma wp_pd_read_pickle path (Q : result loc -> World -> Prop) :
  let c := ReadPickle path in
  (forall e, raises b (tr ++ rev acc) c = Some e -> Q (Raise e) (after c (Raised e))) ->
  (raises b (tr ++ rev acc) c = None -> fs !! path = None ->
   Q (Raise (FileNotFoundError path)) (after c (Raised (FileNotFoundError path)))) ->
  (forall d, raises b (tr ++ rev acc) c = None -> fs !! path = Some d ->
   Q (Ok (length h))
     (mkWorld b fs (h ++ [d]) n a (tr ++ rev ((c, Returned) :: acc)))) ->
  wp (pd_read_pickle path) W Q.
Proof.
  intros c Hr Hm Hs. apply wp_lib; [done|]. intros H. simpl.
  destruct (fs !! path) as [d|] eqn:E; simpl; unfold log; simpl;
    rewrite <- List.app_assoc; auto.
Qed.

Lemma wp_df_query l col v (Q : result loc -> World -> Prop) :
  let c := Query l col v in
  (forall e, raises b (tr ++ rev acc) c = Some e -> Q (Raise e) (after c (Raised e))) ->
  (raises b (tr ++ rev acc) c = None -> resolves (deref h l) col = false ->
   Q (Raise (UndefinedVariableError col))
     (after c (Raised (UndefinedVariableError col)))) ->
  (raises b (tr ++ rev acc) c = None -> resolves (deref h l) col = true ->
   Q (Ok (length h))
     (mkWorld b fs (h ++ [query_eq (deref h l) col v]) n a
              (tr ++ rev ((c, Returned) :: acc)))) ->
  wp (df_query l col v) W Q.
Proof.
  intros c Hr Hm Hs. apply wp_lib; [done|]. intros H. simpl.
  destruct (resolves (deref h l) col) eqn:E; simpl; unfold log; simpl;
    rewrite <- List.app_assoc; auto.
Qed.

Lemma wp_df_groupby l key (Q : result GroupBy -> World -> Prop) :
  let c := GroupByCall l key in
  (forall e, raises b (tr ++ rev acc) c = Some e -> Q (Raise e) (after c (Raised e))) ->
  (raises b (tr ++ rev acc) c = None -> groupable (deref h l) key = false ->
   Q (Raise (groupby_error (deref h l) key))
     (after c (Raised (groupby_error (deref h l) key)))) ->
  (raises b (tr ++ rev acc) c = None -> groupable (deref h l) key = true ->
   Q (Ok (mkGroupBy (deref h l) key)) (after c Returned)) ->
  wp (df_groupby l key) W Q.
Proof.
  intros c Hr Hm Hs. apply wp_lib; [done|]. intros H. simpl.
  destruct (groupable (deref h l) key) eqn:E; simpl; unfold log; simpl;
    rewrite <- List.app_assoc; auto.
Qed.

Lemma wp_groupby_getattr g col (Q : result SeriesGroupBy -> World -> Prop) :
  let c := GetAttr col in
  (forall e, raises b (tr ++ rev acc) c = Some e -> Q (Raise e) (after c (Raised e))) ->
  (raises b (tr ++ rev acc) c = None -> has_column (g_frame g) col = false ->
   Q (Raise (AttributeError col)) (after c (Raised (AttributeError col)))) ->
  (raises b (tr ++ rev acc) c = None -> has_column (g_frame g) col = true ->
   Q (Ok (select g col)) (after c Returned)) ->
  wp (groupby_getattr g col) W Q.
Proof.
  intros c Hr Hm Hs. apply wp_lib; [done|]. intros H. simpl.
  destruct (has_column (g_frame g) col) eqn:E; simpl; unfold log; simpl;
    rewrite <- List.app_assoc; auto.
Qed.

Lemma wp_df_getitem l col (Q : result (list value) -> World -> Prop) :
  let c := GetItem l col in
  (forall e, raises b (tr ++ rev acc) c = Some e -> Q (Raise e) (after c (Raised e))) ->
  (raises b (tr ++ rev acc) c = None -> has_column (deref h l) col = false ->
   Q (Raise (KeyError col)) (after c (Raised (KeyError col)))) ->
  (raises b (tr ++ rev acc) c = None -> has_column (deref h l) col = true ->
   Q (Ok (column_values (deref h l) col)) (after c Returned)) ->
  wp (df_getitem l col) W Q.
Proof.
  intros c Hr Hm Hs. apply wp_lib; [done|]. intros H. simpl.
  destruct (has_column (deref h l) col) eqn:E; simpl; unfold log; simpl;
    rewrite <- List.app_assoc; auto.
Qed.

(** Calls that only the backend can make fail. *)
Lemma wp_pure_call {A} c (x : A) (m : M A) (Q : result A -> World -> Prop) :
  m = lib c (fun w => (Ok x, w)) ->
  (forall e, raises b (tr ++ rev acc) c = Some e -> Q (Raise e) (after c (Raised e))) ->
  (raises b (tr ++ rev acc) c = None -> Q (Ok x) (after c Returned)) ->
  wp m W Q.
Proof.
  intros -> Hr Hn. apply wp_lib; [done|]. intros H. simpl. unfold log. simpl.
  rewrite <- List.app_assoc. by apply Hn.
Qed.

Lemma wp_sgb_value_counts g normalize (Q : result Series -> World -> Prop) :
  let c := ValueCounts normalize in
  (forall e, raises b (tr ++ rev acc) c = Some e -> Q (Raise e) (after c (Raised e))) ->
  (raises b (tr ++ rev acc) c = None -> Q (Ok (value_counts normalize g)) (after c Returned)) ->
  wp (sgb_value_counts g normalize) W Q.
Proof. intros c. by apply wp_pure_call. Qed.

Lemma wp_series_unstack s (Q : result Table -> World -> Prop) :
  (forall e, raises b (tr ++ rev acc) Unstack = Some e -> Q (Raise e) (after Unstack (Raised e))) ->
  (raises b (tr ++ rev acc) Unstack = None -> Q (Ok (unstack s)) (after Unstack Returned)) ->
  wp (series_unstack s) W Q.
Proof. by apply wp_pure_call. Qed.

Lemma wp_df_columns l (Q : result (list string) -> World -> Prop) :
  let c := Columns l in
  (forall e, raises b (tr ++ rev acc) c = Some e -> Q (Raise e) (after c (Raised e))) ->
  (raises b (tr ++ rev acc) c = None -> Q (Ok (columns (deref h l))) (after c Returned)) ->
  wp (df_columns l) W Q.
Proof.
  intros c Hr Hn. apply wp_lib; [done|]. intros H. simpl. unfold log. simpl.
  rewrite <- List.app_assoc. by apply Hn.
Qed.

(** The answers of the backend are named, so that a later entry of the
    trace does not carry the trace it was computed from. *)
Lemma wp_plt_gca (Q : result axes -> World -> Prop) :
  (forall e, raises b (tr ++ rev acc) Gca = Some e -> Q (Raise e) (after Gca (Raised e))) ->
  (forall ax, raises b (tr ++ rev acc) Gca = None ->
   current_axes b (tr ++ rev acc) = ax ->
   Q (Ok ax) (after Gca Returned)) ->
  wp plt_gca W Q.
Proof.
  intros Hr Hn. apply wp_lib; [done|]. intros H. simpl. unfold log. simpl.
  rewrite <- List.app_assoc. by apply Hn.
Qed.

Lemma wp_ax_get_legend_handles_labels ax
    (Q : result (list handle * list string) -> World -> Prop) :
  let c := GetLegendHandlesLabels ax in
  (forall e, raises b (tr ++ rev acc) c = Some e -> Q (Raise e) (after c (Raised e))) ->
  (forall hl, raises b (tr ++ rev acc) c = None ->
   legend_handles_labels b (tr ++ rev acc) ax = hl ->
   Q (Ok hl) (after c Returned)) ->
  wp (ax_get_legend_handles_labels ax) W Q.
Proof.
  intros c Hr Hn. apply wp_lib; [done|]. intros H. simpl. unfold log. simpl.
  rewrite <- List.app_assoc. by apply Hn.
Qed.
End calls.

Lemma wp_mbind {A B} (m : M A) (f : A -> M B) w Q :
  wp m w (fun r w' => match r with
                      | Ok a => wp (f a) w' Q
                      | Raise e => Q (Raise e) w'
                      end) ->
  wp (m ≫= f) w Q.
Proof. apply wp_bind. Qed.

Lemma wp_mret {A} (a : A) w Q : Q (Ok a) w -> wp (mret a) w Q.
Proof. done. Qed.

Lemma wp_let_pair {A B C} (p : A * B) (f : A -> B -> M C) w Q :
  wp (f p.1 p.2) w Q -> wp (let '(x, y) := p in f x y) w Q.
Proof. by destruct p. Qed.

Lemma wp_run {A} (m : M A) w (Q : result A -> World -> Prop) :
  wp m (mkWorld (backend w) (files w) (heap w) (figures w) (axes_made w)
                (trace w ++ rev [])) Q ->
  wp m w Q.
Proof. simpl. rewrite app_nil_r. by destruct w. Qed.

Lemma wp_item {A} (l : list A) i x w (Q : result A -> World -> Prop) :
  l !! i = Some x -> Q (Ok x) w -> wp (item l i) w Q.
Proof. unfold wp, item. by intros ->. Qed.

Lemma wp_dict_item {V} (d : list (string * V)) k v w (Q : result V -> World -> Prop) :
  dict_get k d = Some v -> Q (Ok v) w -> wp (dict_item d k) w Q.
Proof. unfold wp, dict_item. by intros ->. Qed.

Lemma wp_local {A} name (x : A) w (Q : result A -> World -> Prop) :
  Q (Ok x) w -> wp (local name (Some x)) w Q.
Proof. done. Qed.

Lemma wp_local_unbound {A} name w (Q : result A -> World -> Prop) :
  Q (Raise (UnboundLocalError name)) w -> wp (local name None) w Q.
Proof. done. Qed.

Lemma wp_for_each_nil {A} (f : A -> M unit) w Q :
  Q (Ok tt) w -> wp (for_each [] f) w Q.
Proof. done. Qed.

Lemma wp_for_each_cons {A} (f : A -> M unit) x l w Q :
  wp (f x ≫= fun _ => for_each l f) w Q -> wp (for_each (x :: l) f) w Q.
Proof. done. Qed.

Arguments wp : simpl never.
Arguments lib : simpl never.
Arguments render : simpl never.
Arguments bind : simpl never.
Arguments pd_read_pickle : simpl never.
Arguments df_query : simpl never.
Arguments df_groupby : simpl never.
Arguments groupby_getattr : simpl never.
Arguments sgb_value_counts : simpl never.
Arguments series_unstack : simpl never.
Arguments df_columns : simpl never.
Arguments df_getitem : simpl never.
Arguments plt_subplots : simpl never.
Arguments plt_subplots0 : simpl never.
Arguments df_plot : simpl never.
Arguments plt_gca : simpl never.
Arguments ax_get_legend_handles_labels : simpl never.

Arguments follows_script : simpl never.
Arguments kw_post : simpl never.
Arguments comparison_post : simpl never.
Arguments legend_from : simpl never.

Ltac unfold_wrappers :=
  unfold grouped_shares, plot_bar, ax_plot, ax_set_title, ax_set_xlabel,
    xaxis_label_set_visible, ax_margins, spine_set_visible, plt_legend,
    ax_legend, plt_suptitle, plt_xticks, fig_delaxes, plt_show, plt_close,
    enumerate, ravel.

(** References are resolved, in the goal and in the test [H] just made. *)
Ltac tidy_goal :=
  repeat first
    [ rewrite deref_alloc_new
    | rewrite has_column_query_eq
    | rewrite groupable_query_eq
    | rewrite groupby_error_query_eq
    | rewrite deref_alloc_old by (rewrite ?length_app; simpl; lia) ].

Ltac tidy_test H :=
  simpl in H;
  repeat first
    [ rewrite deref_alloc_new in H
    | rewrite has_column_query_eq in H
    | rewrite groupable_query_eq in H
    | rewrite deref_alloc_old in H by (rewrite ?length_app; simpl; lia) ];
  try match type of H with
  | has_column (deref ?h ?l) ?c = true =>
      lazymatch goal with
      | _ : (l < length h)%nat |- _ => idtac
      | _ => pose proof (has_column_valid h l c H)
      end
  | groupable (deref ?h ?l) ?c = true =>
      lazymatch goal with
      | _ : (l < length h)%nat |- _ => idtac
      | _ => pose proof (groupable_valid h l c H)
      end
  | resolves (deref ?h ?l) ?c = true =>
      lazymatch goal with
      | _ : (l < length h)%nat |- _ => idtac
      | _ => pose proof (resolves_valid h l c H)
      end
  end.

(** A test that was decided the other way earlier in the run. *)
Ltac absurd_test H :=
  match type of H with
  | ?t = false =>
      match goal with
      | H1 : t = true |- _ => exfalso; rewrite H1 in H; discriminate H
      end
  | ?t = true =>
      match goal with
      | H1 : t = false |- _ => exfalso; rewrite H1 in H; discriminate H
      end
  end.

(** Runs the program of the goal call by call; [leaf] is left with the
    postcondition at every point where the run ends. *)
Ltac run leaf :=
  cbv beta iota;
  lazymatch goal with
  | |- wp (mbind _ _) _ _ => apply wp_mbind; run leaf
  | |- wp (bind _ _) _ _ => apply wp_bind; run leaf
  | |- wp (mret _) _ _ => apply wp_mret; run leaf
  | |- wp (ret _) _ _ => apply wp_ret; run leaf
  | |- wp (raise _) _ _ => apply wp_raise; run leaf
  | |- wp (render _) _ _ => apply wp_render; intros; run leaf
  | |- wp (df_plot _ _ _) _ _ => apply wp_df_plot; intros; tidy_goal; run leaf
  | |- wp (plt_subplots _ _ _) _ _ => apply wp_plt_subplots; intros; run leaf
  | |- wp plt_subplots0 _ _ => apply wp_plt_subplots0; intros; run leaf
  | |- wp (pd_read_pickle _) _ _ => apply wp_pd_read_pickle; intros; run leaf
  | |- wp (df_query _ _ _) _ _ =>
      let H := fresh "Hcol" in
      apply wp_df_query; [intros|intros ? H|intros ? H];
      [ | tidy_test H | tidy_test H ]; tidy_goal;
      [ run leaf | first [absurd_test H | run leaf] .. ]
  | |- wp (df_groupby _ _) _ _ =>
      let H := fresh "Hcol" in
      apply wp_df_groupby; [intros|intros ? H|intros ? H];
      [ | tidy_test H | tidy_test H ]; tidy_goal;
      [ run leaf | first [absurd_test H | run leaf] .. ]
  | |- wp (groupby_getattr _ _) _ _ =>
      let H := fresh "Hcol" in
      apply wp_groupby_getattr; [intros|intros ? H|intros ? H];
      [ | tidy_test H | tidy_test H ]; tidy_goal;
      [ run leaf | first [absurd_test H | run leaf] .. ]
  | |- wp (df_getitem _ _) _ _ =>
      let H := fresh "Hcol" in
      apply wp_df_getitem; [intros|intros ? H|intros ? H];
      [ | tidy_test H | tidy_test H ]; tidy_goal;
      [ run leaf | first [absurd_test H | run leaf] .. ]
  | |- wp (sgb_value_counts _ _) _ _ => apply wp_sgb_value_counts; intros; run leaf
  | |- wp (series_unstack _) _ _ => apply wp_series_unstack; intros; run leaf
  | |- wp (df_columns _) _ _ => apply wp_df_columns; intros; tidy_goal; run leaf
  | |- wp plt_gca _ _ => apply wp_plt_gca; intros; run leaf
  | |- wp (ax_get_legend_handles_labels _) _ _ =>
      apply wp_ax_get_legend_handles_labels; intros; run leaf
  | |- wp (let '(_, _) := _ in _) _ _ => apply wp_let_pair; run leaf
  | |- wp (item _ _) _ _ => eapply wp_item; [reflexivity|]; run leaf
  | |- wp (dict_item _ _) _ _ => eapply wp_dict_item; [reflexivity|]; run leaf
  | |- wp (local _ (Some _)) _ _ => apply wp_local; run leaf
  | |- wp (local _ None) _ _ => apply wp_local_unbound; run leaf
  | |- wp (for_each [] _) _ _ => apply wp_for_each_nil; run leaf
  | |- wp (for_each (_ :: _) _) _ _ => apply wp_for_each_cons; run leaf
  | |- wp (for_each ?l ?f) _ _ =>
      let l' := eval simpl in l in
      lazymatch l' with
      | [] => change (for_each l f) with (for_each l' f); run leaf
      | _ :: _ => change (for_each l f) with (for_each l' f); run leaf
      | _ => idtac
      end
  | |- wp _ _ _ => idtac
  | |- _ => leaf
  end.

Ltac solve_faithful :=
  repeat first [ apply faithful_cons | apply faithful_last | apply faithful_nil ].

Ltac solve_prefix :=
  first [ reflexivity | by (eexists; simpl; reflexivity) ].

Ltac solve_heap := simpl; repeat apply prefix_app_r; reflexivity.

Ltac script_leaf :=
  unfold follows_script;
  eexists; split; [reflexivity|];
  split; [solve_heap|];
  split; [solve_faithful|];
  unfold calls_of; simpl; rewrite ?length_app; simpl; rewrite ?Nat.add_1_r;
  split; [solve_prefix|try discriminate; intros _; reflexivity].

(** ** The four functions that take a dataframe *)

Lemma plot_choice_shares_run w df friday :
  wp (plot_choice_shares df friday) w
     (follows_script w
        (choice_shares_script df (shares (deref (heap w) df) "Period" "Choice")
           (axes_made w) (if friday then ["C0"; "C2"; "C1"] else ["C0"; "C1"])
           (if friday then 3 else 2))).
Proof.
  apply wp_run.
  unfold plot_choice_shares, choice_shares_script. unfold_wrappers.
  destruct friday; run script_leaf.
Qed.

Lemma plot_choice_prob_run w df :
  wp (plot_choice_prob df) w
     (follows_script w
        (choice_prob_script df (shares (deref (heap w) df) "Period" "Choice")
           (axes_made w))).
Proof.
  apply wp_run.
  unfold plot_choice_prob, choice_prob_script. unfold_wrappers.
  run script_leaf.
Qed.

Lemma plot_choice_prob_and_exp_level_run w df :
  wp (plot_choice_prob_and_exp_level df) w
     (follows_script w
        (choice_prob_exp_script df
           (shares (deref (heap w) df) "Period" "Choice")
           (shares (deref (heap w) df) "Period" "Experience_Fishing")
           (axes_made w))).
Proof.
  apply wp_run.
  unfold plot_choice_prob_and_exp_level, choice_prob_exp_script. unfold_wrappers.
  run script_leaf.
Qed.

Lemma plot_fishing_grounds_run w df :
  wp (plot_fishing_grounds df) w
     (follows_script w
        (fishing_grounds_script df (length (heap w)) (deref (heap w) df)
           (axes_made w))).
Proof.
  apply wp_run.
  unfold plot_fishing_grounds, fishing_grounds_script, fishing_panel. unfold_wrappers.
  run script_leaf.
Qed.

(** ** [plot_choices_kw] *)

Lemma legend_scan_built w models done evs :
  legend_scan w models done evs ->
  forall pre entries kw o post,
    evs = pre ++ (PltLegend entries kw, o) :: post ->
    legend_from w models (rev done ++ pre) entries kw.
Proof.
  revert done. induction evs as [|e evs IH]; intros done Hs pre entries kw o post Heq.
  - by destruct pre.
  - destruct Hs as [He Hs]. destruct pre as [|x pre]; simpl in Heq.
    + injection Heq as -> _. rewrite app_nil_r. exact He.
    + injection Heq as <- Heq.
      specialize (IH (e :: done) Hs pre entries kw o post Heq).
      simpl in IH. by rewrite <- List.app_assoc in IH.
Qed.

Lemma legend_scan_built0 w models evs :
  legend_scan w models [] evs -> legend_built w models evs.
Proof. intros Hs pre entries kw o post Heq. by eapply (legend_scan_built _ _ []). Qed.

Lemma app2_of_rev {A} (l r : list A) x y :
  rev l = y :: x :: r -> l = rev r ++ [x; y].
Proof.
  intros H. rewrite <- (rev_involutive l), H. simpl.
  by rewrite <- List.app_assoc.
Qed.

Ltac recall_answer :=
  lazymatch goal with
  | |- Some (dict_values (dict_of (zip (snd ?hl) _)), _) = _ =>
      match goal with
      | H : legend_handles_labels _ _ _ = hl |- _ => rewrite <- H
      end
  end.

Ltac solve_legend :=
  unfold legend_from; do 5 eexists;
  split; [apply app2_of_rev; simpl; reflexivity|];
  split; [reflexivity|];
  split; [eassumption|];
  split; [recall_answer; reflexivity|reflexivity].

Ltac solve_scan :=
  simpl; unfold legend_entry_ok; simpl;
  repeat lazymatch goal with
  | |- True => exact I
  | |- True /\ _ => split; [exact I|]
  | |- legend_from _ _ _ _ _ /\ _ => split; [solve_legend|]
  end.

Ltac solve_complete :=
  unfold kw_complete; eexists; split;
  [ repeat (apply Forall2_cons_2; [eassumption|]); apply Forall2_nil_2
  | split; [reflexivity|split; reflexivity] ].

Ltac kw_leaf :=
  unfold kw_post;
  eexists; split; [reflexivity|];
  split; [solve_faithful|];
  split; [solve_prefix|];
  split;
  [ apply legend_scan_built0; solve_scan
  | first [ discriminate | intros _; solve_complete ] ].

Lemma plot_choices_kw_run w example models :
  (example = "1994" /\ models = models_1994) \/
  (example = "1997" /\ models = models_1997) ->
  wp (plot_choices_kw example) w (kw_post w models).
Proof.
  intros Hex.
  unfold plot_choices_kw, models_1994, models_1997 in *.
  unfold_wrappers.
  destruct Hex as [[-> ->]|[-> ->]].
  - simpl. apply wp_run. run kw_leaf.
  - simpl. apply wp_run. run kw_leaf.
Qed.

(** ** [plot_kw_97_comparison] *)

Ltac comparison_complete_leaf :=
  unfold comparison_complete; eexists _, _, _;
  split; [eassumption|];
  split; [eassumption|];
  split; [eassumption|];
  cbv zeta;
  match goal with Hc : columns _ = _ |- _ => rewrite Hc end;
  split; [reflexivity|];
  split; [reflexivity|];
  split; [reflexivity|];
  split; reflexivity.

Ltac comparison_leaf :=
  unfold comparison_post;
  eexists; split; [reflexivity|];
  split; [solve_faithful|];
  split; [solve_prefix|];
  first [ discriminate | intros _; comparison_complete_leaf ].

Lemma plot_kw_97_comparison_run w :
  wp plot_kw_97_comparison w (comparison_post w).
Proof.
  unfold plot_kw_97_comparison, models_97_comparison, comparison_colors.
  unfold_wrappers. simpl. apply wp_run.
  run comparison_leaf.
  match goal with
  | |- context [zip (columns ?d) _] =>
      destruct (columns d) as [|c1 [|c2 [|c3 [|c4 [|c5 rest]]]]] eqn:Hcols
  end.
  all: run comparison_leaf.
  rewrite zip_with_nil_r. run comparison_leaf.
Qed.

(** ** Two runs of [plot_fishing_grounds] on tables that agree on the rows
    of the rich and the poor grounds *)

Lemma has_column_ext d1 d2 c :
  columns d2 = columns d1 -> has_column d2 c = has_column d1 c.
Proof. unfold has_column. by intros ->. Qed.

Lemma resolves_ext d1 d2 c :
  index_names d2 = index_names d1 -> columns d2 = columns d1 ->
  resolves d2 c = resolves d1 c.
Proof. unfold resolves, has_column, has_level. by intros -> ->. Qed.

Section two_runs.
Context (b : Backend) (fs1 fs2 : gmap string DataFrame) (h1 h2 : list DataFrame)
        (df : loc).
Hypothesis Hlen : length h2 = length h1.
Hypothesis Hidx : index_names (deref h2 df) = index_names (deref h1 df).
Hypothesis Hcols : columns (deref h2 df) = columns (deref h1 df).
Hypothesis Hrich :
  query_eq (deref h2 df) "Fishing_Grounds" (VStr "rich") =
  query_eq (deref h1 df) "Fishing_Grounds" (VStr "rich").
Hypothesis Hpoor :
  query_eq (deref h2 df) "Fishing_Grounds" (VStr "poor") =
  query_eq (deref h1 df) "Fishing_Grounds" (VStr "poor").

Lemma heaps_length_app k : length (h2 ++ k) = length (h1 ++ k).
Proof using Hlen. by rewrite !length_app, Hlen. Qed.

Lemma heaps_length_app2 k k' : length ((h2 ++ k) ++ k') = length ((h1 ++ k) ++ k').
Proof using Hlen. by rewrite !length_app, Hlen. Qed.

Lemma deref_new_h2 d : deref (h2 ++ [d]) (length h1) = d.
Proof using Hlen. rewrite <- Hlen. apply deref_alloc_new. Qed.

Lemma deref_new_h2' k d : deref ((h2 ++ k) ++ [d]) (length (h1 ++ k)) = d.
Proof using Hlen. rewrite <- heaps_length_app. apply deref_alloc_new. Qed.

Ltac tidy2 :=
  repeat first
    [ rewrite deref_alloc_new
    | rewrite has_column_query_eq
    | rewrite deref_alloc_old by (rewrite ?length_app; simpl; lia)
    | rewrite Hrich
    | rewrite Hpoor
    | rewrite (has_column_ext _ _ _ Hcols)
    | rewrite (resolves_ext _ _ _ Hidx Hcols)
    | rewrite groupable_query_eq
    | rewrite groupby_error_query_eq
    | rewrite deref_new_h2
    | rewrite deref_new_h2'
    | rewrite Hlen
    | rewrite heaps_length_app
    | rewrite heaps_length_app2 ].

Ltac tidy2_in H :=
  cbn [g_frame g_key] in H;
  repeat first
    [ rewrite deref_alloc_new in H
    | rewrite has_column_query_eq in H
    | rewrite deref_alloc_old in H by (rewrite ?length_app; simpl; lia)
    | rewrite Hrich in H
    | rewrite Hpoor in H
    | rewrite (has_column_ext _ _ _ Hcols) in H
    | rewrite (resolves_ext _ _ _ Hidx Hcols) in H
    | rewrite groupable_query_eq in H
    | rewrite deref_new_h2 in H
    | rewrite deref_new_h2' in H
    | rewrite Hlen in H
    | rewrite heaps_length_app in H
    | rewrite heaps_length_app2 in H ].

(** A decision already taken in the first run is taken again. *)
Ltac same_answer H :=
  lazymatch type of H with
  | raises ?b ?t ?c = None =>
      lazymatch goal with
      | H1 : raises b t c = Some _ |- _ => exfalso; rewrite H in H1; discriminate H1
      | _ => idtac
      end
  | raises ?b ?t ?c = Some ?e =>
      lazymatch goal with
      | H1 : raises b t c = None |- _ => exfalso; rewrite H in H1; discriminate H1
      | _ =>
          try match goal with
          | H1 : raises b t c = Some ?e1 |- _ =>
              tryif constr_eq H1 H then fail
              else (rewrite H1 in H; injection H as <-)
          end
      end
  end.

Ltac again leaf :=
  cbv beta iota;
  lazymatch goal with
  | |- wp (mbind _ _) _ _ => apply wp_mbind; again leaf
  | |- wp (mret _) _ _ => apply wp_mret; again leaf
  | |- wp (bind _ _) _ _ => apply wp_bind; again leaf
  | |- wp (ret _) _ _ => apply wp_ret; again leaf
  | |- wp (render _) _ _ =>
      let H := fresh "Hr" in
      apply wp_render; [intros ? H|intros H]; tidy2_in H; same_answer H; again leaf
  | |- wp (plt_subplots _ _ _) _ _ =>
      let H := fresh "Hr" in
      apply wp_plt_subplots; [intros ? H|intros H]; tidy2_in H; same_answer H;
      again leaf
  | |- wp (df_query _ _ _) _ _ =>
      let H := fresh "Hr" in
      let Hc := fresh "Hcol" in
      apply wp_df_query;
      [ intros ? H; tidy2_in H; same_answer H; tidy2; again leaf
      | intros H Hc; tidy2_in H; same_answer H; tidy2_in Hc;
        first [absurd_test Hc | tidy2; again leaf]
      | intros H Hc; tidy2_in H; same_answer H; tidy2_in Hc;
        first [absurd_test Hc | tidy2; again leaf] ]
  | |- wp (df_groupby _ _) _ _ =>
      let H := fresh "Hr" in
      let Hc := fresh "Hcol" in
      apply wp_df_groupby;
      [ intros ? H; tidy2_in H; same_answer H; tidy2; again leaf
      | intros H Hc; tidy2_in H; same_answer H; tidy2_in Hc;
        first [absurd_test Hc | tidy2; again leaf]
      | intros H Hc; tidy2_in H; same_answer H; tidy2_in Hc;
        first [absurd_test Hc | tidy2; again leaf] ]
  | |- wp (groupby_getattr _ _) _ _ =>
      let H := fresh "Hr" in
      let Hc := fresh "Hcol" in
      apply wp_groupby_getattr;
      [ intros ? H; tidy2_in H; same_answer H; tidy2; again leaf
      | intros H Hc; tidy2_in H; same_answer H; tidy2_in Hc;
        first [absurd_test Hc | tidy2; again leaf]
      | intros H Hc; tidy2_in H; same_answer H; tidy2_in Hc;
        first [absurd_test Hc | tidy2; again leaf] ]
  | |- wp (sgb_value_counts _ _) _ _ =>
      let H := fresh "Hr" in
      apply wp_sgb_value_counts; [intros ? H|intros H]; tidy2_in H; same_answer H;
      again leaf
  | |- wp (series_unstack _) _ _ =>
      let H := fresh "Hr" in
      apply wp_series_unstack; [intros ? H|intros H]; tidy2_in H; same_answer H;
      again leaf
  | |- wp (item _ _) _ _ => eapply wp_item; [reflexivity|]; again leaf
  | |- wp (for_each [] _) _ _ => apply wp_for_each_nil; again leaf
  | |- wp (for_each (_ :: _) _) _ _ => apply wp_for_each_cons; again leaf
  | |- wp _ _ _ => idtac
  | |- _ => leaf
  end.

Lemma plot_fishing_grounds_two_runs n a tr :
  wp (plot_fishing_grounds df) (mkWorld b fs1 h1 n a (tr ++ rev []))
     (same_run (plot_fishing_grounds df) (mkWorld b fs2 h2 n a (tr ++ rev []))).
Proof.
  unfold plot_fishing_grounds. unfold_wrappers. simpl for_each.
  run ltac:(unfold same_run; again ltac:(split; reflexivity)).
Qed.
End two_runs.


(** * The claims *)

(** ** Reading the postconditions on the entries a run issued *)

Lemma follows_script_inv (m : M unit) w script :
  wp m w (follows_script w script) ->
  heap w `prefix_of` heap (m w).2 /\
  faithful (m w).1 (issued m w) /\
  calls_of (issued m w) `prefix_of` script /\
  ((m w).1 = Ok tt -> calls_of (issued m w) = script).
Proof.
  unfold wp, follows_script. intros (evs & Ht & Hh & Hf & Hp & Hs).
  by rewrite (issued_app _ _ _ Ht).
Qed.

Lemma kw_post_inv (m : M unit) w models :
  wp m w (kw_post w models) ->
  faithful (m w).1 (issued m w) /\
  pickles_read (calls_of (issued m w)) `prefix_of` map pickle_path models /\
  legend_built w models (issued m w) /\
  ((m w).1 = Ok tt -> kw_complete w models (calls_of (issued m w))).
Proof.
  unfold wp, kw_post. intros (evs & Ht & Hf & Hp & Hl & Hs).
  by rewrite (issued_app _ _ _ Ht).
Qed.

Lemma comparison_post_inv (m : M unit) w :
  wp m w (comparison_post w) ->
  faithful (m w).1 (issued m w) /\
  pickles_read (calls_of (issued m w)) `prefix_of` map pickle_path models_97_comparison /\
  ((m w).1 = Ok tt -> comparison_complete w (calls_of (issued m w))).
Proof.
  unfold wp, comparison_post. intros (evs & Ht & Hf & Hp & Hs).
  by rewrite (issued_app _ _ _ Ht).
Qed.

Lemma omap_prefix {A B} (f : A -> option B) (l1 l2 : list A) :
  l1 `prefix_of` l2 -> omap f l1 `prefix_of` omap f l2.
Proof. intros [k ->]. rewrite omap_app. by eexists. Qed.

Lemma elem_of_prefix {A} (l1 l2 : list A) x :
  l1 `prefix_of` l2 -> x ∈ l1 -> x ∈ l2.
Proof. intros [k ->] Hx. apply elem_of_app. by left. Qed.

Lemma faithful_propagates (r : result unit) evs :
  faithful r evs ->
  forall e, r = Raise e <-> exists c, (c, Raised e) ∈ evs.
Proof.
  intros Hf e. split.
  - intros ->. destruct Hf as (before & c & -> & _). exists c.
    apply elem_of_app. right. by left.
  - intros [c Hc]. destruct r as [[]|e'].
    + unfold faithful in Hf. rewrite Forall_forall in Hf.
      apply Hf in Hc. discriminate Hc.
    + destruct Hf as (before & c' & -> & Hb).
      apply elem_of_app in Hc as [Hc|Hc].
      * rewrite Forall_forall in Hb. apply Hb in Hc. discriminate Hc.
      * apply list_elem_of_singleton in Hc. by inversion Hc.
Qed.

(** With an argument that is neither "1994" nor "1997" no branch of
    [plot_choices_kw] assigns [models], and the loop header fails on it. *)
Lemma plot_choices_kw_unbound w example :
  example <> "1994" -> example <> "1997" ->
  plot_choices_kw example w = (Raise (UnboundLocalError "models"), w).
Proof.
  intros H94 H97. unfold plot_choices_kw.
  destruct (String.eqb_spec example "1994") as [|_]; [done|].
  destruct (String.eqb_spec example "1997") as [|_]; [done|].
  reflexivity.
Qed.


(** ** C1 *)

(** C1: for every world and dataframe, the calls [plot_choice_shares] makes
    are a prefix of the script below, and all of it when it returns; the
    flag [friday] selects the palette of the stacked bar plot (three colours
    when set, two otherwise) and the number of legend columns (3 when set, 2
    otherwise) and nothing else: the table that is drawn and every other
    call are the same for both values. *)
Theorem plot_choice_shares_flag (w : World) (df : loc) (friday : bool) :
  let script :=
    [Subplots 1 1 []; GroupByCall df "Period"; GetAttr "Choice";
     ValueCounts true; Unstack;
     PlotBar (shares (deref (heap w) df) "Period" "Choice") (axes_made w)
             [("stacked", ABool true);
              ("color", AStrs (if friday then ["C0"; "C2"; "C1"] else ["C0"; "C1"]))];
     Xticks [("rotation", AStr "horizontal")];
     PltLegend None [("loc", AStr "lower center");
                     ("bbox_to_anchor", APair 0.5 (-0.275));
                     ("ncol", AInt (if friday then 3 else 2))];
     Show; Close] in
  calls_of (issued (plot_choice_shares df friday) w) `prefix_of` script /\
  ((plot_choice_shares df friday w).1 = Ok tt ->
   calls_of (issued (plot_choice_shares df friday) w) = script).
Proof.
  intros script.
  destruct (follows_script_inv _ _ _ (plot_choice_shares_run w df friday))
    as (_ & _ & Hp & Hs).
  split; [exact Hp|exact Hs].
Qed.

Lemma plot_choice_shares_flag_witness :
  (plot_choice_shares 0%nat true island).1 = Ok tt /\
  bars_drawn (calls_of (issued (plot_choice_shares 0%nat true) island)) =
    [(shares robinson "Period" "Choice", 0%nat)].
Proof.
  assert (H : (plot_choice_shares 0%nat true island).1 = Ok tt) by (vm_compute; reflexivity).
  split; [exact H|].
  rewrite (proj2 (plot_choice_shares_flag island 0%nat true) H). reflexivity.
Defined.

(** ** C2 *)

Lemma reads_nothing (m : M unit) w script :
  wp m w (follows_script w script) ->
  pickles_read script = [] ->
  pickles_read (calls_of (issued m w)) = [].
Proof.
  intros Hrun Hs. apply follows_script_inv in Hrun as (_ & _ & Hp & _).
  apply (omap_prefix (fun c => match c with ReadPickle p => Some p | _ => None end))
    in Hp.
  fold (pickles_read script) in Hp. rewrite Hs in Hp. by apply prefix_nil_inv in Hp.
Qed.

Lemma reads_models (l : list string) models path :
  l `prefix_of` map pickle_path models -> path ∈ l ->
  exists m, m ∈ models /\ path = "data/choices_" +:+ m +:+ ".pkl".
Proof.
  intros Hp Hin. apply (elem_of_prefix _ _ _ Hp) in Hin.
  apply list_elem_of_fmap in Hin as (m & -> & Hm). by exists m.
Qed.

(** C2: the four functions that take a dataframe never call
    [pd.read_pickle], the only call that touches the file system; every path
    that [plot_choices_kw] and [plot_kw_97_comparison] read is
    "data/choices_" followed by one of their model names followed by ".pkl";
    and a run of either that returns has read the tables of all its
    models. *)
Theorem only_two_functions_read_pickles (w : World) (df : loc) (friday : bool)
    (example : string) :
  pickles_read (calls_of (issued (plot_fishing_grounds df) w)) = [] /\
  pickles_read (calls_of (issued (plot_choice_shares df friday) w)) = [] /\
  pickles_read (calls_of (issued (plot_choice_prob_and_exp_level df) w)) = [] /\
  pickles_read (calls_of (issued (plot_choice_prob df) w)) = [] /\
  (forall path,
     path ∈ pickles_read (calls_of (issued (plot_choices_kw example) w)) ->
     exists m, m ∈ models_1994 ++ models_1997 /\
               path = "data/choices_" +:+ m +:+ ".pkl") /\
  (forall path,
     path ∈ pickles_read (calls_of (issued plot_kw_97_comparison w)) ->
     exists m, m ∈ models_97_comparison /\
               path = "data/choices_" +:+ m +:+ ".pkl") /\
  ((plot_choices_kw example w).1 = Ok tt ->
   pickles_read (calls_of (issued (plot_choices_kw example) w)) =
   map (fun m => "data/choices_" +:+ m +:+ ".pkl")
       (if String.eqb example "1994" then models_1994 else models_1997)) /\
  ((plot_kw_97_comparison w).1 = Ok tt ->
   pickles_read (calls_of (issued plot_kw_97_comparison w)) =
   map (fun m => "data/choices_" +:+ m +:+ ".pkl") models_97_comparison).
Proof.
  split; [|split; [|split; [|split; [|split; [|split; [|split]]]]]].
  - by eapply reads_nothing; [apply plot_fishing_grounds_run|].
  - eapply reads_nothing; [apply plot_choice_shares_run|]. by destruct friday.
  - by eapply reads_nothing; [apply plot_choice_prob_and_exp_level_run|].
  - by eapply reads_nothing; [apply plot_choice_prob_run|].
  - intros path Hin.
    destruct (decide (example = "1994")) as [->|H94].
    { destruct (kw_post_inv _ _ _ (plot_choices_kw_run w "1994" models_1994
                                     (or_introl (conj eq_refl eq_refl))))
        as (_ & Hp & _).
      destruct (reads_models _ _ _ Hp Hin) as (m & Hm & ->).
      exists m. split; [|done]. apply elem_of_app. by left. }
    destruct (decide (example = "1997")) as [->|H97].
    { destruct (kw_post_inv _ _ _ (plot_choices_kw_run w "1997" models_1997
                                     (or_intror (conj eq_refl eq_refl))))
        as (_ & Hp & _).
      destruct (reads_models _ _ _ Hp Hin) as (m & Hm & ->).
      exists m. split; [|done]. apply elem_of_app. by right. }
    exfalso. unfold issued in Hin.
    rewrite (plot_choices_kw_unbound w example H94 H97) in Hin. simpl in Hin.
    rewrite drop_all in Hin. by apply elem_of_nil in Hin.
  - intros path Hin.
    destruct (comparison_post_inv _ _ (plot_kw_97_comparison_run w)) as (_ & Hp & _).
    exact (reads_models _ _ _ Hp Hin).
  - intros Hok.
    destruct (decide (example = "1994")) as [->|H94].
    { destruct (kw_post_inv _ _ _ (plot_choices_kw_run w "1994" models_1994
                                     (or_introl (conj eq_refl eq_refl))))
        as (_ & _ & _ & Hc).
      destruct (Hc Hok) as (ds & _ & _ & Hr & _). exact Hr. }
    destruct (decide (example = "1997")) as [->|H97].
    { destruct (kw_post_inv _ _ _ (plot_choices_kw_run w "1997" models_1997
                                     (or_intror (conj eq_refl eq_refl))))
        as (_ & _ & _ & Hc).
      destruct (Hc Hok) as (ds & _ & _ & Hr & _). exact Hr. }
    rewrite (plot_choices_kw_unbound w example H94 H97) in Hok. discriminate Hok.
  - intros Hok.
    destruct (comparison_post_inv _ _ (plot_kw_97_comparison_run w)) as (_ & _ & Hc).
    destruct (Hc Hok) as (obs & basic & ext & _ & _ & _ & Hr & _). exact Hr.
Qed.

Lemma only_two_functions_read_pickles_witness :
  pickles_read (calls_of (issued (plot_choices_kw "1997") island)) =
    ["data/choices_kw_97_basic.pkl"; "data/choices_kw_97_extended.pkl"] /\
  pickles_read (calls_of (issued plot_kw_97_comparison island)) =
    ["data/choices_kw_97_obs.pkl"; "data/choices_kw_97_basic.pkl";
     "data/choices_kw_97_extended.pkl"].
Proof.
  destruct (only_two_functions_read_pickles island 0%nat false "1997")
    as (_ & _ & _ & _ & _ & _ & Hkw & Hcmp).
  split.
  - apply Hkw. vm_compute. reflexivity.
  - apply Hcmp. vm_compute. reflexivity.
Defined.

(** ** C3 *)

(** C3: a run of [plot_choices_kw] that returns, with "1994" over the three
    models kw_94_one, kw_94_two, kw_94_three and with "1997" over the two
    models kw_97_basic, kw_97_extended, has made one row of as many subplots
    as models, has read the table of each model, in order, and has drawn each
    table, and no other, on the subplot of its model (the area plot, titled
    with the model, then its outline). *)
Theorem plot_choices_kw_models (w : World) (example : string) (models : list string) :
  (example = "1994" /\ models = ["kw_94_one"; "kw_94_two"; "kw_94_three"]) \/
  (example = "1997" /\ models = ["kw_97_basic"; "kw_97_extended"]) ->
  (plot_choices_kw example w).1 = Ok tt ->
  let cs := calls_of (issued (plot_choices_kw example) w) in
  exists tables,
    Forall2 (fun m d => files w !! ("data/choices_" +:+ m +:+ ".pkl") = Some d)
            models tables /\
    subplot_grids cs = [(1, length models)]%nat /\
    pickles_read cs = map (fun m => "data/choices_" +:+ m +:+ ".pkl") models /\
    frames_plotted cs =
      flat_map (fun '(i, (m, d)) =>
                  [(d, (i + axes_made w)%nat, Some (AStr ("Example model: " +:+ m)));
                   (d, (i + axes_made w)%nat, None)])
               (enumerate (zip models tables)).
Proof.
  intros Hex Hok cs.
  destruct (kw_post_inv _ _ _ (plot_choices_kw_run w example models Hex))
    as (_ & _ & _ & Hc).
  exact (Hc Hok).
Qed.

Lemma plot_choices_kw_models_witness :
  exists tables,
    Forall2 (fun m d => files island !! ("data/choices_" +:+ m +:+ ".pkl") = Some d)
            ["kw_94_one"; "kw_94_two"; "kw_94_three"] tables /\
    subplot_grids (calls_of (issued (plot_choices_kw "1994") island)) = [(1, 3)]%nat.
Proof.
  destruct (plot_choices_kw_models island "1994" ["kw_94_one"; "kw_94_two"; "kw_94_three"])
    as (tables & Hf & Hg & _).
  - left. split; reflexivity.
  - vm_compute. reflexivity.
  - exists tables. split; [exact Hf|exact Hg].
Defined.

(** ** C4 *)

(** C4: every dataframe that is in memory when one of the four plotting
    functions is called, the caller's included, is there unchanged when the
    function returns or raises. *)
Theorem dataframes_unchanged (w : World) (df : loc) (friday : bool)
    (l : loc) (d : DataFrame) :
  heap w !! l = Some d ->
  heap (plot_fishing_grounds df w).2 !! l = Some d /\
  heap (plot_choice_shares df friday w).2 !! l = Some d /\
  heap (plot_choice_prob_and_exp_level df w).2 !! l = Some d /\
  heap (plot_choice_prob df w).2 !! l = Some d.
Proof.
  intros Hl.
  destruct (follows_script_inv _ _ _ (plot_fishing_grounds_run w df)) as ([k1 H1] & _).
  destruct (follows_script_inv _ _ _ (plot_choice_shares_run w df friday)) as ([k2 H2] & _).
  destruct (follows_script_inv _ _ _ (plot_choice_prob_and_exp_level_run w df))
    as ([k3 H3] & _).
  destruct (follows_script_inv _ _ _ (plot_choice_prob_run w df)) as ([k4 H4] & _).
  rewrite H1, H2, H3, H4.
  repeat split; by apply lookup_app_l_Some.
Qed.

Lemma dataframes_unchanged_witness :
  heap (plot_fishing_grounds 0%nat island).2 !! 0%nat = Some robinson /\
  heap (plot_choice_shares 0%nat true island).2 !! 0%nat = Some robinson /\
  heap (plot_choice_prob_and_exp_level 0%nat island).2 !! 0%nat = Some robinson /\
  heap (plot_choice_prob 0%nat island).2 !! 0%nat = Some robinson.
Proof. apply (dataframes_unchanged island 0%nat true 0%nat robinson). reflexivity. Defined.

(** ** C5 *)

(** C5, as stated, fails: called with "2000", [plot_choices_kw] raises an
    unbound-local error although it made no library call at all. *)
Lemma library_errors_only_counterexample :
  (plot_choices_kw "2000" island).1 = Raise (UnboundLocalError "models") /\
  issued (plot_choices_kw "2000") island = [] /\
  ~ propagates_only (plot_choices_kw "2000") island.
Proof.
  split; [reflexivity|]. split; [reflexivity|].
  intros H. destruct (proj1 (H (UnboundLocalError "models")) eq_refl) as [c Hc].
  change (issued (plot_choices_kw "2000") island) with (@nil entry) in Hc.
  by apply elem_of_nil in Hc.
Qed.

Lemma faithful_stops (r : result unit) evs c e :
  faithful r evs -> (c, Raised e) ∈ evs ->
  r = Raise e /\ last evs = Some (c, Raised e).
Proof.
  intros Hf Hc. destruct r as [[]|e'].
  - unfold faithful in Hf. rewrite Forall_forall in Hf.
    apply Hf in Hc. discriminate Hc.
  - destruct Hf as (before & c' & -> & Hb).
    apply elem_of_app in Hc as [Hc|Hc].
    + rewrite Forall_forall in Hb. apply Hb in Hc. discriminate Hc.
    + apply list_elem_of_singleton in Hc. inversion Hc; subst.
      split; [done|]. by rewrite last_snoc.
Qed.

Lemma plot_choices_kw_faithful w example :
  faithful (plot_choices_kw example w).1 (issued (plot_choices_kw example) w) \/
  issued (plot_choices_kw example) w = [].
Proof.
  destruct (String.eqb_spec example "1994") as [->|H94];
    [|destruct (String.eqb_spec example "1997") as [->|H97]].
  - left. by destruct (kw_post_inv _ _ _ (plot_choices_kw_run w "1994" models_1994
                                            (or_introl (conj eq_refl eq_refl)))) as (? & _).
  - left. by destruct (kw_post_inv _ _ _ (plot_choices_kw_run w "1997" models_1997
                                            (or_intror (conj eq_refl eq_refl)))) as (? & _).
  - right. unfold issued. rewrite (plot_choices_kw_unbound w example H94 H97). simpl.
    by rewrite drop_all.
Qed.

(** C5, amended: no function of the module catches an exception.  In each
    of the six, an exception that a library call raises is the result of the
    call, unchanged, and the function stops there.  The four functions that
    take a dataframe, and [plot_choices_kw] called with "1994" or "1997",
    raise only then: they raise exactly when one of their library calls
    does. *)
Theorem library_errors_propagate (w : World) (df : loc) (friday : bool)
    (example : string) :
  (propagates (plot_fishing_grounds df) w /\
   propagates (plot_choice_shares df friday) w /\
   propagates (plot_choice_prob_and_exp_level df) w /\
   propagates (plot_choice_prob df) w /\
   propagates (plot_choices_kw example) w /\
   propagates plot_kw_97_comparison w) /\
  (raises_only_from_library (plot_fishing_grounds df) w /\
   raises_only_from_library (plot_choice_shares df friday) w /\
   raises_only_from_library (plot_choice_prob_and_exp_level df) w /\
   raises_only_from_library (plot_choice_prob df) w) /\
  (example = "1994" \/ example = "1997" ->
   raises_only_from_library (plot_choices_kw example) w).
Proof.
  destruct (follows_script_inv _ _ _ (plot_fishing_grounds_run w df)) as (_ & F1 & _).
  destruct (follows_script_inv _ _ _ (plot_choice_shares_run w df friday))
    as (_ & F2 & _).
  destruct (follows_script_inv _ _ _ (plot_choice_prob_and_exp_level_run w df))
    as (_ & F3 & _).
  destruct (follows_script_inv _ _ _ (plot_choice_prob_run w df)) as (_ & F4 & _).
  destruct (comparison_post_inv _ _ (plot_kw_97_comparison_run w)) as (F6 & _).
  split; [|split].
  - unfold propagates.
    split; [|split; [|split; [|split; [|split]]]]; intros c e Hc;
      try (by eapply faithful_stops).
    destruct (plot_choices_kw_faithful w example) as [F5|Hnil].
    + by apply (faithful_stops _ _ c e F5).
    + rewrite Hnil in Hc. by apply elem_of_nil in Hc.
  - unfold raises_only_from_library.
    split; [|split; [|split]]; intros e He; by eapply faithful_propagates.
  - intros Hex e He.
    destruct (plot_choices_kw_faithful w example) as [F5|Hnil].
    + by apply (faithful_propagates _ _ F5).
    + exfalso. destruct Hex as [->| ->]; revert He;
        [destruct (kw_post_inv _ _ _ (plot_choices_kw_run w "1994" models_1994
                                        (or_introl (conj eq_refl eq_refl)))) as (F & _)
        |destruct (kw_post_inv _ _ _ (plot_choices_kw_run w "1997" models_1997
                                        (or_intror (conj eq_refl eq_refl)))) as (F & _)];
        rewrite Hnil in F; intros He; rewrite He in F;
        destruct F as (before & c & Hb & _); by destruct before.
Qed.

Lemma library_errors_propagate_witness :
  (plot_choices_kw "1994" (without_file "kw_94_two")).1 =
    Raise (FileNotFoundError (pickle_path "kw_94_two")) /\
  last (issued (plot_choices_kw "1994") (without_file "kw_94_two")) =
    Some (ReadPickle (pickle_path "kw_94_two"),
          Raised (FileNotFoundError (pickle_path "kw_94_two"))) /\
  exists c,
    (c, Raised (FileNotFoundError (pickle_path "kw_94_two")))
      ∈ issued (plot_choices_kw "1994") (without_file "kw_94_two").
Proof.
  destruct (library_errors_propagate (without_file "kw_94_two") 0%nat false "1994")
    as ((_ & _ & _ & _ & Hp & _) & _ & Ho).
  destruct (Hp (ReadPickle (pickle_path "kw_94_two"))
               (FileNotFoundError (pickle_path "kw_94_two"))) as [Hr Hl].
  - vm_compute. repeat first [apply list_elem_of_here|apply list_elem_of_further].
  - split; [exact Hr|]. split; [exact Hl|].
    apply Ho; [left; reflexivity|exact Hr].
Defined.

(** ** C6 *)

Lemma in_prefix_lookup {A} (l1 l2 : list A) i x :
  l1 `prefix_of` l2 -> l1 !! i = Some x -> l2 !! i = Some x.
Proof. intros [k ->] Hx. by apply lookup_app_l_Some. Qed.

Lemma bars_drawn_prefix (m : M unit) w script :
  wp m w (follows_script w script) ->
  bars_drawn (calls_of (issued m w)) `prefix_of` bars_drawn script /\
  ((m w).1 = Ok tt -> bars_drawn (calls_of (issued m w)) = bars_drawn script).
Proof.
  intros H. destruct (follows_script_inv _ _ _ H) as (_ & _ & Hp & Hs). split.
  - by apply omap_prefix.
  - intros Hok. by rewrite (Hs Hok).
Qed.

(** C6, as stated, fails: the program computes the shares in floating
    point.  For a period of ten rows with the outcomes in the proportions 3,
    3, 3 and 1, the four shares that [plot_choice_shares] hands to the bar
    plot are the doubles next to 0.3, 0.3, 0.3 and 0.1; added up they give
    the double below 1, and taken exactly they add up to less than 1. *)
Lemma shares_sum_counterexample :
  exists line,
    bars_drawn (calls_of (issued (plot_choice_shares 0%nat false)
                            (with_frame island 0%nat ten_days))) =
      [(shares ten_days "Period" "Choice", 0%nat)] /\
    table_row (shares ten_days "Period" "Choice") (VInt 0) = Some line /\
    map fst line = [VStr "fishing"; VStr "friday"; VStr "hammock"; VStr "idle"] /\
    float_eqb (row_total line) (float_of_nat 1) = false /\
    ~ (row_total_exact line == 1)%Q.
Proof.
  eexists. split; [vm_compute; reflexivity|].
  split; [vm_compute; reflexivity|].
  split; [reflexivity|]. split; [vm_compute; reflexivity|].
  vm_compute. discriminate.
Qed.

(** C6, amended: every bar chart that one of the four functions draws,
    whether the run then returns or raises, holds normalized frequencies,
    computed in floating point: for every period with at least one row with
    a recorded outcome in the table that is aggregated (the whole input, or
    its rows on "rich" or on "poor" grounds), each plotted share is the
    double that dividing the count of the outcome in the period by the
    number of such rows gives, every outcome of the period having its share.
    Taken exactly these quotients add up to 1; the doubles do so only up to
    rounding.  A run that returns has drawn these charts, one or two of
    them. *)
Theorem plotted_shares_normalized (w : World) (df : loc) (friday : bool)
    (i : nat) (t : Table) (ax : axes) :
  let d := deref (heap w) df in
  let bars := fun m : M unit => bars_drawn (calls_of (issued m w)) in
  (bars (plot_choice_shares df friday) !! i = Some (t, ax) ->
   normalized_shares d "Period" "Choice" t) /\
  (bars (plot_choice_prob df) !! i = Some (t, ax) ->
   normalized_shares d "Period" "Choice" t) /\
  (bars (plot_choice_prob_and_exp_level df) !! i = Some (t, ax) ->
   (i = 0%nat /\ normalized_shares d "Period" "Choice" t) \/
   (i = 1%nat /\ normalized_shares d "Period" "Experience_Fishing" t)) /\
  (bars (plot_fishing_grounds df) !! i = Some (t, ax) ->
   (i = 0%nat /\
    normalized_shares (query_eq d "Fishing_Grounds" (VStr "rich")) "Period" "Choice" t) \/
   (i = 1%nat /\
    normalized_shares (query_eq d "Fishing_Grounds" (VStr "poor")) "Period" "Choice" t)) /\
  ((plot_choice_shares df friday w).1 = Ok tt ->
   length (bars (plot_choice_shares df friday)) = 1%nat) /\
  ((plot_choice_prob df w).1 = Ok tt -> length (bars (plot_choice_prob df)) = 1%nat) /\
  ((plot_choice_prob_and_exp_level df w).1 = Ok tt ->
   length (bars (plot_choice_prob_and_exp_level df)) = 2%nat) /\
  ((plot_fishing_grounds df w).1 = Ok tt ->
   length (bars (plot_fishing_grounds df)) = 2%nat).
Proof.
  intros d bars. subst bars. cbv beta.
  destruct (bars_drawn_prefix _ _ _ (plot_choice_shares_run w df friday)) as [P1 S1].
  destruct (bars_drawn_prefix _ _ _ (plot_choice_prob_run w df)) as [P2 S2].
  destruct (bars_drawn_prefix _ _ _ (plot_choice_prob_and_exp_level_run w df)) as [P3 S3].
  destruct (bars_drawn_prefix _ _ _ (plot_fishing_grounds_run w df)) as [P4 S4].
  repeat split.
  - intros H. apply (in_prefix_lookup _ _ _ _ P1) in H.
    destruct i as [|i]; [|destruct i; discriminate H].
    inversion H; subst. intros p. apply shares_normalized.
  - intros H. apply (in_prefix_lookup _ _ _ _ P2) in H.
    destruct i as [|i]; [|destruct i; discriminate H].
    inversion H; subst. intros p. apply shares_normalized.
  - intros H. apply (in_prefix_lookup _ _ _ _ P3) in H.
    destruct i as [|[|i]]; [left|right|destruct i; discriminate H];
      (split; [reflexivity|]); inversion H; subst; intros p; apply shares_normalized.
  - intros H. apply (in_prefix_lookup _ _ _ _ P4) in H.
    destruct i as [|[|i]]; [left|right|destruct i; discriminate H];
      (split; [reflexivity|]); inversion H; subst; intros p; apply shares_normalized.
  - intros Hok. by rewrite (S1 Hok).
  - intros Hok. by rewrite (S2 Hok).
  - intros Hok. by rewrite (S3 Hok).
  - intros Hok. by rewrite (S4 Hok).
Qed.

Lemma plotted_shares_normalized_witness :
  normalized_shares logbook "Period" "Choice" (shares logbook "Period" "Choice") /\
  table_row (shares logbook "Period" "Choice") (VInt 0) =
    Some [(VStr "fishing", Some (float_div (float_of_nat 2) (float_of_nat 3)));
          (VStr "hammock", Some (float_div (float_of_nat 1) (float_of_nat 3)))] /\
  n_rows logbook "Period" "Choice" (VInt 0) = 3%nat /\
  length (rows logbook) = 6%nat.
Proof.
  destruct (plotted_shares_normalized (with_frame island 0%nat logbook) 0%nat false
              0%nat (shares logbook "Period" "Choice") 0%nat) as (H & _).
  split; [apply H; vm_compute; reflexivity|].
  split; [vm_compute; reflexivity|]. split; reflexivity.
Defined.

(** ** C8 *)

(** C8: called with any string other than "1994" and "1997",
    [plot_choices_kw] raises the unbound-local error for [models], having
    made no library call: nothing is read, no figure is made, and the world
    is as it was. *)
Theorem plot_choices_kw_other_strings (w : World) (example : string) :
  example <> "1994" -> example <> "1997" ->
  (plot_choices_kw example w).1 = Raise (UnboundLocalError "models") /\
  (plot_choices_kw example w).2 = w /\
  issued (plot_choices_kw example) w = [].
Proof.
  intros H94 H97. unfold issued.
  rewrite (plot_choices_kw_unbound w example H94 H97). simpl.
  repeat split. by rewrite drop_all.
Qed.

Lemma plot_choices_kw_other_strings_witness :
  (plot_choices_kw "2000" island).1 = Raise (UnboundLocalError "models") /\
  (plot_choices_kw "2000" island).2 = island /\
  issued (plot_choices_kw "2000") island = [].
Proof. apply (plot_choices_kw_other_strings island "2000"); discriminate. Defined.

(** ** C9 *)

Lemma length_enumerate_from {A} (l : list A) n : length (enumerate_from n l) = length l.
Proof. revert n. induction l as [|x l IH]; intros n; simpl; [done|]. by rewrite IH. Qed.

Lemma map_snd_enumerate_from {A B C} (f : nat -> B) (g : A -> C) (l : list A) n :
  map snd (map (fun '(i, x) => (f i, g x)) (enumerate_from n l)) = map g l.
Proof. revert n. induction l as [|x l IH]; intros n; simpl; [done|]. by rewrite IH. Qed.

Lemma length_flat_map_const {A B} (f : A -> list B) (k : nat) (l : list A) :
  (forall x, length (f x) = k) -> length (flat_map f l) = (k * length l)%nat.
Proof.
  intros Hf. induction l as [|x l IH]; simpl; [lia|].
  rewrite length_app, IH, Hf. lia.
Qed.

(** C9: a run of [plot_kw_97_comparison] that returns has made a grid of two
    rows of three axes, has read the observed, the basic and the extended
    table, and has drawn one outcome per axes: the outcomes are the first
    five columns of the extended table, the one read last, each drawn with
    the observed, the basic and the extended series and the color of its
    rank; so at most five axes are drawn on, and the sixth axes is
    deleted. *)
Theorem comparison_columns (w : World) :
  (plot_kw_97_comparison w).1 = Ok tt ->
  let cs := calls_of (issued plot_kw_97_comparison w) in
  comparison_complete w cs /\
  (exists ext,
     files w !! "data/choices_kw_97_extended.pkl" = Some ext /\
     map snd (titles_set cs) =
       map (fun choice => replace_underscores (capitalize choice))
           (take 5 (columns ext))) /\
  (length (titles_set cs) <= 5)%nat /\
  (length (lines_plotted cs) <= 15)%nat /\
  subplot_grids cs = [(2, 3)]%nat /\
  axes_deleted cs = [(figures w, (5 + axes_made w)%nat)].
Proof.
  intros Hok cs.
  destruct (comparison_post_inv _ _ (plot_kw_97_comparison_run w)) as (_ & _ & Hc).
  specialize (Hc Hok). fold cs in Hc. split; [exact Hc|].
  destruct Hc as (obs & basic & ext & Ho & Hb & He & Hp & Hg & Hl & Ht & Hd).
  split; [|split; [|split; [|split]]].
  - exists ext. split; [exact He|]. rewrite Ht. apply map_snd_enumerate_from.
  - rewrite Ht, length_map. unfold enumerate. rewrite length_enumerate_from, length_take. lia.
  - rewrite Hl, (length_flat_map_const _ 3) by (by intros [i [c k]]).
    unfold enumerate. rewrite length_enumerate_from, length_zip, length_take. lia.
  - exact Hg.
  - exact Hd.
Qed.

Lemma comparison_columns_witness :
  map snd (titles_set (calls_of (issued plot_kw_97_comparison island))) =
    ["Blue collar"; "White collar"; "Military"; "School"; "Home"] /\
  axes_deleted (calls_of (issued plot_kw_97_comparison island)) = [(0, 5)]%nat.
Proof.
  destruct (comparison_columns island) as (_ & _ & _ & _ & _ & Hd).
  - vm_compute. reflexivity.
  - split; [vm_compute; reflexivity|exact Hd].
Defined.

(** ** C7 *)

(** C7: every call of [plt.legend] that [plot_choices_kw] makes comes right
    after the handles and labels of the current axes were gathered and the
    columns of the table of the round's model were read.  The legend passes
    each distinct gathered label exactly once, with one handle per label: the
    handle of the last pair that carries the label.  Its number of columns
    is the number of columns of the model's table. *)
Theorem legend_deduplicated (w : World) (example : string) (models : list string)
    (pre post : list entry) (entries : option (list handle * list string))
    (kw : kwargs) (o : outcome) :
  (example = "1994" /\ models = ["kw_94_one"; "kw_94_two"; "kw_94_three"]) \/
  (example = "1997" /\ models = ["kw_97_basic"; "kw_97_extended"]) ->
  issued (plot_choices_kw example) w = pre ++ (PltLegend entries kw, o) :: post ->
  exists pre' ax l model d handles labels,
    pre = pre' ++ [(GetLegendHandlesLabels ax, Returned); (Columns l, Returned)] /\
    models !! legends_before pre = Some model /\
    files w !! ("data/choices_" +:+ model +:+ ".pkl") = Some d /\
    entries = Some (handles, labels) /\
    kwarg "ncol" kw = Some (AInt (Z.of_nat (length (columns d)))) /\
    NoDup labels /\
    length handles = length labels /\
    let gathered := legend_handles_labels (backend w) (trace w ++ pre') ax in
    let pairs := zip gathered.2 gathered.1 in
    (forall label, label ∈ labels <-> label ∈ map fst pairs) /\
    (forall label h,
       (label, h) ∈ zip labels handles <->
       exists before after,
         pairs = before ++ (label, h) :: after /\ label ∉ map fst after).
Proof.
  intros Hex Hev.
  destruct (kw_post_inv _ _ _ (plot_choices_kw_run w example models Hex))
    as (_ & _ & Hl & _).
  destruct (Hl _ _ _ _ _ Hev) as (pre' & ax & l & model & d & Hpre & Hm & Hd & He & Hn).
  set (pairs := zip (legend_handles_labels (backend w) (trace w ++ pre') ax).2
                    (legend_handles_labels (backend w) (trace w ++ pre') ax).1) in *.
  destruct (dict_of_spec pairs) as (Hnd & Hlen & Hkeys & Hlast).
  exists pre', ax, l, model, d, (dict_values (dict_of pairs)), (dict_keys (dict_of pairs)).
  repeat split; try done.
  - by apply Hkeys.
  - by apply Hkeys.
  - by apply Hlast.
  - by apply Hlast.
Qed.

Lemma legend_deduplicated_witness :
  exists handles labels,
    issued (plot_choices_kw "1997") island !! 10%nat =
      Some (PltLegend (Some (handles, labels))
              [("loc", AStr "lower center"); ("ncol", AInt 6);
               ("bbox_to_anchor", APair (-0.2) (-0.25)); ("fontsize", AInt 12)],
            Returned) /\
    NoDup labels /\
    ((("home", 3%nat) ∈ zip labels handles) <->
     exists before after,
       zip ["home"; "school"; "home"; "school"] [1; 2; 3; 4]%nat =
         before ++ ("home", 3%nat) :: after /\ "home" ∉ map fst after).
Proof.
  destruct (legend_deduplicated island "1997" ["kw_97_basic"; "kw_97_extended"]
              (take 10 (issued (plot_choices_kw "1997") island))
              (drop 11 (issued (plot_choices_kw "1997") island))
              (Some ([3; 4]%nat, ["home"; "school"]))
              [("loc", AStr "lower center"); ("ncol", AInt 6);
               ("bbox_to_anchor", APair (-0.2) (-0.25)); ("fontsize", AInt 12)]
              Returned)
    as (pre' & ax & l & model & d & handles & labels & _ & _ & _ & He & _ & Hnd & _ & _ & Hlast).
  - right. split; reflexivity.
  - vm_compute. reflexivity.
  - inversion He; subst handles labels. exists [3; 4]%nat, ["home"; "school"].
    split; [vm_compute; reflexivity|]. split; [exact Hnd|]. exact (Hlast "home" 3%nat).
Defined.

(** ** C10 *)

Lemma filter_filter_implied {A} (P Q : A -> Prop) `{!forall x, Decision (P x)}
    `{!forall x, Decision (Q x)} (l : list A) :
  (forall x, P x -> Q x) -> filter P (filter Q l) = filter P l.
Proof.
  intros HPQ. induction l as [|x l IH]; [done|].
  rewrite (filter_cons Q). destruct (decide (Q x)) as [HQ|HQ].
  - rewrite !filter_cons. destruct (decide (P x)); by rewrite IH.
  - rewrite filter_cons. destruct (decide (P x)) as [HP|HP]; [|done].
    by destruct HQ; apply HPQ.
Qed.

(** Filtering on one of the two grounds does not see the rows that
    [only_grounds] removes. *)
Lemma query_only_grounds (d : DataFrame) (observable : string) :
  observable = "rich" \/ observable = "poor" ->
  query_eq (only_grounds d) "Fishing_Grounds" (VStr observable) =
  query_eq d "Fishing_Grounds" (VStr observable).
Proof.
  intros Ho. unfold query_eq, only_grounds. simpl. f_equal.
  apply (filter_filter_implied
           (fun r => cell d "Fishing_Grounds" r = VStr observable)
           (fun r => cell d "Fishing_Grounds" r = VStr "rich" \/
                     cell d "Fishing_Grounds" r = VStr "poor")).
  intros r Hr. destruct Ho as [->| ->]; [by left|by right].
Qed.

Lemma deref_insert (h : list DataFrame) (l : loc) (d : DataFrame) :
  (l < length h)%nat -> deref (<[l := d]> h) l = d.
Proof. intros Hl. unfold deref. by rewrite list_lookup_insert_eq. Qed.

Lemma insert_only_grounds (h : list DataFrame) (df : loc) (observable : string) :
  observable = "rich" \/ observable = "poor" ->
  query_eq (deref (<[df := only_grounds (deref h df)]> h) df)
           "Fishing_Grounds" (VStr observable) =
  query_eq (deref h df) "Fishing_Grounds" (VStr observable).
Proof.
  intros Ho. destruct (decide (df < length h)%nat) as [Hl|Hl].
  - rewrite deref_insert by done. by apply query_only_grounds.
  - rewrite list_insert_ge by lia. done.
Qed.

Lemma insert_only_grounds_columns (h : list DataFrame) (df : loc) :
  columns (deref (<[df := only_grounds (deref h df)]> h) df) = columns (deref h df).
Proof.
  destruct (decide (df < length h)%nat) as [Hl|Hl].
  - by rewrite deref_insert.
  - by rewrite list_insert_ge by lia.
Qed.

Lemma insert_only_grounds_index (h : list DataFrame) (df : loc) :
  index_names (deref (<[df := only_grounds (deref h df)]> h) df) =
  index_names (deref h df).
Proof.
  destruct (decide (df < length h)%nat) as [Hl|Hl].
  - by rewrite deref_insert.
  - by rewrite list_insert_ge by lia.
Qed.

(** C10: [plot_fishing_grounds] asks for one row of two subplots and goes
    through two panels, "rich" then "poor": a run that returns has drawn
    exactly two bar charts, the shares among the rows on rich grounds on the
    first axes and those among the rows on poor grounds on the second, titled
    after their grounds.  Rows on any other grounds play no part: with these
    rows taken out of the input the run makes the same calls, with the same
    outcomes, and ends the same way. *)
Theorem plot_fishing_grounds_two_panels (w : World) (df : loc) :
  let d := deref (heap w) df in
  let cs := calls_of (issued (plot_fishing_grounds df) w) in
  cs `prefix_of` fishing_grounds_script df (length (heap w)) d (axes_made w) /\
  subplot_grids cs `prefix_of` [(1, 2)]%nat /\
  ((plot_fishing_grounds df w).1 = Ok tt ->
   subplot_grids cs = [(1, 2)]%nat /\
   bars_drawn cs =
     [(shares (query_eq d "Fishing_Grounds" (VStr "rich")) "Period" "Choice",
       axes_made w);
      (shares (query_eq d "Fishing_Grounds" (VStr "poor")) "Period" "Choice",
       S (axes_made w))] /\
   titles_set cs = [(axes_made w, "Fishing grounds: rich");
                    (S (axes_made w), "Fishing grounds: poor")]) /\
  (plot_fishing_grounds df (with_frame w df (only_grounds d))).1 =
    (plot_fishing_grounds df w).1 /\
  issued (plot_fishing_grounds df) (with_frame w df (only_grounds d)) =
    issued (plot_fishing_grounds df) w.
Proof.
  intros d cs.
  destruct (follows_script_inv _ _ _ (plot_fishing_grounds_run w df)) as (_ & _ & Hp & Hs).
  fold d cs in Hp, Hs.
  split; [exact Hp|]. split; [exact (omap_prefix _ _ _ Hp)|]. split.
  - intros Hok. rewrite (Hs Hok). repeat split.
  - subst d cs. destruct w as [b fs h n a tr].
    pose proof (plot_fishing_grounds_two_runs b fs fs h
                  (<[df := only_grounds (deref h df)]> h) df
                  (length_insert _ _ _)
                  (insert_only_grounds_index h df)
                  (insert_only_grounds_columns h df)
                  (insert_only_grounds h df "rich" (or_introl eq_refl))
                  (insert_only_grounds h df "poor" (or_intror eq_refl))
                  n a tr) as H.
    simpl rev in H. rewrite app_nil_r in H.
    unfold wp, same_run, wp in H. destruct H as [Hr Ht].
    unfold with_frame, issued. simpl. split; [exact Hr|]. by rewrite Ht.
Qed.

Lemma plot_fishing_grounds_two_panels_witness :
  bars_drawn (calls_of (issued (plot_fishing_grounds 0%nat) island)) =
    [(shares (query_eq robinson "Fishing_Grounds" (VStr "rich")) "Period" "Choice", 0%nat);
     (shares (query_eq robinson "Fishing_Grounds" (VStr "poor")) "Period" "Choice", 1%nat)] /\
  length (rows (only_grounds robinson)) = 5%nat /\
  issued (plot_fishing_grounds 0%nat)
         (with_frame island 0%nat (only_grounds robinson)) =
    issued (plot_fishing_grounds 0%nat) island.
Proof.
  destruct (plot_fishing_grounds_two_panels island 0%nat) as (_ & _ & Hs & _ & Hi).
  destruct Hs as (_ & Hb & _); [vm_compute; reflexivity|].
  split; [exact Hb|]. split; [reflexivity|exact Hi].
Defined.


(** * Further properties of the module *)

Arguments outcome_post : simpl never.
Arguments grouped_outcome : simpl never.

(** ** Outcomes *)

Ltac use_tests :=
  repeat match goal with
  | H : has_column _ _ = _ |- _ => rewrite H
  | H : groupable _ _ = _ |- _ => rewrite H
  | H : resolves _ _ = _ |- _ => rewrite H
  end.

Ltac not_raised Hq :=
  match goal with
  | H : raises _ _ _ = Some _ |- _ => rewrite Hq in H; discriminate H
  end.

Ltac outcome_leaf :=
  unfold outcome_post, choice_shares_calls, choice_prob_exp_calls,
    fishing_grounds_calls, choice_shares_outcome, choice_prob_exp_outcome,
    fishing_grounds_outcome, grouped_outcome, grouped_calls;
  cbn [heap files figures axes_made backend trace];
  use_tests;
  split; [first [discriminate|reflexivity|intros _; reflexivity]|];
  let Hq := fresh "Hq" in intros Hq;
  first [not_raised Hq|split; [reflexivity|rewrite length_app; reflexivity]].

Lemma plot_choice_shares_outcome w df friday :
  wp (plot_choice_shares df friday) w
     (outcome_post w (choice_shares_outcome (deref (heap w) df))
        (choice_shares_calls (deref (heap w) df))).
Proof.
  apply wp_run. unfold plot_choice_shares. unfold_wrappers.
  destruct friday; run outcome_leaf.
Qed.

Lemma plot_choice_prob_outcome w df :
  wp (plot_choice_prob df) w
     (outcome_post w (choice_shares_outcome (deref (heap w) df))
        (choice_shares_calls (deref (heap w) df))).
Proof.
  apply wp_run. unfold plot_choice_prob. unfold_wrappers. run outcome_leaf.
Qed.

Lemma plot_choice_prob_and_exp_level_outcome w df :
  wp (plot_choice_prob_and_exp_level df) w
     (outcome_post w (choice_prob_exp_outcome (deref (heap w) df))
        (choice_prob_exp_calls (deref (heap w) df))).
Proof.
  apply wp_run. unfold plot_choice_prob_and_exp_level. unfold_wrappers.
  run outcome_leaf.
Qed.

Lemma plot_fishing_grounds_outcome w df :
  wp (plot_fishing_grounds df) w
     (outcome_post w (fishing_grounds_outcome (deref (heap w) df))
        (fishing_grounds_calls (deref (heap w) df))).
Proof.
  apply wp_run. unfold plot_fishing_grounds. unfold_wrappers. simpl for_each.
  run outcome_leaf.
Qed.

(** ** The calls of the two functions that read files *)

Arguments loaded : simpl never.
Arguments follows_skeleton : simpl never.

Lemma loaded_eq w model d : files w !! pickle_path model = Some d -> loaded w model = d.
Proof. unfold loaded. by intros ->. Qed.

Ltac recall_files :=
  repeat match goal with
  | H : files ?w !! _ = Some ?d |- _ =>
      first [ rewrite (loaded_eq w "kw_97_obs" d H)
            | rewrite (loaded_eq w "kw_97_basic" d H)
            | rewrite (loaded_eq w "kw_97_extended" d H)
            | rewrite (loaded_eq w "kw_94_one" d H)
            | rewrite (loaded_eq w "kw_94_two" d H)
            | rewrite (loaded_eq w "kw_94_three" d H) ]
  end.

Ltac recall_columns :=
  try match goal with Hc : columns _ = _ |- _ => rewrite Hc end.

Ltac comparison_script_leaf :=
  unfold follows_script, comparison_script, comparison_panel;
  cbn [heap files figures axes_made backend trace];
  recall_files; recall_columns;
  eexists; split; [reflexivity|];
  split; [solve_heap|];
  split; [solve_faithful|];
  unfold calls_of; simpl; rewrite ?zip_with_nil_r; simpl;
  rewrite ?length_app; simpl; rewrite ?Nat.add_1_r;
  split; [solve_prefix|try discriminate; intros _; reflexivity].

Lemma plot_kw_97_comparison_script w :
  wp plot_kw_97_comparison w (follows_script w (comparison_script w)).
Proof.
  unfold plot_kw_97_comparison, models_97_comparison, comparison_colors.
  unfold_wrappers. simpl. apply wp_run.
  run comparison_script_leaf.
  match goal with
  | |- context [zip (columns ?d) _] =>
      destruct (columns d) as [|c1 [|c2 [|c3 [|c4 [|c5 rest]]]]] eqn:Hcols
  end.
  all: run comparison_script_leaf.
  rewrite zip_with_nil_r. run comparison_script_leaf.
Qed.


Ltac kw_skeleton_leaf :=
  unfold follows_skeleton, kw_script, kw_round;
  cbn [heap files figures axes_made backend trace];
  eexists; split; [reflexivity|];
  unfold calls_of; simpl; recall_files;
  rewrite ?length_app; simpl; rewrite ?Nat.add_1_r;
  split; [solve_prefix|try discriminate; intros _; reflexivity].

Lemma plot_choices_kw_skeleton w example models :
  (example = "1994" /\ models = models_1994) \/
  (example = "1997" /\ models = models_1997) ->
  wp (plot_choices_kw example) w (follows_skeleton w (kw_script w models)).
Proof.
  intros Hex.
  unfold plot_choices_kw, models_1994, models_1997 in *.
  unfold_wrappers.
  destruct Hex as [[-> ->]|[-> ->]].
  - simpl. apply wp_run. run kw_skeleton_leaf.
  - simpl. apply wp_run. run kw_skeleton_leaf.
Qed.

(** ** Outcomes of the two functions that read files *)

Arguments on_disk : simpl never.
Arguments comparison_outcome_post : simpl never.

Lemma on_disk_true w model d : files w !! pickle_path model = Some d -> on_disk w model = true.
Proof. unfold on_disk. by intros ->. Qed.

Lemma on_disk_false w model : files w !! pickle_path model = None -> on_disk w model = false.
Proof. unfold on_disk. by intros ->. Qed.

Lemma has_column_own d c : c ∈ columns d -> has_column d c = true.
Proof.
  unfold has_column. induction (columns d) as [|x l IH]; intros Hc.
  - by apply elem_of_nil in Hc.
  - simpl. destruct (String.eqb_spec x c) as [|Hne]; [done|].
    apply elem_of_cons in Hc as [Hc|Hc]; [by subst|].
    specialize (IH Hc). by destruct (column_index c l).
Qed.

Ltac recall_disk :=
  repeat match goal with
  | H : files ?w !! _ = Some ?d |- _ =>
      first [ rewrite (on_disk_true w "kw_97_obs" d H)
            | rewrite (on_disk_true w "kw_97_basic" d H)
            | rewrite (on_disk_true w "kw_97_extended" d H)
            | rewrite (on_disk_true w "kw_94_one" d H)
            | rewrite (on_disk_true w "kw_94_two" d H)
            | rewrite (on_disk_true w "kw_94_three" d H) ]
  | H : files ?w !! _ = None |- _ =>
      first [ rewrite (on_disk_false w "kw_97_obs" H)
            | rewrite (on_disk_false w "kw_97_basic" H)
            | rewrite (on_disk_false w "kw_97_extended" H)
            | rewrite (on_disk_false w "kw_94_one" H)
            | rewrite (on_disk_false w "kw_94_two" H)
            | rewrite (on_disk_false w "kw_94_three" H) ]
  end.

Ltac kw_outcome_leaf :=
  unfold outcome_post, kw_outcome;
  cbn [heap files figures axes_made backend trace];
  simpl first_missing; simpl loaded_before;
  recall_disk;
  split; [first [discriminate|reflexivity|intros _; reflexivity]|];
  let Hq := fresh "Hq" in intros Hq;
  first [not_raised Hq|split; [reflexivity|rewrite length_app; reflexivity]].

Lemma plot_choices_kw_outcome w example models :
  (example = "1994" /\ models = models_1994) \/
  (example = "1997" /\ models = models_1997) ->
  wp (plot_choices_kw example) w
     (outcome_post w (kw_outcome w models) (2 + 10 * loaded_before w models)).
Proof.
  intros Hex.
  unfold plot_choices_kw, models_1994, models_1997 in *.
  unfold_wrappers.
  destruct Hex as [[-> ->]|[-> ->]].
  - simpl. apply wp_run. run kw_outcome_leaf.
  - simpl. apply wp_run. run kw_outcome_leaf.
Qed.


(** A table has its own columns. *)
Ltac own_column :=
  match goal with
  | Hc : columns ?d = _, H : has_column ?d _ = false |- _ =>
      exfalso; rewrite has_column_own in H;
      [discriminate H|rewrite Hc; repeat first [apply list_elem_of_here|apply list_elem_of_further]]
  end.

Ltac comparison_outcome_leaf :=
  first
    [ own_column
    | unfold comparison_outcome_post, comparison_outcome;
      cbn [heap files figures axes_made backend trace];
      eexists; split; [reflexivity|];
      simpl first_missing; recall_disk; recall_files; recall_columns;
      simpl; rewrite ?zip_with_nil_r; simpl; use_tests; simpl;
      split; [first [discriminate|reflexivity|intros _; reflexivity]|];
      split;
        [let Hq := fresh "Hq" in intros Hq; first [not_raised Hq|reflexivity]|];
      first [reflexivity|intros _; reflexivity|intros Hm; by destruct Hm] ].

Lemma plot_kw_97_comparison_outcome w :
  wp plot_kw_97_comparison w (comparison_outcome_post w).
Proof.
  unfold plot_kw_97_comparison, models_97_comparison, comparison_colors.
  unfold_wrappers. simpl. apply wp_run.
  run comparison_outcome_leaf.
  match goal with
  | |- context [zip (columns ?d) _] =>
      destruct (columns d) as [|c1 [|c2 [|c3 [|c4 [|c5 rest]]]]] eqn:Hcols
  end.
  all: run comparison_outcome_leaf.
  rewrite zip_with_nil_r. run comparison_outcome_leaf.
Qed.

(** ** Runs on a dataframe that lacks a column *)

Arguments without_column_post : simpl never.

Ltac clash Hc :=
  match goal with
  | H : has_column _ _ = true |- _ => rewrite H in Hc; discriminate Hc
  end.

Ltac without_column_leaf :=
  unfold without_column_post;
  cbn [heap files figures axes_made backend trace];
  eexists; split; [reflexivity|];
  let Hc := fresh "Hc" in
  intros Hc;
  first
    [ clash Hc
    | split; [discriminate|];
      unfold nothing_drawn, one_chart_at_most, calls_of; simpl;
      repeat split; first [reflexivity|solve_prefix] ].

Lemma plot_choice_shares_without_choice w df friday :
  wp (plot_choice_shares df friday) w
     (without_column_post w (deref (heap w) df) "Choice" nothing_drawn).
Proof.
  apply wp_run. unfold plot_choice_shares. unfold_wrappers.
  destruct friday; run without_column_leaf.
Qed.

Lemma plot_choice_prob_without_choice w df :
  wp (plot_choice_prob df) w
     (without_column_post w (deref (heap w) df) "Choice" nothing_drawn).
Proof.
  apply wp_run. unfold plot_choice_prob. unfold_wrappers. run without_column_leaf.
Qed.

Lemma plot_choice_prob_and_exp_level_without_choice w df :
  wp (plot_choice_prob_and_exp_level df) w
     (without_column_post w (deref (heap w) df) "Choice" nothing_drawn).
Proof.
  apply wp_run. unfold plot_choice_prob_and_exp_level. unfold_wrappers.
  run without_column_leaf.
Qed.

Lemma plot_choice_prob_and_exp_level_without_experience w df :
  wp (plot_choice_prob_and_exp_level df) w
     (without_column_post w (deref (heap w) df) "Experience_Fishing"
        (one_chart_at_most (shares (deref (heap w) df) "Period" "Choice")
                           (axes_made w))).
Proof.
  apply wp_run. unfold plot_choice_prob_and_exp_level. unfold_wrappers.
  run without_column_leaf.
Qed.

Lemma plot_fishing_grounds_without_choice w df :
  wp (plot_fishing_grounds df) w
     (without_column_post w (deref (heap w) df) "Choice" nothing_drawn).
Proof.
  apply wp_run. unfold plot_fishing_grounds. unfold_wrappers. simpl for_each.
  run without_column_leaf.
Qed.


(** ** Reading the new postconditions on the entries a run issued *)

Lemma outcome_post_inv (m : M unit) w expected n :
  wp m w (outcome_post w expected n) ->
  ((m w).1 = Ok tt -> expected = Ok tt) /\
  (never_fails (backend w) -> (m w).1 = expected /\ length (issued m w) = n).
Proof.
  unfold wp, outcome_post, issued. intros [Hok Hq]. split; [done|].
  intros Hn. destruct (Hq Hn) as [Hr Hl]. split; [done|].
  rewrite length_drop, Hl. lia.
Qed.

Lemma prefix_length_take {A} (l s : list A) n :
  l `prefix_of` s -> length l = n -> l = take n s.
Proof. intros [k ->] <-. by rewrite take_app_length. Qed.

(** On a backend that does not fail, the calls of a run are the first
    [n] calls of its script. *)
Lemma calls_on_reliable_backend (m : M unit) w script expected n :
  wp m w (follows_script w script) ->
  wp m w (outcome_post w expected n) ->
  never_fails (backend w) ->
  (m w).1 = expected /\ calls_of (issued m w) = take n script.
Proof.
  intros Hs Ho Hq.
  destruct (follows_script_inv _ _ _ Hs) as (_ & _ & Hp & _).
  destruct (outcome_post_inv _ _ _ _ Ho) as [_ Hn].
  destruct (Hn Hq) as [Hr Hl]. split; [done|].
  apply prefix_length_take; [done|]. unfold calls_of. by rewrite length_map.
Qed.

(** ** Missing columns *)

Lemma grouped_outcome_ok d key col :
  grouped_outcome d key col = Ok tt ->
  groupable d key = true /\ has_column d col = true.
Proof.
  unfold grouped_outcome.
  destruct (groupable d key); [|discriminate].
  destruct (has_column d col); [done|discriminate].
Qed.

Lemma without_column_post_inv (m : M unit) w d col P :
  wp m w (without_column_post w d col P) ->
  has_column d col = false ->
  (m w).1 <> Ok tt /\ P (calls_of (issued m w)).
Proof.
  unfold wp, without_column_post. intros (evs & Ht & H) Hc.
  rewrite (issued_app _ _ _ Ht). by apply H.
Qed.

(** X1: [plot_choice_shares] and [plot_choice_prob] return only for a
    dataframe in which Period names a column or else an index level, and
    which has a column Choice.  On a dataframe without a column Choice they
    raise before they ask for a bar chart or a legend, whatever the
    libraries do.  When the libraries do not fail on their own, a Period
    that names neither a column nor an index level makes them raise
    KeyError('Period'), one that names both the value error of an ambiguous
    key, and a missing column Choice AttributeError('Choice'); the figure
    has been made by then and [plt.close] is not reached. *)
Theorem choice_shares_missing_columns (w : World) (df : loc) (friday : bool) :
  let d := deref (heap w) df in
  let both (P : M unit -> Prop) :=
    P (plot_choice_shares df friday) /\ P (plot_choice_prob df) in
  both (fun m => (m w).1 = Ok tt ->
                 groupable d "Period" = true /\ has_column d "Choice" = true) /\
  (has_column d "Choice" = false ->
   both (fun m => (m w).1 <> Ok tt /\
                  bars_drawn (calls_of (issued m w)) = [] /\
                  legend_kwargs (calls_of (issued m w)) = [])) /\
  (never_fails (backend w) ->
   (has_column d "Period" = false -> has_level d "Period" = false ->
    both (fun m => (m w).1 = Raise (KeyError "Period") /\
                   calls_of (issued m w) =
                     [Subplots 1 1 []; GroupByCall df "Period"])) /\
   (has_column d "Period" = true -> has_level d "Period" = true ->
    both (fun m => (m w).1 = Raise (ValueError "Period") /\
                   calls_of (issued m w) =
                     [Subplots 1 1 []; GroupByCall df "Period"])) /\
   (groupable d "Period" = true -> has_column d "Choice" = false ->
    both (fun m => (m w).1 = Raise (AttributeError "Choice") /\
                   calls_of (issued m w) =
                     [Subplots 1 1 []; GroupByCall df "Period"; GetAttr "Choice"])) /\
   (groupable d "Period" = true -> has_column d "Choice" = true ->
    both (fun m => (m w).1 = Ok tt))).
Proof.
  intros d both. subst both. cbv beta.
  pose proof (plot_choice_shares_run w df friday) as Hs1.
  pose proof (plot_choice_shares_outcome w df friday) as Ho1.
  pose proof (plot_choice_prob_run w df) as Hs2.
  pose proof (plot_choice_prob_outcome w df) as Ho2.
  pose proof (plot_choice_shares_without_choice w df friday) as Hw1.
  pose proof (plot_choice_prob_without_choice w df) as Hw2.
  split; [|split].
  - split; intros Hok; apply grouped_outcome_ok.
    + by apply (proj1 (outcome_post_inv _ _ _ _ Ho1)).
    + by apply (proj1 (outcome_post_inv _ _ _ _ Ho2)).
  - intros Hc.
    destruct (without_column_post_inv _ _ _ _ _ Hw1 Hc) as (N1 & B1 & _ & _ & L1).
    destruct (without_column_post_inv _ _ _ _ _ Hw2 Hc) as (N2 & B2 & _ & _ & L2).
    done.
  - intros Hq.
    destruct (calls_on_reliable_backend _ _ _ _ _ Hs1 Ho1 Hq) as [Hr1 Hc1].
    destruct (calls_on_reliable_backend _ _ _ _ _ Hs2 Ho2 Hq) as [Hr2 Hc2].
    fold d in Hr1, Hr2, Hc1, Hc2.
    unfold choice_shares_calls, choice_shares_outcome, grouped_outcome,
      grouped_calls in Hr1, Hr2, Hc1, Hc2.
    split; [|split; [|split]].
    + intros HP HL. unfold groupable, groupby_error in Hr1, Hr2, Hc1, Hc2.
      rewrite HP, HL in Hr1, Hr2, Hc1, Hc2. by rewrite Hr1, Hr2, Hc1, Hc2.
    + intros HP HL. unfold groupable, groupby_error in Hr1, Hr2, Hc1, Hc2.
      rewrite HP, HL in Hr1, Hr2, Hc1, Hc2. by rewrite Hr1, Hr2, Hc1, Hc2.
    + intros HP HC. rewrite HP, HC in Hr1, Hr2, Hc1, Hc2.
      by rewrite Hr1, Hr2, Hc1, Hc2.
    + intros HP HC. rewrite HP, HC in Hr1, Hr2. by rewrite Hr1, Hr2.
Qed.

Lemma choice_shares_missing_columns_witness :
  let unnamed := with_frame island 0%nat simulated in
  let no_choice :=
    with_frame island 0%nat
      (mkIndexed ["Identifier"; "Period"] ["Outcome"]
                 [[VInt 0; VInt 0; VStr "fishing"]; [VInt 0; VInt 1; VStr "hammock"]]) in
  (plot_choice_shares 0%nat true unnamed).1 = Raise (KeyError "Period") /\
  calls_of (issued (plot_choice_prob 0%nat) unnamed) =
    [Subplots 1 1 []; GroupByCall 0%nat "Period"] /\
  (plot_choice_shares 0%nat true no_choice).1 = Raise (AttributeError "Choice") /\
  bars_drawn (calls_of (issued (plot_choice_prob 0%nat) no_choice)) = [] /\
  (plot_choice_prob 0%nat (with_frame island 0%nat logbook)).1 = Ok tt.
Proof.
  intros unnamed no_choice.
  destruct (choice_shares_missing_columns unnamed 0%nat true) as (_ & _ & H1).
  destruct H1 as (H1 & _); [intros t c; reflexivity|].
  destruct H1 as [[Hr _] [_ Hc]]; [reflexivity|reflexivity|].
  destruct (choice_shares_missing_columns no_choice 0%nat true) as (_ & H2 & H3).
  destruct H2 as [_ (_ & Hb & _)]; [reflexivity|].
  destruct H3 as (_ & _ & H3 & _); [intros t c; reflexivity|].
  destruct H3 as [[Ha _] _]; [reflexivity|reflexivity|].
  destruct (choice_shares_missing_columns (with_frame island 0%nat logbook) 0%nat true)
    as (_ & _ & H4).
  destruct H4 as (_ & _ & _ & H4); [intros t c; reflexivity|].
  destruct H4 as [_ Hok]; [reflexivity|reflexivity|].
  done.
Defined.

(** X2: [plot_choice_prob_and_exp_level] returns only for a dataframe in
    which Period names a column or else an index level, and which has the
    columns Choice and Experience_Fishing.  Whatever the libraries do, without
    a column Choice it raises before it asks for a chart or a legend, and
    without a column Experience_Fishing it raises having asked for no other
    chart than that of the choices, on the first axes, and for no legend.
    When the libraries do not fail on their own, a dataframe that lacks only
    Experience_Fishing makes it raise the attribute error of that column
    after the chart of the choices has been drawn: the second axes stays
    empty. *)
Theorem choice_prob_and_exp_level_missing_columns (w : World) (df : loc) :
  let d := deref (heap w) df in
  let cs := calls_of (issued (plot_choice_prob_and_exp_level df) w) in
  ((plot_choice_prob_and_exp_level df w).1 = Ok tt ->
   groupable d "Period" = true /\ has_column d "Choice" = true /\
   has_column d "Experience_Fishing" = true) /\
  (has_column d "Choice" = false ->
   (plot_choice_prob_and_exp_level df w).1 <> Ok tt /\
   bars_drawn cs = [] /\ axes_legends cs = []) /\
  (has_column d "Experience_Fishing" = false ->
   (plot_choice_prob_and_exp_level df w).1 <> Ok tt /\
   bars_drawn cs `prefix_of` [(shares d "Period" "Choice", axes_made w)] /\
   axes_legends cs = []) /\
  (never_fails (backend w) ->
   (plot_choice_prob_and_exp_level df w).1 = choice_prob_exp_outcome d /\
   (groupable d "Period" = true -> has_column d "Choice" = true ->
    has_column d "Experience_Fishing" = false ->
    (plot_choice_prob_and_exp_level df w).1 =
      Raise (AttributeError "Experience_Fishing") /\
    bars_drawn cs = [(shares d "Period" "Choice", axes_made w)] /\
    axes_legends cs = [])).
Proof.
  intros d cs.
  pose proof (plot_choice_prob_and_exp_level_run w df) as Hs.
  pose proof (plot_choice_prob_and_exp_level_outcome w df) as Ho.
  pose proof (plot_choice_prob_and_exp_level_without_choice w df) as H1.
  pose proof (plot_choice_prob_and_exp_level_without_experience w df) as H2.
  split; [|split; [|split]].
  - intros Hok. apply (proj1 (outcome_post_inv _ _ _ _ Ho)) in Hok.
    fold d in Hok. unfold choice_prob_exp_outcome in Hok.
    destruct (grouped_outcome d "Period" "Choice") as [[]|] eqn:E; [|discriminate].
    apply grouped_outcome_ok in E, Hok. tauto.
  - intros Hc.
    by destruct (without_column_post_inv _ _ _ _ _ H1 Hc) as (N & B & _ & L & _).
  - intros Hc.
    by destruct (without_column_post_inv _ _ _ _ _ H2 Hc) as (N & B & L).
  - intros Hq.
    destruct (calls_on_reliable_backend _ _ _ _ _ Hs Ho Hq) as [Hr Hc].
    fold d cs in Hr, Hc. split; [exact Hr|].
    intros HP HC HE.
    unfold choice_prob_exp_calls, choice_prob_exp_outcome, grouped_outcome,
      grouped_calls in Hr, Hc.
    rewrite HP, HC, HE in Hr, Hc. split; [exact Hr|]. by rewrite Hc.
Qed.

Lemma choice_prob_and_exp_level_missing_columns_witness :
  let w := with_frame island 0%nat logbook in
  (plot_choice_prob_and_exp_level 0%nat w).1 =
    Raise (AttributeError "Experience_Fishing") /\
  bars_drawn (calls_of (issued (plot_choice_prob_and_exp_level 0%nat) w)) =
    [(shares logbook "Period" "Choice", 0%nat)] /\
  has_column robinson "Experience_Fishing" = true.
Proof.
  intros w.
  destruct (choice_prob_and_exp_level_missing_columns w 0%nat) as (_ & _ & _ & H).
  destruct H as (_ & H); [intros t c; reflexivity|].
  destruct H as (Hr & Hb & _); [reflexivity|reflexivity|reflexivity|].
  destruct (choice_prob_and_exp_level_missing_columns island 0%nat) as (Hok & _).
  destruct Hok as (_ & _ & He); [vm_compute; reflexivity|].
  split; [exact Hr|]. split; [exact Hb|exact He].
Defined.

(** X3: [plot_fishing_grounds] returns only for a dataframe in which
    Fishing_Grounds names a column or an index level, Period a column or
    else an index level, and which has a column Choice.  Without a column
    Choice it raises before it asks for a chart, a title or a legend,
    whatever the libraries do.  When the libraries do not fail on their own
    it raises the error of [query] when Fishing_Grounds names nothing, and
    else the error of the aggregation; since the filtered tables have the
    index and the columns of the input, this happens in the first panel: a run
    that raises has drawn no chart. *)
Theorem fishing_grounds_missing_columns (w : World) (df : loc) :
  let d := deref (heap w) df in
  let cs := calls_of (issued (plot_fishing_grounds df) w) in
  ((plot_fishing_grounds df w).1 = Ok tt ->
   resolves d "Fishing_Grounds" = true /\ groupable d "Period" = true /\
   has_column d "Choice" = true) /\
  (has_column d "Choice" = false ->
   (plot_fishing_grounds df w).1 <> Ok tt /\
   bars_drawn cs = [] /\ titles_set cs = [] /\ legend_kwargs cs = []) /\
  (never_fails (backend w) ->
   (plot_fishing_grounds df w).1 =
     (if resolves d "Fishing_Grounds" then grouped_outcome d "Period" "Choice"
      else Raise (UndefinedVariableError "Fishing_Grounds")) /\
   ((plot_fishing_grounds df w).1 <> Ok tt -> bars_drawn cs = [] /\ titles_set cs = [])).
Proof.
  intros d cs.
  pose proof (plot_fishing_grounds_run w df) as Hs.
  pose proof (plot_fishing_grounds_outcome w df) as Ho.
  pose proof (plot_fishing_grounds_without_choice w df) as Hw.
  split; [|split].
  - intros Hok. apply (proj1 (outcome_post_inv _ _ _ _ Ho)) in Hok.
    fold d in Hok. unfold fishing_grounds_outcome in Hok.
    destruct (resolves d "Fishing_Grounds"); [|discriminate].
    apply grouped_outcome_ok in Hok. tauto.
  - intros Hc.
    by destruct (without_column_post_inv _ _ _ _ _ Hw Hc) as (N & B & T & _ & L).
  - intros Hq.
    destruct (calls_on_reliable_backend _ _ _ _ _ Hs Ho Hq) as [Hr Hc].
    fold d cs in Hr, Hc. split; [exact Hr|].
    rewrite Hr, Hc.
    unfold fishing_grounds_calls, fishing_grounds_outcome, grouped_outcome, grouped_calls.
    destruct (resolves d "Fishing_Grounds"); [|done].
    destruct (groupable d "Period"); [|done].
    destruct (has_column d "Choice"); [|done].
    intros Hne. by destruct Hne.
Qed.

Lemma fishing_grounds_missing_columns_witness :
  (plot_fishing_grounds 0%nat (with_frame island 0%nat simulated)).1 =
    Raise (UndefinedVariableError "Fishing_Grounds") /\
  bars_drawn (calls_of (issued (plot_fishing_grounds 0%nat)
                          (with_frame island 0%nat simulated))) = [] /\
  resolves robinson "Fishing_Grounds" = true.
Proof.
  destruct (fishing_grounds_missing_columns (with_frame island 0%nat simulated) 0%nat)
    as (_ & _ & H).
  destruct H as (Hr & Hb); [intros t c; reflexivity|].
  destruct (fishing_grounds_missing_columns island 0%nat) as (Hok & _).
  destruct Hok as (Hf & _); [vm_compute; reflexivity|].
  split; [exact Hr|]. split; [|exact Hf]. apply Hb. rewrite Hr. discriminate.
Defined.

(** ** Showing and closing the figure *)

Lemma not_elem_of_forallb (p : call -> bool) (c : call) (cs : list call) :
  p c = true -> forallb (fun c' => negb (p c')) cs = true -> c ∉ cs.
Proof.
  intros Hp H Hc. rewrite forallb_forall in H.
  apply list_elem_of_In in Hc. apply H in Hc. by rewrite Hp in Hc.
Qed.

Lemma not_elem_of_prefix {A} (l1 l2 : list A) x :
  l1 `prefix_of` l2 -> x ∉ l2 -> x ∉ l1.
Proof. intros Hp Hx Hl. apply Hx. by eapply elem_of_prefix. Qed.

Lemma not_elem_of_flat_map {A B} (f : A -> list B) (l : list A) y :
  (forall x, y ∉ f x) -> y ∉ flat_map f l.
Proof.
  intros Hf Hy. apply list_elem_of_In, in_flat_map in Hy as (x & _ & Hy).
  apply list_elem_of_In in Hy. by apply (Hf x).
Qed.

Lemma skeleton_close c : skeleton c = Close -> c = Close.
Proof. by destruct c. Qed.

Lemma skeleton_show c : skeleton c = Show -> c = Show.
Proof. by destruct c. Qed.

Lemma faithful_returned_before (r : result unit) evs e :
  r = Raise e -> faithful r evs ->
  exists before c, evs = before ++ [(c, Raised e)] /\ Forall returned before.
Proof. by intros ->. Qed.

(** A call that returned in a run that raises is not the last of the
    script. *)
Lemma returned_not_last (m : M unit) w body c e :
  wp m w (follows_script w (body ++ [c])) ->
  c ∉ body ->
  (m w).1 = Raise e ->
  (c, Returned) ∉ issued m w.
Proof.
  intros Hs Hc Hr Hin.
  destruct (follows_script_inv _ _ _ Hs) as (_ & Hf & Hp & _).
  destruct (faithful_returned_before _ _ _ Hr Hf) as (before & c' & Hev & _).
  rewrite Hev in Hin, Hp. unfold calls_of in Hp. rewrite map_app in Hp. simpl in Hp.
  apply elem_of_app in Hin as [Hin|Hin].
  - destruct Hp as [k Hk].
    assert (Hlen : (length (map fst before) <= length body)%nat).
    { apply (f_equal length) in Hk. rewrite !length_app in Hk. simpl in Hk. lia. }
    apply (list_elem_of_fmap_2 fst) in Hin. simpl in Hin.
    apply Hc.
    assert (Hb : map fst before `prefix_of` body).
    { rewrite <- List.app_assoc in Hk.
      apply (f_equal (take (length (map fst before)))) in Hk.
      rewrite take_app_length in Hk. rewrite take_app_le in Hk by lia.
      exists (drop (length (map fst before)) body).
      rewrite <- Hk at 1. by rewrite take_drop. }
    by eapply elem_of_prefix.
  - apply list_elem_of_singleton in Hin. discriminate Hin.
Qed.

Lemma follows_skeleton_inv (m : M unit) w script :
  wp m w (follows_skeleton w script) ->
  map skeleton (calls_of (issued m w)) `prefix_of` script /\
  ((m w).1 = Ok tt -> map skeleton (calls_of (issued m w)) = script).
Proof.
  unfold wp, follows_skeleton. intros (evs & Ht & Hp & Hs).
  by rewrite (issued_app _ _ _ Ht).
Qed.

(** X4: [plot_choice_shares] and [plot_choice_prob] close their figure only when
    everything went well: a run that returns ends with [plt.show] and then
    [plt.close], each called once; in a run that raises, [plt.close] has not
    been carried out, so the figure made at the start stays open. *)
Theorem figure_closed_on_success_only (w : World) (df : loc) (friday : bool) :
  ((plot_choice_shares df friday w).1 = Ok tt ->
   exists body,
     calls_of (issued (plot_choice_shares df friday) w) = body ++ [Show; Close] /\
     (Show ∉ body) /\ (Close ∉ body)) /\
  ((plot_choice_prob df w).1 = Ok tt ->
   exists body,
     calls_of (issued (plot_choice_prob df) w) = body ++ [Show; Close] /\
     (Show ∉ body) /\ (Close ∉ body)) /\
  (forall e, (plot_choice_shares df friday w).1 = Raise e ->
             (Close, Returned) ∉ issued (plot_choice_shares df friday) w) /\
  (forall e, (plot_choice_prob df w).1 = Raise e ->
             (Close, Returned) ∉ issued (plot_choice_prob df) w).
Proof.
  pose proof (plot_choice_shares_run w df friday) as Hs1.
  pose proof (plot_choice_prob_run w df) as Hs2.
  destruct (follows_script_inv _ _ _ Hs1) as (_ & _ & _ & Hok1).
  destruct (follows_script_inv _ _ _ Hs2) as (_ & _ & _ & Hok2).
  split; [|split; [|split]].
  - intros Hok. rewrite (Hok1 Hok). eexists (take 8 (choice_shares_script _ _ _ _ _)).
    split; [reflexivity|]. split.
    + by apply (not_elem_of_forallb is_show).
    + by apply (not_elem_of_forallb is_close).
  - intros Hok. rewrite (Hok2 Hok). eexists (take 8 (choice_prob_script _ _ _)).
    split; [reflexivity|]. split.
    + by apply (not_elem_of_forallb is_show).
    + by apply (not_elem_of_forallb is_close).
  - intros e Hr.
    apply (returned_not_last _ _ (take 9 (choice_shares_script df
             (shares (deref (heap w) df) "Period" "Choice") (axes_made w)
             (if friday then ["C0"; "C2"; "C1"] else ["C0"; "C1"])
             (if friday then 3 else 2))) Close e); [exact Hs1| |exact Hr].
    by apply (not_elem_of_forallb is_close).
  - intros e Hr.
    apply (returned_not_last _ _ (take 9 (choice_prob_script df
             (shares (deref (heap w) df) "Period" "Choice") (axes_made w)))
             Close e); [exact Hs2| |exact Hr].
    by apply (not_elem_of_forallb is_close).
Qed.

Lemma figure_closed_on_success_only_witness :
  (exists body,
     calls_of (issued (plot_choice_shares 0%nat false) island) = body ++ [Show; Close] /\
     (Close ∉ body)) /\
  (Close, Returned) ∉ issued (plot_choice_prob 0%nat) (with_frame island 0%nat simulated).
Proof.
  destruct (figure_closed_on_success_only island 0%nat false) as (H1 & _).
  destruct (figure_closed_on_success_only (with_frame island 0%nat simulated) 0%nat false)
    as (_ & _ & _ & H4).
  split.
  - destruct H1 as (body & Hb & _ & Hc); [vm_compute; reflexivity|].
    exists body. by split.
  - apply (H4 (KeyError "Period")). vm_compute. reflexivity.
Defined.

Lemma close_not_in_comparison_script w : Close ∉ comparison_script w.
Proof.
  unfold comparison_script. intros H.
  apply elem_of_app in H as [H|H].
  { revert H. by apply (not_elem_of_forallb is_close). }
  apply elem_of_app in H as [H|H].
  - revert H. apply not_elem_of_flat_map. intros [i [choice color]].
    by apply (not_elem_of_forallb is_close).
  - revert H. by apply (not_elem_of_forallb is_close).
Qed.

Lemma last_comparison_script w : last (comparison_script w) = Some Show.
Proof. unfold comparison_script. by rewrite !last_app. Qed.

Lemma close_skeleton (cs : list call) : Close ∉ map skeleton cs -> Close ∉ cs.
Proof. intros H Hc. apply H. by apply (list_elem_of_fmap_2 skeleton) in Hc. Qed.

Lemma last_skeleton_show (cs : list call) :
  last (map skeleton cs) = Some Show -> last cs = Some Show.
Proof.
  change (map skeleton cs) with (skeleton <$> cs). rewrite fmap_last.
  destruct (last cs) as [c|]; [|discriminate]. simpl.
  intros H. injection H as H. by rewrite (skeleton_show c H).
Qed.

(** X5: [plot_fishing_grounds], [plot_choice_prob_and_exp_level],
    [plot_choices_kw] and [plot_kw_97_comparison] never call [plt.close],
    whether they return or raise, so the figure they make is left open; when
    they return, the call of [plt.show] was their last. *)
Theorem figure_left_open (w : World) (df : loc) (example : string) :
  let leaves_open (m : M unit) :=
    (Close ∉ calls_of (issued m w)) /\
    ((m w).1 = Ok tt -> last (calls_of (issued m w)) = Some Show) in
  leaves_open (plot_fishing_grounds df) /\
  leaves_open (plot_choice_prob_and_exp_level df) /\
  leaves_open (plot_choices_kw example) /\
  leaves_open plot_kw_97_comparison.
Proof.
  intros leaves_open. subst leaves_open. cbv beta.
  split; [|split; [|split]].
  - destruct (follows_script_inv _ _ _ (plot_fishing_grounds_run w df))
      as (_ & _ & Hp & Hok).
    split.
    + apply (not_elem_of_prefix _ _ _ Hp). by apply (not_elem_of_forallb is_close).
    + intros H. by rewrite (Hok H).
  - destruct (follows_script_inv _ _ _ (plot_choice_prob_and_exp_level_run w df))
      as (_ & _ & Hp & Hok).
    split.
    + apply (not_elem_of_prefix _ _ _ Hp). by apply (not_elem_of_forallb is_close).
    + intros H. by rewrite (Hok H).
  - destruct (String.eqb_spec example "1994") as [->|H94];
      [|destruct (String.eqb_spec example "1997") as [->|H97]].
    + destruct (follows_skeleton_inv _ _ _
                  (plot_choices_kw_skeleton w "1994" models_1994
                     (or_introl (conj eq_refl eq_refl)))) as (Hp & Hok).
      split.
      * apply close_skeleton, (not_elem_of_prefix _ _ _ Hp).
        by apply (not_elem_of_forallb is_close).
      * intros H. apply last_skeleton_show. by rewrite (Hok H).
    + destruct (follows_skeleton_inv _ _ _
                  (plot_choices_kw_skeleton w "1997" models_1997
                     (or_intror (conj eq_refl eq_refl)))) as (Hp & Hok).
      split.
      * apply close_skeleton, (not_elem_of_prefix _ _ _ Hp).
        by apply (not_elem_of_forallb is_close).
      * intros H. apply last_skeleton_show. by rewrite (Hok H).
    + unfold issued. rewrite (plot_choices_kw_unbound w example H94 H97). simpl.
      rewrite drop_all. split; [apply not_elem_of_nil|discriminate].
  - destruct (follows_script_inv _ _ _ (plot_kw_97_comparison_script w))
      as (_ & _ & Hp & Hok).
    split.
    + apply (not_elem_of_prefix _ _ _ Hp), close_not_in_comparison_script.
    + intros H. rewrite (Hok H). apply last_comparison_script.
Qed.

Lemma figure_left_open_witness :
  last (calls_of (issued (plot_choices_kw "1997") island)) = Some Show /\
  (Close ∉ calls_of (issued plot_kw_97_comparison island)).
Proof.
  destruct (figure_left_open island 0%nat "1997") as (_ & _ & [_ Hkw] & [Hc _]).
  split; [apply Hkw; vm_compute; reflexivity|exact Hc].
Defined.

(** ** Empty tables *)

Lemma shares_no_rows d key col : rows d = [] -> shares d key col = [].
Proof.
  destruct d as [cols rs]. simpl. intros ->. reflexivity.
Qed.

Lemma query_eq_no_rows d col v :
  (forall r, r ∈ rows d -> cell d col r <> v) -> rows (query_eq d col v) = [].
Proof.
  intros H. unfold query_eq. simpl.
  induction (rows d) as [|r rs IH]; [done|].
  rewrite filter_cons. destruct (decide (cell d col r = v)) as [Hv|_].
  - exfalso. apply (H r); [left|done].
  - apply IH. intros r' Hr'. apply H. by right.
Qed.

(** In a run that follows [script], a call that returned, at its first
    place [i] in the script, is followed by the next call of the script. *)
Lemma next_call_issued (m : M unit) w script i c c' :
  wp m w (follows_script w script) ->
  script !! i = Some c ->
  script !! S i = Some c' ->
  (forall j, (j < i)%nat -> script !! j <> Some c) ->
  (c, Returned) ∈ issued m w ->
  c' ∈ calls_of (issued m w).
Proof.
  intros Hs Hi HSi Hfirst Hin.
  destruct (follows_script_inv _ _ _ Hs) as (_ & Hf & Hp & Hok).
  apply list_elem_of_lookup in Hin as [j Hj].
  assert (Hcj : calls_of (issued m w) !! j = Some c).
  { unfold calls_of. change (map fst ?l) with (fst <$> l).
    by rewrite list_lookup_fmap, Hj. }
  assert (Hij : (i <= j)%nat).
  { destruct (decide (i <= j)%nat) as [|Hn]; [done|]. exfalso.
    apply (Hfirst j); [lia|]. by eapply in_prefix_lookup. }
  assert (Hlen' : (S i < length (calls_of (issued m w)))%nat).
  { destruct (m w).1 as [[]|e] eqn:E.
    - rewrite (Hok eq_refl). by apply lookup_lt_Some in HSi.
    - destruct Hf as (before & c'' & Hev & Hb).
      unfold calls_of. rewrite length_map. rewrite Hev in Hj |- *.
      rewrite length_app. simpl.
      destruct (decide (j < length before)%nat) as [|Hn]; [lia|]. exfalso.
      rewrite lookup_app_r in Hj by lia.
      destruct (j - length before)%nat; [discriminate Hj|done]. }
  apply lookup_lt_is_Some_2 in Hlen' as [x Hx].
  pose proof (in_prefix_lookup _ _ _ _ Hp Hx) as Hx'.
  rewrite HSi in Hx'. injection Hx' as <-.
  by eapply list_elem_of_lookup_2.
Qed.

Lemma first_bar (cs script : list call) t ax kw b :
  cs `prefix_of` script ->
  PlotBar t ax kw ∈ cs ->
  bars_drawn script !! 0%nat = Some b ->
  bars_drawn cs !! 0%nat = Some b.
Proof.
  intros Hp Hin Hb.
  assert (Hne : (t, ax) ∈ bars_drawn cs).
  { unfold bars_drawn. apply list_elem_of_omap. by exists (PlotBar t ax kw). }
  apply (omap_prefix (fun c => match c with
                               | PlotBar t ax _ => Some (t, ax)
                               | _ => None
                               end)) in Hp.
  destruct Hp as [k Hk]. fold (bars_drawn cs) in Hk. fold (bars_drawn script) in Hk.
  rewrite Hk in Hb. destruct (bars_drawn cs) as [|x l]; [by apply elem_of_nil in Hne|].
  exact Hb.
Qed.

(** X6: the functions do not guard against an empty table.  For a dataframe
    without rows, in each of the four functions, once the aggregation has
    returned (its last call is [unstack]) the bar chart is asked for, with
    an empty table, whatever the libraries do.  In [plot_fishing_grounds] the
    same holds for the first panel when no row lies on rich grounds, and when
    no row lies on poor grounds a run that returns has asked for the second
    chart with an empty table. *)
Theorem empty_table_is_plotted (w : World) (df : loc) (friday : bool) :
  let d := deref (heap w) df in
  let reached (m : M unit) :=
    (Unstack, Returned) ∈ issued m w ->
    bars_drawn (calls_of (issued m w)) !! 0%nat = Some ([], axes_made w) in
  (rows d = [] ->
   reached (plot_choice_shares df friday) /\
   reached (plot_choice_prob df) /\
   reached (plot_choice_prob_and_exp_level df) /\
   reached (plot_fishing_grounds df)) /\
  ((forall r, r ∈ rows d -> cell d "Fishing_Grounds" r <> VStr "rich") ->
   reached (plot_fishing_grounds df)) /\
  ((forall r, r ∈ rows d -> cell d "Fishing_Grounds" r <> VStr "poor") ->
   (plot_fishing_grounds df w).1 = Ok tt ->
   bars_drawn (calls_of (issued (plot_fishing_grounds df) w)) !! 1%nat =
     Some ([], S (axes_made w))).
Proof.
  intros d reached. subst reached. cbv beta.
  pose proof (plot_choice_shares_run w df friday) as H1.
  pose proof (plot_choice_prob_run w df) as H2.
  pose proof (plot_choice_prob_and_exp_level_run w df) as H3.
  pose proof (plot_fishing_grounds_run w df) as H4.
  fold d in H1, H2, H3, H4.
  assert (Hrich : (forall r, r ∈ rows d -> cell d "Fishing_Grounds" r <> VStr "rich") ->
                  (Unstack, Returned) ∈ issued (plot_fishing_grounds df) w ->
                  bars_drawn (calls_of (issued (plot_fishing_grounds df) w)) !! 0%nat =
                    Some ([], axes_made w)).
  { intros Hd Hu.
    destruct (follows_script_inv _ _ _ H4) as (_ & _ & Hp & _).
    eapply (first_bar _ _ _ _ _ _ Hp).
    - apply (next_call_issued _ _ _ 5%nat Unstack _ H4); [reflexivity|reflexivity| |exact Hu].
      intros j Hj. do 5 (destruct j as [|j]; [discriminate|]). lia.
    - simpl. by rewrite shares_no_rows by (by apply query_eq_no_rows). }
  split; [|split].
  - intros Hd. split; [|split; [|split]].
    + intros Hu. destruct (follows_script_inv _ _ _ H1) as (_ & _ & Hp & _).
      eapply (first_bar _ _ _ _ _ _ Hp).
      * apply (next_call_issued _ _ _ 4%nat Unstack _ H1);
          [reflexivity|reflexivity| |exact Hu].
        intros j Hj. do 4 (destruct j as [|j]; [discriminate|]). lia.
      * simpl. by rewrite shares_no_rows.
    + intros Hu. destruct (follows_script_inv _ _ _ H2) as (_ & _ & Hp & _).
      eapply (first_bar _ _ _ _ _ _ Hp).
      * apply (next_call_issued _ _ _ 4%nat Unstack _ H2);
          [reflexivity|reflexivity| |exact Hu].
        intros j Hj. do 4 (destruct j as [|j]; [discriminate|]). lia.
      * simpl. by rewrite shares_no_rows.
    + intros Hu. destruct (follows_script_inv _ _ _ H3) as (_ & _ & Hp & _).
      eapply (first_bar _ _ _ _ _ _ Hp).
      * apply (next_call_issued _ _ _ 4%nat Unstack _ H3);
          [reflexivity|reflexivity| |exact Hu].
        intros j Hj. do 4 (destruct j as [|j]; [discriminate|]). lia.
      * simpl. by rewrite shares_no_rows.
    + apply Hrich. intros r Hr. rewrite Hd in Hr. by apply elem_of_nil in Hr.
  - exact Hrich.
  - intros Hd Hok.
    destruct (follows_script_inv _ _ _ H4) as (_ & _ & _ & Hs).
    rewrite (Hs Hok). simpl.
    by rewrite (shares_no_rows (query_eq d "Fishing_Grounds" (VStr "poor")))
      by (by apply query_eq_no_rows).
Qed.

Lemma empty_table_is_plotted_witness :
  let w := with_frame island 0%nat (mkFrame ["Period"; "Choice"] []) in
  bars_drawn (calls_of (issued (plot_choice_prob 0%nat) w)) !! 0%nat = Some ([], 0%nat) /\
  (plot_choice_prob 0%nat w).1 = Ok tt.
Proof.
  intros w.
  destruct (empty_table_is_plotted w 0%nat false) as (H & _).
  destruct H as (_ & H & _); [reflexivity|].
  split; [|vm_compute; reflexivity].
  apply H. vm_compute. repeat first [apply list_elem_of_here|apply list_elem_of_further].
Defined.

(** ** [plot_choice_prob] and [plot_choice_shares] *)

(** X7: [plot_choice_prob] is [plot_choice_shares] with [friday] off and
    without the colors: when both return, the calls of the first are those
    of the second, except that the bar plot gets no [color] argument; and on
    a backend that does not fail the two end alike on every dataframe. *)
Theorem choice_prob_is_choice_shares_without_color (w : World) (df : loc) :
  ((plot_choice_shares df false w).1 = Ok tt ->
   (plot_choice_prob df w).1 = Ok tt ->
   calls_of (issued (plot_choice_prob df) w) =
     map without_color (calls_of (issued (plot_choice_shares df false) w))) /\
  (never_fails (backend w) ->
   (plot_choice_prob df w).1 = (plot_choice_shares df false w).1 /\
   calls_of (issued (plot_choice_prob df) w) =
     map without_color (calls_of (issued (plot_choice_shares df false) w))).
Proof.
  pose proof (plot_choice_shares_run w df false) as Hs1.
  pose proof (plot_choice_prob_run w df) as Hs2.
  split.
  - intros H1 H2.
    destruct (follows_script_inv _ _ _ Hs1) as (_ & _ & _ & Hok1).
    destruct (follows_script_inv _ _ _ Hs2) as (_ & _ & _ & Hok2).
    by rewrite (Hok1 H1), (Hok2 H2).
  - intros Hq.
    destruct (calls_on_reliable_backend _ _ _ _ _ Hs1
                (plot_choice_shares_outcome w df false) Hq) as [Hr1 Hc1].
    destruct (calls_on_reliable_backend _ _ _ _ _ Hs2
                (plot_choice_prob_outcome w df) Hq) as [Hr2 Hc2].
    split; [by rewrite Hr1, Hr2|].
    rewrite Hc1, Hc2.
    unfold choice_shares_calls, choice_shares_outcome, grouped_outcome, grouped_calls.
    destruct (groupable (deref (heap w) df) "Period"); [|done].
    by destruct (has_column (deref (heap w) df) "Choice").
Qed.

Lemma choice_prob_is_choice_shares_without_color_witness :
  calls_of (issued (plot_choice_prob 0%nat) island) =
    map without_color (calls_of (issued (plot_choice_shares 0%nat false) island)) /\
  (plot_choice_prob 0%nat island).1 = (plot_choice_shares 0%nat false island).1.
Proof.
  destruct (choice_prob_is_choice_shares_without_color island 0%nat) as [H1 H2].
  split.
  - apply H1; vm_compute; reflexivity.
  - apply H2. intros t c. reflexivity.
Defined.

(** ** Missing files *)

Lemma comparison_outcome_post_inv w :
  wp plot_kw_97_comparison w (comparison_outcome_post w) ->
  ((plot_kw_97_comparison w).1 = Ok tt -> comparison_outcome w = Ok tt) /\
  (never_fails (backend w) -> (plot_kw_97_comparison w).1 = comparison_outcome w) /\
  (first_missing w models_97_comparison <> None ->
   subplot_grids (calls_of (issued plot_kw_97_comparison w)) = []).
Proof.
  unfold wp, comparison_outcome_post. intros (evs & Ht & Hok & Hq & Hm).
  by rewrite (issued_app _ _ _ Ht).
Qed.

Lemma first_missing_None w models :
  first_missing w models = None ->
  forall m, m ∈ models -> files w !! pickle_path m <> None.
Proof.
  induction models as [|m' ms IH]; intros H m Hm.
  - by apply elem_of_nil in Hm.
  - simpl in H. unfold on_disk in H.
    destruct (files w !! pickle_path m') as [d|] eqn:E; [|discriminate].
    apply elem_of_cons in Hm as [->|Hm]; [by rewrite E|by apply IH].
Qed.

Lemma first_missing_Some w models m :
  first_missing w models = Some m ->
  m ∈ models /\ files w !! pickle_path m = None.
Proof.
  induction models as [|m' ms IH]; intros H; [discriminate|].
  simpl in H. unfold on_disk in H.
  destruct (files w !! pickle_path m') as [d|] eqn:E.
  - destruct (IH H) as [Hm Hf]. split; [by right|done].
  - injection H as <-. split; [left|done].
Qed.

Lemma reads_only w cs :
  cs `prefix_of` comparison_script w ->
  subplot_grids cs = [] ->
  cs `prefix_of` map (fun m => ReadPickle (pickle_path m)) models_97_comparison.
Proof.
  unfold comparison_script. intros [k Hk] Hg. simpl in Hk.
  destruct cs as [|x1 [|x2 [|x3 [|x4 cs']]]]; simpl in Hk.
  - by eexists.
  - injection Hk as <- _. by eexists.
  - injection Hk as <- <- _. by eexists.
  - injection Hk as <- <- <- _. by eexists.
  - injection Hk as <- <- <- <- _. discriminate Hg.
Qed.

(** X8: [plot_kw_97_comparison] reads its three tables before it makes the
    figure.  With one of them missing, a run raises without having asked for
    a figure or drawn a line; on a backend that does not fail the exception
    is the file error of the first missing table. *)
Theorem comparison_reads_before_figure (w : World) (model : string) :
  model ∈ ["kw_97_obs"; "kw_97_basic"; "kw_97_extended"] ->
  files w !! pickle_path model = None ->
  let cs := calls_of (issued plot_kw_97_comparison w) in
  (exists e, (plot_kw_97_comparison w).1 = Raise e) /\
  subplot_grids cs = [] /\
  lines_plotted cs = [] /\
  (never_fails (backend w) ->
   exists missing,
     missing ∈ ["kw_97_obs"; "kw_97_basic"; "kw_97_extended"] /\
     files w !! pickle_path missing = None /\
     (plot_kw_97_comparison w).1 = Raise (FileNotFoundError (pickle_path missing))).
Proof.
  intros Hm Hf cs.
  destruct (comparison_outcome_post_inv _ (plot_kw_97_comparison_outcome w))
    as (Hok & Hq & Hg).
  destruct (follows_script_inv _ _ _ (plot_kw_97_comparison_script w))
    as (_ & _ & Hp & _).
  fold cs in Hp, Hg.
  assert (Hmiss : first_missing w models_97_comparison <> None).
  { intros Hn. by apply (first_missing_None _ _ Hn model Hm). }
  split; [|split; [|split]].
  - destruct (plot_kw_97_comparison w).1 as [[]|e] eqn:E; [|by exists e].
    specialize (Hok eq_refl). unfold comparison_outcome in Hok.
    destruct (first_missing w models_97_comparison); [discriminate|done].
  - by apply Hg.
  - pose proof (reads_only w cs Hp (Hg Hmiss)) as Hr.
    apply (omap_prefix (fun c => match c with
                                 | AxPlot ax ys kw => Some (ax, ys, kw)
                                 | _ => None
                                 end)) in Hr.
    by apply prefix_nil_inv in Hr.
  - intros Hn. rewrite (Hq Hn). unfold comparison_outcome.
    destruct (first_missing w models_97_comparison) as [missing|] eqn:E; [|done].
    destruct (first_missing_Some _ _ _ E) as [H1 H2]. by exists missing.
Qed.

Lemma comparison_reads_before_figure_witness :
  let w := mkWorld quiet_backend (delete (pickle_path "kw_97_basic") island_files)
                   [robinson] 0 0 [] in
  (plot_kw_97_comparison w).1 = Raise (FileNotFoundError (pickle_path "kw_97_basic")) /\
  subplot_grids (calls_of (issued plot_kw_97_comparison w)) = [].
Proof.
  intros w.
  destruct (comparison_reads_before_figure w "kw_97_basic") as (_ & Hg & _ & _).
  - vm_compute. right. left.
  - vm_compute. reflexivity.
  - split; [vm_compute; reflexivity|exact Hg].
Defined.

Lemma fst_zip_take {A B} (l : list A) (k : list B) :
  map fst (zip l k) = take (length k) l.
Proof.
  revert k. induction l as [|x l IH]; intros [|y k]; simpl; try done.
  by rewrite IH.
Qed.

Lemma comparison_outcome_ok w :
  comparison_outcome w = Ok tt ->
  (forall m, m ∈ models_97_comparison -> files w !! pickle_path m <> None) /\
  (forall choice,
     choice ∈ take 5 (columns (loaded w "kw_97_extended")) ->
     has_column (loaded w "kw_97_obs") choice = true /\
     has_column (loaded w "kw_97_basic") choice = true).
Proof.
  unfold comparison_outcome.
  destruct (first_missing w models_97_comparison) eqn:E; [discriminate|].
  destruct (List.find _ _) eqn:F; [discriminate|]. intros _.
  split; [by apply first_missing_None|].
  intros choice Hc. rewrite fst_zip_take in F.
  apply list_elem_of_In in Hc.
  pose proof (find_none _ _ F choice Hc) as H. simpl in H.
  apply negb_false_iff, andb_true_iff in H. exact H.
Qed.

(** X9: [plot_kw_97_comparison] returns only if the three tables are on disk
    and every outcome it plots, that is each of the first five columns of
    the extended table, is also a column of the observed and of the basic
    table. *)
Theorem comparison_needs_shared_columns (w : World) :
  (plot_kw_97_comparison w).1 = Ok tt ->
  (forall m, m ∈ ["kw_97_obs"; "kw_97_basic"; "kw_97_extended"] ->
             files w !! pickle_path m <> None) /\
  (forall choice,
     choice ∈ take 5 (columns (loaded w "kw_97_extended")) ->
     has_column (loaded w "kw_97_obs") choice = true /\
     has_column (loaded w "kw_97_basic") choice = true).
Proof.
  destruct (comparison_outcome_post_inv _ (plot_kw_97_comparison_outcome w))
    as (Hok & _ & _).
  intros H. by apply comparison_outcome_ok, Hok.
Qed.

Lemma comparison_needs_shared_columns_witness :
  (files island !! pickle_path "kw_97_obs" <> None) /\
  has_column (loaded island "kw_97_obs") "military" = true /\
  take 5 (columns (loaded island "kw_97_extended")) =
    ["blue_collar"; "white_collar"; "military"; "school"; "home"].
Proof.
  destruct (comparison_needs_shared_columns island) as [Hf Hc].
  - vm_compute. reflexivity.
  - split; [apply Hf; left|].
    split; [|reflexivity].
    apply (Hc "military"). vm_compute.
    repeat first [apply list_elem_of_here|apply list_elem_of_further].
Defined.

(** ** The panels of [plot_kw_97_comparison] *)

(** X10: a run of [plot_kw_97_comparison] that returns has labelled the x axis
    of every axes it gave a title, with "Period", and has asked for one
    legend, on the fifth axes, whatever the number of outcomes: when the
    extended table has fewer than five columns, every line was drawn on an
    earlier axes, so the legend is asked of an axes without lines.  The
    axes it deletes is the sixth. *)
Theorem comparison_legend_on_fifth_axes (w : World) :
  (plot_kw_97_comparison w).1 = Ok tt ->
  let cs := calls_of (issued plot_kw_97_comparison w) in
  axes_legends cs =
    [((4 + axes_made w)%nat,
      [("loc", AStr "lower center"); ("ncol", AInt 5);
       ("bbox_to_anchor", APair (-0.3) (-0.3)); ("fontsize", AInt 12)])] /\
  xlabels_set cs = map (fun '(ax, _) => (ax, "Period")) (titles_set cs) /\
  axes_deleted cs = [(figures w, (5 + axes_made w)%nat)] /\
  ((length (columns (loaded w "kw_97_extended")) < 5)%nat ->
   Forall (fun line => (line.1.1 < 4 + axes_made w)%nat) (lines_plotted cs)).
Proof.
  intros Hok cs.
  destruct (follows_script_inv _ _ _ (plot_kw_97_comparison_script w))
    as (_ & _ & _ & Hs).
  subst cs. rewrite (Hs Hok). unfold comparison_script, comparison_panel.
  destruct (columns (loaded w "kw_97_extended"))
    as [|c1 [|c2 [|c3 [|c4 [|c5 rest]]]]] eqn:Hcols; simpl.
  1-5: repeat split; try reflexivity; intros _; repeat constructor; simpl; lia.
  rewrite zip_with_nil_r. simpl.
  repeat split; try reflexivity. intros H. lia.
Qed.

Lemma comparison_legend_on_fifth_axes_witness :
  let w := mkWorld quiet_backend
             (<[pickle_path "kw_97_extended" :=
                  mkFrame ["blue_collar"; "white_collar"] [[VInt 3; VInt 1]]]>
                island_files)
             [robinson] 0 0 [] in
  map fst (axes_legends (calls_of (issued plot_kw_97_comparison w))) = [4%nat] /\
  map (fun line => line.1.1) (lines_plotted (calls_of (issued plot_kw_97_comparison w))) =
    [0; 0; 0; 1; 1; 1]%nat.
Proof.
  intros w.
  destruct (comparison_legend_on_fifth_axes w) as (Hl & _).
  - vm_compute. reflexivity.
  - split; [by rewrite Hl|vm_compute; reflexivity].
Defined.

Lemma get_string_map f s n :
  String.get n (string_map f s) = option_map f (String.get n s).
Proof.
  revert n. induction s as [|c s IH]; intros n; simpl; [done|].
  destruct n as [|n]; [done|]. apply IH.
Qed.

Lemma no_underscore_left s n :
  String.get n (replace_underscores s) <> Some "_"%char.
Proof.
  unfold replace_underscores. rewrite get_string_map.
  destruct (String.get n s) as [c|]; simpl; [|discriminate].
  destruct (Ascii.eqb_spec c "_"%char) as [->|Hne]; [discriminate|].
  intros H. by injection H.
Qed.

Lemma titles_set_comparison_script w :
  titles_set (comparison_script w) =
    map (fun '(i, (choice, color)) =>
           ((i + axes_made w)%nat, replace_underscores (capitalize choice)))
        (enumerate (zip (columns (loaded w "kw_97_extended")) comparison_colors)).
Proof.
  unfold comparison_script, titles_set. rewrite !omap_app. simpl.
  rewrite app_nil_r.
  induction (enumerate _) as [|[i [choice color]] l IH]; simpl; [done|].
  by rewrite <- IH.
Qed.

(** X11: no title that [plot_kw_97_comparison] sets, in a run that returns
    or not, contains an underscore: the titles are set on the first axes,
    one per plotted column and at most five, and every underscore of the
    column name has been replaced. *)
Theorem comparison_titles (w : World) (ax : axes) (title : string) :
  (ax, title) ∈ titles_set (calls_of (issued plot_kw_97_comparison w)) ->
  (forall n, String.get n title <> Some "_"%char) /\
  (axes_made w <= ax < axes_made w + 5)%nat /\
  (ax < axes_made w + length (columns (loaded w "kw_97_extended")))%nat.
Proof.
  intros H.
  destruct (follows_script_inv _ _ _ (plot_kw_97_comparison_script w))
    as (_ & _ & Hp & _).
  apply (omap_prefix (fun c => match c with
                               | SetTitle ax t _ => Some (ax, t)
                               | _ => None
                               end)) in Hp.
  apply (elem_of_prefix _ _ _ Hp) in H.
  change (omap _ (comparison_script w)) with (titles_set (comparison_script w)) in H.
  rewrite titles_set_comparison_script in H.
  apply list_elem_of_fmap in H as ([i [choice color]] & Heq & Hin).
  injection Heq as -> ->.
  split; [apply no_underscore_left|].
  apply list_elem_of_lookup in Hin as [j Hj].
  assert (Hi : forall {A} (l : list A) n j i x,
             enumerate_from n l !! j = Some (i, x) -> i = (n + j)%nat /\ (j < length l)%nat).
  { clear. intros A l. induction l as [|y l IH]; intros n j i x H; [done|].
    destruct j as [|j]; simpl in H.
    - injection H as <- _. simpl. lia.
    - apply IH in H. simpl. lia. }
  apply Hi in Hj as [-> Hlen]. rewrite length_zip in Hlen. simpl in Hlen. lia.
Qed.

Lemma comparison_titles_witness :
  (forall n, String.get n "White collar" <> Some "_"%char) /\ (1 < 5)%nat.
Proof.
  destruct (comparison_titles island 1%nat "White collar") as (Hn & Ha & _).
  - vm_compute. repeat first [apply list_elem_of_here|apply list_elem_of_further].
  - split; [exact Hn|]. simpl in Ha. lia.
Defined.

(** ** The rounds of [plot_choices_kw] *)

Lemma omap_skeleton {B} (f : call -> option B) (cs : list call) :
  (forall c, f (skeleton c) = f c) -> omap f (map skeleton cs) = omap f cs.
Proof.
  intros Hf. induction cs as [|c cs IH]; simpl; [done|].
  rewrite Hf. destruct (f c); [f_equal|]; exact IH.
Qed.

Lemma legend_kwargs_skeleton cs : legend_kwargs (map skeleton cs) = legend_kwargs cs.
Proof. apply omap_skeleton. by intros []. Qed.

Lemma pickles_read_skeleton cs : pickles_read (map skeleton cs) = pickles_read cs.
Proof. apply omap_skeleton. by intros []. Qed.

Lemma frames_plotted_skeleton cs : frames_plotted (map skeleton cs) = frames_plotted cs.
Proof. apply omap_skeleton. by intros []. Qed.

Lemma subplot_grids_skeleton cs : subplot_grids (map skeleton cs) = subplot_grids cs.
Proof. apply omap_skeleton. by intros []. Qed.

(** X12: every legend that [plot_choices_kw] asks for is placed at the lower
    center, in font size 12, and anchored by the parity of the number of
    subplots: at -0.7 for the three models of "1994", at -0.2 for the two of
    "1997".  A run that returns has asked for one legend per model. *)
Theorem kw_legend_placement (w : World) (example : string) (models : list string)
    (kw : kwargs) :
  (example = "1994" /\ models = ["kw_94_one"; "kw_94_two"; "kw_94_three"]) \/
  (example = "1997" /\ models = ["kw_97_basic"; "kw_97_extended"]) ->
  let cs := calls_of (issued (plot_choices_kw example) w) in
  (kw ∈ legend_kwargs cs ->
   kwarg "loc" kw = Some (AStr "lower center") /\
   kwarg "bbox_to_anchor" kw =
     Some (APair (if String.eqb example "1994" then (-0.7)%Q else (-0.2)%Q) (-0.25)) /\
   kwarg "fontsize" kw = Some (AInt 12)) /\
  ((plot_choices_kw example w).1 = Ok tt ->
   length (legend_kwargs cs) = length models).
Proof.
  intros Hex cs.
  destruct (follows_skeleton_inv _ _ _ (plot_choices_kw_skeleton w example models Hex))
    as (Hp & Hok).
  fold cs in Hp, Hok. split.
  - intros Hin. rewrite <- legend_kwargs_skeleton in Hin.
    apply (omap_prefix (fun c => match c with
                                 | PltLegend _ kw => Some kw
                                 | _ => None
                                 end)) in Hp.
    apply (elem_of_prefix _ _ _ Hp) in Hin.
    destruct Hex as [[-> ->]|[-> ->]]; simpl in Hin;
      repeat (apply elem_of_cons in Hin as [->|Hin]; [by repeat split|]);
      by apply elem_of_nil in Hin.
  - intros H. rewrite <- legend_kwargs_skeleton, (Hok H).
    by destruct Hex as [[-> ->]|[-> ->]].
Qed.

Lemma kw_legend_placement_witness :
  legend_kwargs (calls_of (issued (plot_choices_kw "1994") island)) !! 0%nat =
    Some [("loc", AStr "lower center"); ("ncol", AInt 6);
          ("bbox_to_anchor", APair (-0.7) (-0.25)); ("fontsize", AInt 12)] /\
  length (legend_kwargs (calls_of (issued (plot_choices_kw "1994") island))) = 3%nat.
Proof.
  destruct (kw_legend_placement island "1994" ["kw_94_one"; "kw_94_two"; "kw_94_three"]
              [("loc", AStr "lower center"); ("ncol", AInt 6);
               ("bbox_to_anchor", APair (-0.7) (-0.25)); ("fontsize", AInt 12)])
    as [_ Hn].
  - left. split; reflexivity.
  - split; [vm_compute; reflexivity|apply Hn; vm_compute; reflexivity].
Defined.

Lemma skeleton_subplots c r k kw : skeleton c = Subplots r k kw -> c = Subplots r k kw.
Proof. by destruct c. Qed.

(** X13: [plot_choices_kw] makes its figure first and reads each table in the
    round of its model.  It returns only if every table is on disk.  On a
    backend that does not fail it stops at the first table that is missing,
    with the file error of that table: the figure has been made, the models
    before the missing one have been read and drawn, with their legends,
    and nothing has been drawn for the others. *)
Theorem kw_missing_file (w : World) (example : string) (models : list string) :
  (example = "1994" /\ models = ["kw_94_one"; "kw_94_two"; "kw_94_three"]) \/
  (example = "1997" /\ models = ["kw_97_basic"; "kw_97_extended"]) ->
  let cs := calls_of (issued (plot_choices_kw example) w) in
  let k := loaded_before w models in
  ((plot_choices_kw example w).1 = Ok tt ->
   forall m, m ∈ models -> files w !! pickle_path m <> None) /\
  (cs = [] \/
   exists rest, cs = Subplots 1 (length models) [("figsize", APair 15 5)] :: rest) /\
  (never_fails (backend w) ->
   (plot_choices_kw example w).1 =
     match first_missing w models with
     | Some m => Raise (FileNotFoundError (pickle_path m))
     | None => Ok tt
     end /\
   subplot_grids cs = [(1, length models)]%nat /\
   pickles_read cs = map pickle_path (take (S k) models) /\
   length (frames_plotted cs) = (2 * k)%nat /\
   length (legend_kwargs cs) = k).
Proof.
  intros Hex cs k.
  destruct (follows_skeleton_inv _ _ _ (plot_choices_kw_skeleton w example models Hex))
    as (Hp & _).
  destruct (outcome_post_inv _ _ _ _ (plot_choices_kw_outcome w example models Hex))
    as (Hok & Hq).
  fold cs in Hp. split; [|split].
  - intros H. specialize (Hok H). unfold kw_outcome in Hok.
    destruct (first_missing w models) eqn:E; [discriminate|].
    by apply first_missing_None.
  - destruct cs as [|c rest]; [by left|right]. exists rest. f_equal.
    destruct Hp as [tl Hp]. simpl in Hp. injection Hp as Hc _.
    by apply skeleton_subplots.
  - intros Hn. destruct (Hq Hn) as [Hr Hl]. split; [exact Hr|].
    assert (Hc : map skeleton cs = take (2 + 10 * k) (kw_script w models)).
    { apply prefix_length_take; [done|].
      subst cs. unfold calls_of. by rewrite !length_map. }
    rewrite <- subplot_grids_skeleton, <- pickles_read_skeleton,
      <- frames_plotted_skeleton, <- legend_kwargs_skeleton, Hc.
    subst k. clear -Hex.
    destruct Hex as [[-> ->]|[-> ->]]; simpl loaded_before.
    + destruct (on_disk w "kw_94_one"); [|done].
      destruct (on_disk w "kw_94_two"); [|done].
      by destruct (on_disk w "kw_94_three").
    + destruct (on_disk w "kw_97_basic"); [|done].
      by destruct (on_disk w "kw_97_extended").
Qed.

Lemma kw_missing_file_witness :
  let w := mkWorld quiet_backend (delete (pickle_path "kw_94_two") island_files)
                   [robinson] 0 0 [] in
  (plot_choices_kw "1994" w).1 = Raise (FileNotFoundError (pickle_path "kw_94_two")) /\
  pickles_read (calls_of (issued (plot_choices_kw "1994") w)) =
    [pickle_path "kw_94_one"; pickle_path "kw_94_two"] /\
  length (frames_plotted (calls_of (issued (plot_choices_kw "1994") w))) = 2%nat.
Proof.
  intros w.
  destruct (kw_missing_file w "1994" ["kw_94_one"; "kw_94_two"; "kw_94_three"])
    as (_ & _ & H).
  - left. split; reflexivity.
  - destruct H as (Hr & _ & Hp & Hf & _); [intros t c; reflexivity|].
    split; [rewrite Hr; vm_compute; reflexivity|].
    split; [rewrite Hp; vm_compute; reflexivity|rewrite Hf; vm_compute; reflexivity].
Defined.

(** ** The calls of the functions, one by one *)

(** X14: the calls of [plot_choice_prob_and_exp_level]: one row of two axes;
    the shares of the choices by period, stacked, on the first axes, and the
    shares of the experience levels by period, in blues, on the second; a
    legend under the first and one at the right of the second; then
    [plt.show].  A run makes these calls in this order, all of them when it
    returns. *)
Theorem choice_prob_and_exp_level_calls (w : World) (df : loc) :
  let d := deref (heap w) df in
  let ax := axes_made w in
  let cs := calls_of (issued (plot_choice_prob_and_exp_level df) w) in
  let script :=
    [Subplots 1 2 [("figsize", APair 10 4)];
     GroupByCall df "Period"; GetAttr "Choice"; ValueCounts true; Unstack;
     PlotBar (shares d "Period" "Choice") ax
             [("stacked", ABool true); ("rot", AInt 0);
              ("title", AStr "Choice Probabilities")];
     GroupByCall df "Period"; GetAttr "Experience_Fishing"; ValueCounts true; Unstack;
     PlotBar (shares d "Period" "Experience_Fishing") (S ax)
             [("stacked", ABool true); ("rot", AInt 0);
              ("title", AStr "Share of Experience Level per Period");
              ("cmap", AStr "Blues")];
     AxLegend ax [("loc", AStr "lower center");
                  ("bbox_to_anchor", APair 0.5 (-0.4)); ("ncol", AInt 2)];
     AxLegend (S ax) [("loc", AStr "right"); ("bbox_to_anchor", APair 1.3 0.5);
                      ("ncol", AInt 1); ("title", AStr "Experience")];
     Show] in
  cs `prefix_of` script /\
  ((plot_choice_prob_and_exp_level df w).1 = Ok tt -> cs = script).
Proof.
  intros d ax cs script.
  destruct (follows_script_inv _ _ _ (plot_choice_prob_and_exp_level_run w df))
    as (_ & _ & Hp & Hs).
  by split.
Qed.

Lemma choice_prob_and_exp_level_calls_witness :
  axes_legends (calls_of (issued (plot_choice_prob_and_exp_level 0%nat) island)) =
    [(0%nat, [("loc", AStr "lower center");
              ("bbox_to_anchor", APair 0.5 (-0.4)); ("ncol", AInt 2)]);
     (1%nat, [("loc", AStr "right"); ("bbox_to_anchor", APair 1.3 0.5);
              ("ncol", AInt 1); ("title", AStr "Experience")])].
Proof.
  destruct (choice_prob_and_exp_level_calls island 0%nat) as [_ H].
  rewrite H; [reflexivity|vm_compute; reflexivity].
Defined.

(** X15: the calls of [plot_kw_97_comparison]: the three reads, a grid of
    two rows of three axes, the columns of the extended table, then for
    every outcome, paired with its color, the observed, the basic and the
    extended series on the axes of its rank, with the title and the x label;
    at the end the legend of the fifth axes, the deletion of the sixth, and
    [plt.show].  A run makes these calls in this order, all of them when it
    returns. *)
Theorem comparison_calls (w : World) :
  let cs := calls_of (issued plot_kw_97_comparison w) in
  cs `prefix_of` comparison_script w /\
  ((plot_kw_97_comparison w).1 = Ok tt -> cs = comparison_script w).
Proof.
  intros cs.
  destruct (follows_script_inv _ _ _ (plot_kw_97_comparison_script w))
    as (_ & _ & Hp & Hs).
  by split.
Qed.

Lemma comparison_calls_witness :
  length (calls_of (issued plot_kw_97_comparison island)) = 48%nat /\
  calls_of (issued plot_kw_97_comparison island) !! 5%nat =
    Some (GetItem 1%nat "blue_collar").
Proof.
  destruct (comparison_calls island) as [_ H].
  rewrite H; [split; vm_compute; reflexivity|vm_compute; reflexivity].
Defined.

(** X16: the calls of [plot_choices_kw] with "1994" or "1997": the figure, one
    row of as many axes as models; then for each model, on the axes of its
    rank: the read, the area plot, the outline, the margins, the two spines,
    and the legend built from the current axes; at the end [plt.show].  Up
    to what the backend answered (the current axes and its legend entries) a
    run makes these calls in this order, all of them when it returns. *)
Theorem kw_calls (w : World) (example : string) (models : list string) :
  (example = "1994" /\ models = ["kw_94_one"; "kw_94_two"; "kw_94_three"]) \/
  (example = "1997" /\ models = ["kw_97_basic"; "kw_97_extended"]) ->
  let cs := calls_of (issued (plot_choices_kw example) w) in
  map skeleton cs `prefix_of` kw_script w models /\
  ((plot_choices_kw example w).1 = Ok tt -> map skeleton cs = kw_script w models).
Proof.
  intros Hex cs.
  by destruct (follows_skeleton_inv _ _ _ (plot_choices_kw_skeleton w example models Hex)).
Qed.

Lemma kw_calls_witness :
  map skeleton (calls_of (issued (plot_choices_kw "1997") island)) =
    kw_script island ["kw_97_basic"; "kw_97_extended"] /\
  length (kw_script island ["kw_97_basic"; "kw_97_extended"]) = 22%nat.
Proof.
  destruct (kw_calls island "1997" ["kw_97_basic"; "kw_97_extended"]) as [_ H].
  - right. split; reflexivity.
  - split; [apply H; vm_compute; reflexivity|reflexivity].
Defined.

(** ** The names that matter *)

Lemma zip_map_map {A B C} (f : A -> B) (g : A -> C) (l : list A) :
  zip (map f l) (map g l) = map (fun x => (f x, g x)) l.
Proof. induction l as [|x l IH]; simpl; [done|]. by rewrite IH. Qed.

Lemma shares_ext d1 d2 key col :
  column_values d2 key = column_values d1 key ->
  column_values d2 col = column_values d1 col ->
  shares d2 key col = shares d1 key col.
Proof.
  intros Hk Hc. unfold shares. f_equal. f_equal.
  unfold select. simpl. rewrite <- !zip_map_map.
  change (map (cell d2 key) (rows d2)) with (column_values d2 key).
  change (map (cell d2 col) (rows d2)) with (column_values d2 col).
  by rewrite Hk, Hc.
Qed.

(** X17: [plot_choice_shares], [plot_choice_prob] and
    [plot_choice_prob_and_exp_level] look at nothing but what they name: on
    a backend that does not fail, a dataframe in which Period and Choice
    (and, for the third function, Experience_Fishing) name a column or an
    index level as they do in the input, with the same values, gives in
    place of the input the same result and the same calls, whatever its
    other columns and index levels are. *)
Theorem only_named_columns_matter (w : World) (df : loc) (d2 : DataFrame)
    (friday : bool) :
  let d1 := deref (heap w) df in
  let w2 := with_frame w df d2 in
  let same (c : string) :=
    has_column d2 c = has_column d1 c /\ has_level d2 c = has_level d1 c /\
    column_values d2 c = column_values d1 c in
  let same_run (m : M unit) :=
    (m w2).1 = (m w).1 /\ calls_of (issued m w2) = calls_of (issued m w) in
  never_fails (backend w) ->
  (df < length (heap w))%nat ->
  same "Period" -> same "Choice" ->
  same_run (plot_choice_shares df friday) /\
  same_run (plot_choice_prob df) /\
  (same "Experience_Fishing" -> same_run (plot_choice_prob_and_exp_level df)).
Proof.
  intros d1 w2 same same_run Hq Hdf (HP & HPl & HPv) (HC & _ & HCv).
  subst same same_run. cbv beta.
  assert (Hq2 : never_fails (backend w2)) by exact Hq.
  assert (Hd2 : deref (heap w2) df = d2) by (by apply deref_insert).
  assert (Ha : axes_made w2 = axes_made w) by reflexivity.
  split; [|split].
  - destruct (calls_on_reliable_backend _ _ _ _ _ (plot_choice_shares_run w df friday)
                (plot_choice_shares_outcome w df friday) Hq) as [Hr1 Hc1].
    destruct (calls_on_reliable_backend _ _ _ _ _ (plot_choice_shares_run w2 df friday)
                (plot_choice_shares_outcome w2 df friday) Hq2) as [Hr2 Hc2].
    rewrite Hr1, Hr2, Hc1, Hc2, Hd2, Ha. fold d1.
    unfold choice_shares_calls, choice_shares_outcome, grouped_outcome, grouped_calls,
      groupable, groupby_error.
    by rewrite HP, HPl, HC, (shares_ext d1 d2 "Period" "Choice" HPv HCv).
  - destruct (calls_on_reliable_backend _ _ _ _ _ (plot_choice_prob_run w df)
                (plot_choice_prob_outcome w df) Hq) as [Hr1 Hc1].
    destruct (calls_on_reliable_backend _ _ _ _ _ (plot_choice_prob_run w2 df)
                (plot_choice_prob_outcome w2 df) Hq2) as [Hr2 Hc2].
    rewrite Hr1, Hr2, Hc1, Hc2, Hd2, Ha. fold d1.
    unfold choice_shares_calls, choice_shares_outcome, grouped_outcome, grouped_calls,
      groupable, groupby_error.
    by rewrite HP, HPl, HC, (shares_ext d1 d2 "Period" "Choice" HPv HCv).
  - intros (HE & _ & HEv).
    destruct (calls_on_reliable_backend _ _ _ _ _
                (plot_choice_prob_and_exp_level_run w df)
                (plot_choice_prob_and_exp_level_outcome w df) Hq) as [Hr1 Hc1].
    destruct (calls_on_reliable_backend _ _ _ _ _
                (plot_choice_prob_and_exp_level_run w2 df)
                (plot_choice_prob_and_exp_level_outcome w2 df) Hq2) as [Hr2 Hc2].
    rewrite Hr1, Hr2, Hc1, Hc2, Hd2, Ha. fold d1.
    unfold choice_prob_exp_calls, choice_prob_exp_outcome, grouped_outcome, grouped_calls,
      groupable, groupby_error.
    by rewrite HP, HPl, HC, HE, (shares_ext d1 d2 "Period" "Choice" HPv HCv),
      (shares_ext d1 d2 "Period" "Experience_Fishing" HPv HEv).
Qed.

Lemma only_named_columns_matter_witness :
  let d1 := mkIndexed ["Identifier"; "Period"] ["Choice"]
              [[VInt 0; VInt 0; VStr "fishing"]; [VInt 1; VInt 0; VStr "hammock"];
               [VInt 0; VInt 1; VStr "fishing"]; [VInt 1; VInt 1; VStr "fishing"]] in
  let d2 := mkIndexed ["Period"; "Day"] ["Weather"; "Choice"]
              [[VInt 0; VInt 1; VStr "rain"; VStr "fishing"];
               [VInt 0; VInt 2; VStr "rain"; VStr "hammock"];
               [VInt 1; VInt 3; VStr "sun"; VStr "fishing"];
               [VInt 1; VInt 4; VStr "sun"; VStr "fishing"]] in
  calls_of (issued (plot_choice_prob 0%nat) (with_frame island 0%nat d2)) =
    calls_of (issued (plot_choice_prob 0%nat) (with_frame island 0%nat d1)) /\
  (plot_choice_prob 0%nat (with_frame island 0%nat d2)).1 = Ok tt.
Proof.
  intros d1 d2.
  destruct (only_named_columns_matter (with_frame island 0%nat d1) 0%nat d2 false)
    as (_ & [Hr H] & _).
  - intros t c. reflexivity.
  - simpl. lia.
  - repeat split; reflexivity.
  - repeat split; reflexivity.
  - split; [|vm_compute; reflexivity].
    etransitivity; [|exact H]. reflexivity.
Defined.
